(** * Trace parsing and feature extraction: a shallow embedding

    This development embeds [ground_truth/scripts/feature_extractor.py]:
    the line parser ([parse_syscall_line], [parse_syscall_log]), the
    aggregation ([extract_features]), the exporter ([features_to_dict],
    [get_feature_columns]) and the batch driver ([process_trace_file],
    [process_all_traces]).

    Conventions of the embedding:
    - Python [int] is [Z]; Python [float] is IEEE 754 binary64, given by
      the executable specification [SpecFloat] (prec 53, emax 1024);
    - Python [str] is [string]; text is modelled over the code points
      0 to 255, with the character classes Python gives them;
    - a raised exception is the [Raise] case of [result];
    - [set] is [gset string]; the order in which a [for] loop visits a set
      is a parameter of the extraction (an enumeration of the set);
    - the instance dictionary [__dict__] of an [AppFeatures] object, which
      the exporter reads reflectively, is an insertion-ordered association
      list from attribute names to dynamically typed values. *)

From Stdlib Require Import ZArith Lia Ascii String Btauto.
From Corelib Require Import SpecFloat.
From stdpp Require Import gmap strings list sets sorting.

Open Scope Z_scope.
Open Scope string_scope.

(** ** Exceptions *)

Inductive exn : Type :=
| ValueError      (* int() on a string that is no integer literal; csv extras *)
| OSError.        (* open() on a missing or unreadable file *)

Inductive result (A : Type) : Type :=
| Ok (a : A)
| Raise (e : exn).
Arguments Ok {A} a.
Arguments Raise {A} e.

#[export] Instance result_ret : MRet result := fun A a => Ok a.
#[export] Instance result_bind : MBind result := fun A B k m =>
  match m with
  | Ok a => k a
  | Raise e => Raise e
  end.

Definition is_ok {A : Type} (m : result A) : bool :=
  match m with Ok _ => true | Raise _ => false end.

(** A loop whose body may raise: the first exception ends it. *)
Fixpoint foldM {A B : Type} (f : A → B → result A) (a : A) (l : list B)
  : result A :=
  match l with
  | [] => Ok a
  | b :: l' => a' ← f a b; foldM f a' l'
  end.

(** ** Strings *)

Module PyStr.

Definition code (c : ascii) : nat := nat_of_ascii c.

Definition between (lo hi : nat) (c : ascii) : bool :=
  (lo <=? code c)%nat && (code c <=? hi)%nat.

(** [str.isspace] on one character, also the class [\s] of [re]. *)
Definition is_space (c : ascii) : bool :=
  between 9 13 c || between 28 32 c
  || (code c =? 133)%nat || (code c =? 160)%nat.

Definition is_digit (c : ascii) : bool := between 48 57 c.

(** The class [\w] of [re] on a [str] pattern: alphanumeric or
    underscore. *)
Definition is_word (c : ascii) : bool :=
  is_digit c || between 65 90 c || between 97 122 c || (code c =? 95)%nat
  || (code c =? 170)%nat || between 178 179 c || (code c =? 181)%nat
  || between 185 186 c || between 188 190 c
  || between 192 214 c || between 216 246 c || between 248 255 c.

Definition quote : ascii := ascii_of_nat 34.
Definition newline : ascii := ascii_of_nat 10.

Definition is_empty (s : string) : bool :=
  match s with EmptyString => true | String _ _ => false end.

(** [s.startswith(p)] *)
Definition startswith (s p : string) : bool := String.prefix p s.

(** [s.endswith(suf)] *)
Fixpoint endswith (s suf : string) : bool :=
  (s =? suf)
  || match s with
     | EmptyString => false
     | String _ s' => endswith s' suf
     end.

Fixpoint lstrip_by (p : ascii → bool) (s : string) : string :=
  match s with
  | EmptyString => EmptyString
  | String c s' => if p c then lstrip_by p s' else s
  end.

Fixpoint rstrip_by (p : ascii → bool) (s : string) : string :=
  match s with
  | EmptyString => EmptyString
  | String c s' =>
      let r := rstrip_by p s' in
      if is_empty r && p c then EmptyString else String c r
  end.

(** [s.strip()] *)
Definition strip (s : string) : string :=
  rstrip_by is_space (lstrip_by is_space s).

(** The longest prefix whose characters satisfy [p], and the rest. *)
Fixpoint span (p : ascii → bool) (s : string) : string * string :=
  match s with
  | EmptyString => (EmptyString, EmptyString)
  | String c s' =>
      if p c then let '(a, b) := span p s' in (String c a, b)
      else (EmptyString, s)
  end.

(** [s.replace(old, "")]: the occurrences of [old] are removed from left
    to right, without overlap. [skip] counts the characters of an
    occurrence still to be dropped. *)
Fixpoint remove_from (old : string) (skip : nat) (s : string) : string :=
  match s with
  | EmptyString => EmptyString
  | String c s' =>
      match skip with
      | S k => remove_from old k s'
      | O =>
          if negb (is_empty old) && String.prefix old s
          then remove_from old (String.length old - 1) s'
          else String c (remove_from old 0 s')
      end
  end.

Definition remove_all (old s : string) : string := remove_from old 0 s.

(** The digits of an integer literal: decimal digits, single
    underscores allowed between two digits. [prev] tells that the
    previous character was a digit. *)
Fixpoint digits_val (acc : Z) (prev : bool) (s : string) : option Z :=
  match s with
  | EmptyString => if prev then Some acc else None
  | String c s' =>
      if is_digit c
      then digits_val (10 * acc + Z.of_nat (code c - 48)) true s'
      else if (code c =? 95)%nat && prev then digits_val acc false s'
      else None
  end.

(** The white space that [int] drops around the literal: that of
    [str.isspace] without the separators 28 to 31. *)
Definition is_int_space (c : ascii) : bool :=
  between 9 13 c || (code c =? 32)%nat
  || (code c =? 133)%nat || (code c =? 160)%nat.

(** [int(s)] in base ten: surrounding white space is dropped, one sign
    may precede the digits. [None] stands for the [ValueError]. The
    interpreter's limit on the number of digits is not modelled. *)
Definition py_int (s : string) : option Z :=
  match rstrip_by is_int_space (lstrip_by is_int_space s) with
  | String "-" d => Z.opp <$> digits_val 0 false d
  | String "+" d => digits_val 0 false d
  | d => digits_val 0 false d
  end.

End PyStr.

(** ** Floats *)

Module PyFloat.

Definition prec : Z := 53.
Definition emax : Z := 1024.

Definition zero : spec_float := S754_zero false.

(** Conversion of an [int] operand of a true division, rounded to
    nearest even. (CPython raises [OverflowError] beyond the range of
    binary64, which no list length reaches; the model gives infinity
    there.) *)
Definition of_int (n : Z) : spec_float := binary_normalize prec emax n 0 false.

Definition div (x y : spec_float) : spec_float := SFdiv prec emax x y.
Definition ltb (x y : spec_float) : bool := SFltb x y.
Definition eqb (x y : spec_float) : bool := SFeqb x y.

(** The literal [100.0]. *)
Definition hundred : spec_float := Eval vm_compute in of_int 100.

End PyFloat.

(** ** Regular expressions

    The fragment of [re] that the pattern tables use. Only the existence
    of a match matters to the callers ([re.match] and [re.search] are used
    as truth values), so matching is decided by derivatives. [Eol] is the
    anchor [$]: it holds at the end of the text and before a final
    newline, so the derivative is taken with the remaining text at hand. *)

Module Re.

Inductive regex : Type :=
| Fail                        (* matches nothing *)
| Eps                         (* the empty pattern *)
| Lit (c : ascii)             (* one literal character *)
| Dot                         (* [.]: any character but a newline *)
| Class (cs : list ascii)     (* [[...]] *)
| Digit                       (* [\d] *)
| Eol                         (* [$] *)
| Cat (r1 r2 : regex)
| Alt (r1 r2 : regex)
| Star (r : regex)
| Plus (r : regex)
| Opt (r : regex).

(** A run of literal characters. *)
Fixpoint lit (s : string) : regex :=
  match s with
  | EmptyString => Eps
  | String c EmptyString => Lit c
  | String c s' => Cat (Lit c) (lit s')
  end.

Definition at_eol (rest : string) : bool :=
  match rest with
  | EmptyString => true
  | String c EmptyString => Ascii.eqb c PyStr.newline
  | _ => false
  end.

(** [r] matches the empty word in front of [rest]. *)
Fixpoint nullable (rest : string) (r : regex) : bool :=
  match r with
  | Fail | Lit _ | Dot | Class _ | Digit => false
  | Eps | Star _ | Opt _ => true
  | Eol => at_eol rest
  | Cat r1 r2 => nullable rest r1 && nullable rest r2
  | Alt r1 r2 => nullable rest r1 || nullable rest r2
  | Plus r1 => nullable rest r1
  end.

Definition accepts (b : bool) : regex := if b then Eps else Fail.

(** What is left of [r] after it read [c], the first character of
    [here]. *)
Fixpoint deriv (c : ascii) (here : string) (r : regex) : regex :=
  match r with
  | Fail | Eps | Eol => Fail
  | Lit d => accepts (Ascii.eqb c d)
  | Dot => accepts (negb (Ascii.eqb c PyStr.newline))
  | Class cs => accepts (existsb (Ascii.eqb c) cs)
  | Digit => accepts (PyStr.is_digit c)
  | Cat r1 r2 =>
      Alt (Cat (deriv c here r1) r2)
          (if nullable here r1 then deriv c here r2 else Fail)
  | Alt r1 r2 => Alt (deriv c here r1) (deriv c here r2)
  | Star r1 => Cat (deriv c here r1) (Star r1)
  | Plus r1 => Cat (deriv c here r1) (Star r1)
  | Opt r1 => deriv c here r1
  end.

(** [re.match(r, s)] is not [None]: some prefix of [s] matches. *)
Fixpoint re_match (r : regex) (s : string) : bool :=
  nullable s r
  || match s with
     | EmptyString => false
     | String c s' => re_match (deriv c s r) s'
     end.

(** [re.search(r, s)] is not [None]: a match starts somewhere in [s]. *)
Fixpoint re_search (r : regex) (s : string) : bool :=
  re_match r s
  || match s with
     | EmptyString => false
     | String _ s' => re_search r s'
     end.

End Re.
Import Re.

(** A pattern table: a [dict] from category names to patterns, in the
    order of the source. *)
Definition patterns : Type := list (string * regex).

Definition any : regex := Star Dot.

Definition THREAD_PATTERNS : patterns :=
  [ ("okhttp", Cat (lit "OkHttp") any);
    ("okhttp_task", Cat (lit "OkHttp TaskRunn") any);
    ("rxjava",
      Cat (lit "Rx")
        (Cat (Alt (lit "Cached") (Alt (lit "Computation") (Alt (lit "IO")
               (Alt (lit "Single") (Alt (lit "NewThread") (lit "Scheduler"))))))
             any));
    ("rxjava_cached", Cat (lit "RxCachedThreadS") any);
    ("coroutines", Cat (lit "DefaultDispatch") any);
    ("workmanager", Cat (lit "WM.task") any);
    ("workmanager_alt", Cat (lit "androidx.work") any);
    ("room_io", Cat (lit "arch_disk_io") any);
    ("glide", Cat (Class ["G"; "g"]%char) (Cat (lit "lide") any));
    ("glide_source", Cat (lit "glide-source-th") any);
    ("glide_disk", Cat (lit "glide-disk-cach") any);
    ("coil", Cat (Class ["C"; "c"]%char) (Cat (lit "oil") any));
    ("fresco", Cat (Class ["F"; "f"]%char) (Cat (lit "resco") any));
    ("binder", Cat (lit "binder:") any);
    ("async_task", Cat (lit "AsyncTask") any);
    ("thread_pool",
      Cat (lit "pool-") (Cat (Plus Digit) (Cat (lit "-thread-") (Plus Digit))));
    ("exoplayer", Cat (lit "ExoPlayer") any);
    ("flutter", Cat (Alt (lit "flutter-worker-") (lit "DartWorker")) any);
    ("render_thread", Cat (lit "RenderThread") any) ].

Definition PATH_PATTERNS : patterns :=
  [ ("room_wal", Cat (lit ".db-wal") Eol);
    ("room_shm", Cat (lit ".db-shm") Eol);
    ("room_journal", Cat (lit ".db-journal") Eol);
    ("workmanager_db", lit "androidx.work.workdb");
    ("datastore", Cat (lit "datastore") (Cat any (Cat (lit ".preferences_pb") Eol)));
    ("okhttp_cache", lit "okHttpCache");
    ("okhttp_cache_dir", lit "/cache/okhttp/");
    ("okhttp_journal", Cat (lit "okhttp") (Cat any (lit "journal")));
    ("glide_cache", Alt (lit "glide") (lit "image_manager_disk_cache"));
    ("glide_journal", Cat (lit "image_manager_disk_cache") (Cat any (lit "journal")));
    ("coil_cache", Alt (lit "coil") (lit "image_loader"));
    ("coil_cache_v3", Cat (lit "coil") (Cat (Opt (Lit "3")) (lit "_disk_cache")));
    ("coil_journal", Cat (lit "coil") (Cat any (lit "journal")));
    ("fresco_cache", Alt (lit "fresco") (lit "imagepipeline"));
    ("database", Cat (lit ".db") Eol);
    ("sqlite", Cat (lit ".sqlite") Eol);
    ("sqlite_journal", Cat (lit ".sqlite-journal") Eol);
    ("shared_prefs", Cat (lit "shared_prefs") (Cat any (Cat (lit ".xml") Eol)));
    ("native_lib", Cat (lit ".so") Eol);
    ("cacerts", lit "cacerts");
    ("http_cache", Cat (lit "HTTP") (Cat any (Cat (Class ["C"; "c"]%char) (lit "ache")))) ].

(** [table[key]]. Every key the extraction subscripts is bound (see
    [thread_rules_bound] and [path_rules_bound]), so the [KeyError] case is
    never taken; it is given the pattern that matches nothing. *)
Fixpoint subscript (table : patterns) (key : string) : regex :=
  match table with
  | [] => Fail
  | (k, r) :: table' => if k =? key then r else subscript table' key
  end.

(** ** Event records *)

Record SyscallRecord : Type := {
  timestamp : string;
  syscall : string;
  pid : Z;
  tid : Z;
  uid : Z;
  comm : string;
  path : string;
  fd : Z;
  flags : string;
  count : Z;
  actual : Z;
  family : string;
  ip : string;
  port : Z;
  child_pid : Z;
  clone_type : string;
  prot : string;
  raw_line : string
}.

(** [SyscallRecord(raw_line=line)]: the defaults of the dataclass. *)
Definition new_record (line : string) : SyscallRecord :=
  {| timestamp := ""; syscall := ""; pid := 0; tid := 0; uid := 0;
     comm := ""; path := ""; fd := -1; flags := ""; count := 0; actual := 0;
     family := ""; ip := ""; port := 0; child_pid := 0; clone_type := "";
     prot := ""; raw_line := line |}.

(** Attribute assignments [record.x = v]. *)
Definition set_timestamp (v : string) (r : SyscallRecord) : SyscallRecord :=
  let 'Build_SyscallRecord _ a2 a3 a4 a5 a6 a7 a8 a9 a10 a11 a12 a13 a14 a15 a16 a17 a18 := r in
  Build_SyscallRecord v a2 a3 a4 a5 a6 a7 a8 a9 a10 a11 a12 a13 a14 a15 a16 a17 a18.
Definition set_syscall (v : string) (r : SyscallRecord) : SyscallRecord :=
  let 'Build_SyscallRecord a1 _ a3 a4 a5 a6 a7 a8 a9 a10 a11 a12 a13 a14 a15 a16 a17 a18 := r in
  Build_SyscallRecord a1 v a3 a4 a5 a6 a7 a8 a9 a10 a11 a12 a13 a14 a15 a16 a17 a18.
Definition set_pid (v : Z) (r : SyscallRecord) : SyscallRecord :=
  let 'Build_SyscallRecord a1 a2 _ a4 a5 a6 a7 a8 a9 a10 a11 a12 a13 a14 a15 a16 a17 a18 := r in
  Build_SyscallRecord a1 a2 v a4 a5 a6 a7 a8 a9 a10 a11 a12 a13 a14 a15 a16 a17 a18.
Definition set_tid (v : Z) (r : SyscallRecord) : SyscallRecord :=
  let 'Build_SyscallRecord a1 a2 a3 _ a5 a6 a7 a8 a9 a10 a11 a12 a13 a14 a15 a16 a17 a18 := r in
  Build_SyscallRecord a1 a2 a3 v a5 a6 a7 a8 a9 a10 a11 a12 a13 a14 a15 a16 a17 a18.
Definition set_uid (v : Z) (r : SyscallRecord) : SyscallRecord :=
  let 'Build_SyscallRecord a1 a2 a3 a4 _ a6 a7 a8 a9 a10 a11 a12 a13 a14 a15 a16 a17 a18 := r in
  Build_SyscallRecord a1 a2 a3 a4 v a6 a7 a8 a9 a10 a11 a12 a13 a14 a15 a16 a17 a18.
Definition set_comm (v : string) (r : SyscallRecord) : SyscallRecord :=
  let 'Build_SyscallRecord a1 a2 a3 a4 a5 _ a7 a8 a9 a10 a11 a12 a13 a14 a15 a16 a17 a18 := r in
  Build_SyscallRecord a1 a2 a3 a4 a5 v a7 a8 a9 a10 a11 a12 a13 a14 a15 a16 a17 a18.
Definition set_path (v : string) (r : SyscallRecord) : SyscallRecord :=
  let 'Build_SyscallRecord a1 a2 a3 a4 a5 a6 _ a8 a9 a10 a11 a12 a13 a14 a15 a16 a17 a18 := r in
  Build_SyscallRecord a1 a2 a3 a4 a5 a6 v a8 a9 a10 a11 a12 a13 a14 a15 a16 a17 a18.
Definition set_fd (v : Z) (r : SyscallRecord) : SyscallRecord :=
  let 'Build_SyscallRecord a1 a2 a3 a4 a5 a6 a7 _ a9 a10 a11 a12 a13 a14 a15 a16 a17 a18 := r in
  Build_SyscallRecord a1 a2 a3 a4 a5 a6 a7 v a9 a10 a11 a12 a13 a14 a15 a16 a17 a18.
Definition set_flags (v : string) (r : SyscallRecord) : SyscallRecord :=
  let 'Build_SyscallRecord a1 a2 a3 a4 a5 a6 a7 a8 _ a10 a11 a12 a13 a14 a15 a16 a17 a18 := r in
  Build_SyscallRecord a1 a2 a3 a4 a5 a6 a7 a8 v a10 a11 a12 a13 a14 a15 a16 a17 a18.
Definition set_count (v : Z) (r : SyscallRecord) : SyscallRecord :=
  let 'Build_SyscallRecord a1 a2 a3 a4 a5 a6 a7 a8 a9 _ a11 a12 a13 a14 a15 a16 a17 a18 := r in
  Build_SyscallRecord a1 a2 a3 a4 a5 a6 a7 a8 a9 v a11 a12 a13 a14 a15 a16 a17 a18.
Definition set_actual (v : Z) (r : SyscallRecord) : SyscallRecord :=
  let 'Build_SyscallRecord a1 a2 a3 a4 a5 a6 a7 a8 a9 a10 _ a12 a13 a14 a15 a16 a17 a18 := r in
  Build_SyscallRecord a1 a2 a3 a4 a5 a6 a7 a8 a9 a10 v a12 a13 a14 a15 a16 a17 a18.
Definition set_family (v : string) (r : SyscallRecord) : SyscallRecord :=
  let 'Build_SyscallRecord a1 a2 a3 a4 a5 a6 a7 a8 a9 a10 a11 _ a13 a14 a15 a16 a17 a18 := r in
  Build_SyscallRecord a1 a2 a3 a4 a5 a6 a7 a8 a9 a10 a11 v a13 a14 a15 a16 a17 a18.
Definition set_ip (v : string) (r : SyscallRecord) : SyscallRecord :=
  let 'Build_SyscallRecord a1 a2 a3 a4 a5 a6 a7 a8 a9 a10 a11 a12 _ a14 a15 a16 a17 a18 := r in
  Build_SyscallRecord a1 a2 a3 a4 a5 a6 a7 a8 a9 a10 a11 a12 v a14 a15 a16 a17 a18.
Definition set_port (v : Z) (r : SyscallRecord) : SyscallRecord :=
  let 'Build_SyscallRecord a1 a2 a3 a4 a5 a6 a7 a8 a9 a10 a11 a12 a13 _ a15 a16 a17 a18 := r in
  Build_SyscallRecord a1 a2 a3 a4 a5 a6 a7 a8 a9 a10 a11 a12 a13 v a15 a16 a17 a18.
Definition set_child_pid (v : Z) (r : SyscallRecord) : SyscallRecord :=
  let 'Build_SyscallRecord a1 a2 a3 a4 a5 a6 a7 a8 a9 a10 a11 a12 a13 a14 _ a16 a17 a18 := r in
  Build_SyscallRecord a1 a2 a3 a4 a5 a6 a7 a8 a9 a10 a11 a12 a13 a14 v a16 a17 a18.
Definition set_clone_type (v : string) (r : SyscallRecord) : SyscallRecord :=
  let 'Build_SyscallRecord a1 a2 a3 a4 a5 a6 a7 a8 a9 a10 a11 a12 a13 a14 a15 _ a17 a18 := r in
  Build_SyscallRecord a1 a2 a3 a4 a5 a6 a7 a8 a9 a10 a11 a12 a13 a14 a15 v a17 a18.
Definition set_prot (v : string) (r : SyscallRecord) : SyscallRecord :=
  let 'Build_SyscallRecord a1 a2 a3 a4 a5 a6 a7 a8 a9 a10 a11 a12 a13 a14 a15 a16 _ a18 := r in
  Build_SyscallRecord a1 a2 a3 a4 a5 a6 a7 a8 a9 a10 a11 a12 a13 a14 a15 a16 v a18.

(** ** The line parser *)

(** The second alternative of the value: a non-empty run of characters
    that are no white space. *)
Definition unquoted (key rest : string) : option (string * string * nat) :=
  let '(v, _) := PyStr.span (fun c => negb (PyStr.is_space c)) rest in
  if PyStr.is_empty v then None
  else Some (key, v, (String.length key + 1 + String.length v)%nat).

(** The text up to the next double quote, when there is one. *)
Fixpoint upto_quote (s : string) : option string :=
  match s with
  | EmptyString => None
  | String c s' =>
      if Ascii.eqb c PyStr.quote then Some EmptyString
      else String c <$> upto_quote s'
  end.

(** One attempt, at the start of [s], of the token pattern of the parser:
    a key of one or more word characters, an equals sign, then either a
    value between double quotes (any characters but a double quote) or a
    non-empty run of characters that are no white space. The result is the
    key, the value (group 3 when the quoted alternative matched, group 4
    otherwise) and the length of the match. The key is the whole run of
    word characters (a shorter key is followed by a word character, not by
    the equals sign); the quoted alternative is tried first and needs its
    closing quote. *)
Definition match_token (s : string) : option (string * string * nat) :=
  let '(key, r1) := PyStr.span PyStr.is_word s in
  if PyStr.is_empty key then None
  else
    match r1 with
    | String "=" r2 =>
        match r2 with
        | String q r3 =>
            if Ascii.eqb q PyStr.quote then
              match upto_quote r3 with
              | Some v =>
                  Some (key, v, (String.length key + 1 + String.length v + 2)%nat)
              | None => unquoted key r2
              end
            else unquoted key r2
        | EmptyString => None
        end
    | _ => None
    end.

(** [re.finditer(pattern, line)]: the matches from left to right, without
    overlap. [skip] counts the characters of the last match still to be
    passed over. *)
Fixpoint finditer_from (skip : nat) (s : string) : list (string * string) :=
  match s with
  | EmptyString => []
  | String _ s' =>
      match skip with
      | S k => finditer_from k s'
      | O =>
          match match_token s with
          | Some (key, value, n) => (key, value) :: finditer_from (n - 1) s'
          | None => finditer_from 0 s'
          end
      end
  end.

Definition finditer (line : string) : list (string * string) :=
  finditer_from 0 line.

(** [int(value)], raising [ValueError]. *)
Definition int (value : string) : result Z :=
  match PyStr.py_int value with
  | Some n => Ok n
  | None => Raise ValueError
  end.

(** The keys whose value goes through [int]. *)
Definition int_keys : list string :=
  ["pid"; "tid"; "uid"; "fd"; "count"; "actual"; "port"; "child_pid"].

(** The body of the loop over the matches: the chain of [if]/[elif] on
    the key. An unrecognised key changes nothing. *)
Definition assign (record : SyscallRecord) (kv : string * string)
  : result SyscallRecord :=
  let '(key, value) := kv in
  if key =? "ts" then Ok (set_timestamp value record)
  else if key =? "syscall" then Ok (set_syscall value record)
  else if key =? "pid" then n ← int value; Ok (set_pid n record)
  else if key =? "tid" then n ← int value; Ok (set_tid n record)
  else if key =? "uid" then n ← int value; Ok (set_uid n record)
  else if key =? "comm" then Ok (set_comm value record)
  else if key =? "path" then Ok (set_path value record)
  else if key =? "fd" then n ← int value; Ok (set_fd n record)
  else if key =? "flags" then Ok (set_flags value record)
  else if key =? "count" then n ← int value; Ok (set_count n record)
  else if key =? "actual" then n ← int value; Ok (set_actual n record)
  else if key =? "family" then Ok (set_family value record)
  else if key =? "ip" then Ok (set_ip value record)
  else if key =? "port" then n ← int value; Ok (set_port n record)
  else if key =? "child_pid" then n ← int value; Ok (set_child_pid n record)
  else if key =? "type" then Ok (set_clone_type value record)
  else if key =? "prot" then Ok (set_prot value record)
  else Ok record.

(** [parse_syscall_line]: [Ok None] is the return value [None],
    [Ok (Some r)] a record, [Raise e] an exception that leaves the
    function. *)
Definition parse_syscall_line (line : string) : result (option SyscallRecord) :=
  if PyStr.is_empty (PyStr.strip line) || PyStr.startswith line "#"
  then Ok None
  else
    record ← foldM assign (new_record line) (finditer line);
    Ok (if PyStr.is_empty (syscall record) then None else Some record).

(** An opened file, as the lines its iteration yields; [None] is a file
    that [open] cannot read (it raises [OSError]). *)
Definition file : Type := option (list string).

(** The loop of [parse_syscall_log] over the lines. *)
Definition collect (records : list SyscallRecord) (line : string)
  : result (list SyscallRecord) :=
  record ← parse_syscall_line line;
  Ok (match record with
      | Some r => (records ++ [r])%list
      | None => records
      end).

Definition parse_syscall_log (f : file) : result (list SyscallRecord) :=
  match f with
  | None => Raise OSError
  | Some lines => foldM collect [] lines
  end.

(** ** Objects and dictionaries *)

(** The values an attribute of [AppFeatures] can hold. *)
Inductive pyval : Type :=
| VStr (s : string)
| VInt (n : Z)
| VFloat (x : spec_float)
| VBool (b : bool)
| VSet (s : gset string).

(** An insertion-ordered [dict] with string keys: the instance
    dictionary [__dict__] of an object, or a plain [dict]. *)
Definition pydict : Type := list (string * pyval).

(** [d.get(k)] *)
Fixpoint dict_get (k : string) (d : pydict) : option pyval :=
  match d with
  | [] => None
  | (k', v) :: d' => if k' =? k then Some v else dict_get k d'
  end.

(** [d[k] = v]: a bound key keeps its place, a new key goes last. *)
Fixpoint dict_set (k : string) (v : pyval) (d : pydict) : pydict :=
  match d with
  | [] => [(k, v)]
  | (k', v') :: d' =>
      if k' =? k then (k, v) :: d' else (k', v') :: dict_set k v d'
  end.

(** [list(d.keys())] *)
Definition keys (d : pydict) : list string := map fst d.

(** Reading an attribute that holds a number. ([bool] is a subclass of
    [int].) The attributes read this way are bound to numbers from the
    construction of the object on, see [AppFeatures]; the other cases are
    never taken. *)
Definition get_int (k : string) (o : pydict) : Z :=
  match dict_get k o with
  | Some (VInt n) => n
  | Some (VBool b) => if b then 1 else 0
  | _ => 0
  end.

Definition get_float (k : string) (o : pydict) : spec_float :=
  match dict_get k o with
  | Some (VFloat x) => x
  | Some (VInt n) => PyFloat.of_int n
  | _ => PyFloat.zero
  end.

(** [o.k += n] and [o.k = True] *)
Definition iadd (k : string) (n : Z) (o : pydict) : pydict :=
  dict_set k (VInt (get_int k o + n)) o.
Definition incr (k : string) (o : pydict) : pydict := iadd k 1 o.
Definition set_true (k : string) (o : pydict) : pydict :=
  dict_set k (VBool true) o.

(** ** Feature vectors *)

(** [AppFeatures(package=package)]: the generated [__init__] binds the
    fields in the order of their declaration, the three sets by their
    [default_factory]. *)
Definition AppFeatures (package : string) : pydict :=
  [ ("package", VStr package);
    ("total_syscalls", VInt 0);
    ("trace_duration_sec", VFloat PyFloat.zero);
    ("has_okhttp_thread", VBool false);
    ("has_okhttp_task_thread", VBool false);
    ("has_rxjava_thread", VBool false);
    ("has_rxjava_cached_thread", VBool false);
    ("has_coroutine_thread", VBool false);
    ("has_workmanager_thread", VBool false);
    ("has_workmanager_alt_thread", VBool false);
    ("has_room_io_thread", VBool false);
    ("has_glide_thread", VBool false);
    ("has_glide_source_thread", VBool false);
    ("has_glide_disk_thread", VBool false);
    ("has_coil_thread", VBool false);
    ("has_fresco_thread", VBool false);
    ("has_exoplayer_thread", VBool false);
    ("has_flutter_thread", VBool false);
    ("has_async_task_thread", VBool false);
    ("has_room_wal", VBool false);
    ("has_room_shm", VBool false);
    ("has_room_journal", VBool false);
    ("has_workmanager_db", VBool false);
    ("has_datastore", VBool false);
    ("has_okhttp_cache", VBool false);
    ("has_okhttp_cache_dir", VBool false);
    ("has_okhttp_journal", VBool false);
    ("has_glide_cache", VBool false);
    ("has_glide_journal", VBool false);
    ("has_coil_cache", VBool false);
    ("has_coil_cache_v3", VBool false);
    ("has_coil_journal", VBool false);
    ("has_fresco_cache", VBool false);
    ("has_cacerts_access", VBool false);
    ("has_http_cache", VBool false);
    ("has_ipv4_connect", VBool false);
    ("has_ipv6_connect", VBool false);
    ("num_port_443_connects", VInt 0);
    ("num_unique_threads", VInt 0);
    ("num_threads_spawned", VInt 0);
    ("num_databases", VInt 0);
    ("num_shared_prefs", VInt 0);
    ("num_native_libs", VInt 0);
    ("num_tcp_sockets", VInt 0);
    ("num_udp_sockets", VInt 0);
    ("num_unix_sockets", VInt 0);
    ("num_network_connects", VInt 0);
    ("num_unique_ips", VInt 0);
    ("num_openat", VInt 0);
    ("num_read", VInt 0);
    ("num_write", VInt 0);
    ("num_close", VInt 0);
    ("num_clone", VInt 0);
    ("num_mmap", VInt 0);
    ("num_socket", VInt 0);
    ("num_connect", VInt 0);
    ("total_bytes_read", VInt 0);
    ("total_bytes_written", VInt 0);
    ("syscalls_per_second", VFloat PyFloat.zero);
    ("threads_per_second", VFloat PyFloat.zero);
    ("_thread_names", VSet ∅);
    ("_file_paths", VSet ∅);
    ("_ip_addresses", VSet ∅) ].

(** ** Feature extraction *)

(** The local variables of [extract_features] that the first loop
    updates. *)
Module Loc.
Record tally : Type := {
  features : pydict;
  thread_names : gset string;
  file_paths : gset string;
  ip_addresses : gset string;
  database_files : gset string;
  first_ts : option string;
  last_ts : option string
}.
End Loc.
Definition truthy (s : string) : bool := negb (PyStr.is_empty s).

(** [s.add(x)] *)
Definition add (x : string) (s : gset string) : gset string := {[x]} ∪ s.

(** The chain of [if]/[elif] on the syscall name: what it does to the
    feature vector, to the set of addresses and to the set of database
    files. *)
Definition dispatch (record : SyscallRecord)
    (features : pydict) (ip_addresses database_files : gset string)
  : pydict * gset string * gset string :=
  let syscall := syscall record in
  if (syscall =? "openat") || (syscall =? "open") then
    let features := incr "num_openat" features in
    let database_files :=
      if PyStr.endswith (path record) ".db"
      then add (path record) database_files else database_files in
    (features, ip_addresses, database_files)
  else if syscall =? "read" then
    let features := incr "num_read" features in
    let features := iadd "total_bytes_read" (actual record) features in
    (features, ip_addresses, database_files)
  else if syscall =? "write" then
    let features := incr "num_write" features in
    let features := iadd "total_bytes_written" (actual record) features in
    (features, ip_addresses, database_files)
  else if syscall =? "close" then
    (incr "num_close" features, ip_addresses, database_files)
  else if syscall =? "clone" then
    let features := incr "num_clone" features in
    let features :=
      if clone_type record =? "thread"
      then incr "num_threads_spawned" features else features in
    (features, ip_addresses, database_files)
  else if syscall =? "mmap" then
    (incr "num_mmap" features, ip_addresses, database_files)
  else if syscall =? "socket" then
    let features := incr "num_socket" features in
    let features :=
      if (family record =? "ipv4") || (family record =? "ipv6")
      then incr "num_tcp_sockets" features
      else if family record =? "unix"
      then incr "num_unix_sockets" features
      else features in
    (features, ip_addresses, database_files)
  else if syscall =? "connect" then
    let features := incr "num_connect" features in
    let features := incr "num_network_connects" features in
    let ip_addresses :=
      if truthy (ip record) then add (ip record) ip_addresses
      else ip_addresses in
    let features :=
      if family record =? "ipv4" then set_true "has_ipv4_connect" features
      else if family record =? "ipv6" then set_true "has_ipv6_connect" features
      else features in
    let features :=
      if (port record =? 443)%Z then incr "num_port_443_connects" features
      else features in
    (features, ip_addresses, database_files)
  else (features, ip_addresses, database_files).

(** The body of the loop over the records. *)
Definition tally_step (st : Loc.tally) (record : SyscallRecord) : Loc.tally :=
  let first_ts :=
    if truthy (timestamp record) then
      match Loc.first_ts st with
      | None => Some (timestamp record)
      | Some t => Some t
      end
    else Loc.first_ts st in
  let last_ts :=
    if truthy (timestamp record) then Some (timestamp record)
    else Loc.last_ts st in
  let thread_names :=
    if truthy (comm record) then add (comm record) (Loc.thread_names st)
    else Loc.thread_names st in
  let file_paths :=
    if truthy (path record) then add (path record) (Loc.file_paths st)
    else Loc.file_paths st in
  let '(features, ip_addresses, database_files) :=
    dispatch record (Loc.features st) (Loc.ip_addresses st)
      (Loc.database_files st) in
  Loc.Build_tally features thread_names file_paths ip_addresses
    database_files first_ts last_ts.

(** The locals before the loop. *)
Definition start (features : pydict) : Loc.tally :=
  Loc.Build_tally features ∅ ∅ ∅ ∅ None None.

(** [if c: features.attr = True] and [if c: features.attr += 1] *)
Definition flag_if (c : bool) (attr : string) (features : pydict) : pydict :=
  if c then set_true attr features else features.
Definition count_if (c : bool) (attr : string) (features : pydict) : pydict :=
  if c then incr attr features else features.

Definition thread_is (category thread_name : string) : bool :=
  re_match (subscript THREAD_PATTERNS category) thread_name.
Definition path_is (category path : string) : bool :=
  re_search (subscript PATH_PATTERNS category) path.

(** The body of the loop over the thread names. *)
Definition classify_thread (features : pydict) (thread_name : string) : pydict :=
  let features := flag_if (thread_is "okhttp" thread_name) "has_okhttp_thread" features in
  let features := flag_if (thread_is "okhttp_task" thread_name) "has_okhttp_task_thread" features in
  let features := flag_if (thread_is "rxjava" thread_name) "has_rxjava_thread" features in
  let features := flag_if (thread_is "rxjava_cached" thread_name) "has_rxjava_cached_thread" features in
  let features := flag_if (thread_is "coroutines" thread_name) "has_coroutine_thread" features in
  let features := flag_if (thread_is "workmanager" thread_name) "has_workmanager_thread" features in
  let features := flag_if (thread_is "workmanager_alt" thread_name) "has_workmanager_alt_thread" features in
  let features := flag_if (thread_is "room_io" thread_name) "has_room_io_thread" features in
  let features := flag_if (thread_is "glide" thread_name) "has_glide_thread" features in
  let features := flag_if (thread_is "glide_source" thread_name) "has_glide_source_thread" features in
  let features := flag_if (thread_is "glide_disk" thread_name) "has_glide_disk_thread" features in
  let features := flag_if (thread_is "coil" thread_name) "has_coil_thread" features in
  let features := flag_if (thread_is "fresco" thread_name) "has_fresco_thread" features in
  let features := flag_if (thread_is "exoplayer" thread_name) "has_exoplayer_thread" features in
  let features := flag_if (thread_is "flutter" thread_name) "has_flutter_thread" features in
  let features := flag_if (thread_is "async_task" thread_name) "has_async_task_thread" features in
  features.

(** The body of the loop over the paths. *)
Definition classify_path (features : pydict) (path : string) : pydict :=
  let features := flag_if (path_is "room_wal" path) "has_room_wal" features in
  let features := flag_if (path_is "room_shm" path) "has_room_shm" features in
  let features := flag_if (path_is "room_journal" path) "has_room_journal" features in
  let features := flag_if (path_is "workmanager_db" path) "has_workmanager_db" features in
  let features := flag_if (path_is "datastore" path) "has_datastore" features in
  let features := flag_if (path_is "okhttp_cache" path) "has_okhttp_cache" features in
  let features := flag_if (path_is "okhttp_cache_dir" path) "has_okhttp_cache_dir" features in
  let features := flag_if (path_is "okhttp_journal" path) "has_okhttp_journal" features in
  let features := flag_if (path_is "glide_cache" path) "has_glide_cache" features in
  let features := flag_if (path_is "glide_journal" path) "has_glide_journal" features in
  let features := flag_if (path_is "coil_cache" path) "has_coil_cache" features in
  let features := flag_if (path_is "coil_cache_v3" path) "has_coil_cache_v3" features in
  let features := flag_if (path_is "coil_journal" path) "has_coil_journal" features in
  let features := flag_if (path_is "fresco_cache" path) "has_fresco_cache" features in
  let features := flag_if (path_is "cacerts" path) "has_cacerts_access" features in
  let features := flag_if (path_is "http_cache" path) "has_http_cache" features in
  let features := count_if (path_is "shared_prefs" path) "num_shared_prefs" features in
  let features := count_if (path_is "native_lib" path) "num_native_libs" features in
  features.

(** [len(s)] *)
Definition len (s : gset string) : Z := Z.of_nat (size s).

(** The end of [extract_features]: the estimated duration and the
    rates. *)
Definition rates (features : pydict) : pydict :=
  let features :=
    dict_set "trace_duration_sec"
      (VFloat (PyFloat.div (PyFloat.of_int (get_int "total_syscalls" features))
                 PyFloat.hundred)) features in
  if PyFloat.ltb PyFloat.zero (get_float "trace_duration_sec" features) then
    let features :=
      dict_set "syscalls_per_second"
        (VFloat (PyFloat.div (PyFloat.of_int (get_int "total_syscalls" features))
                   (get_float "trace_duration_sec" features))) features in
    let features :=
      dict_set "threads_per_second"
        (VFloat (PyFloat.div (PyFloat.of_int (get_int "num_threads_spawned" features))
                   (get_float "trace_duration_sec" features))) features in
    features
  else features.

Section Extraction.

(** The order in which a [for] loop visits a set of strings. It depends
    on the hashes of the strings, which change from one run of the
    interpreter to the next; the model takes it as a parameter. *)
Variable iter : gset string → list string.

Definition extract_features (records : list SyscallRecord) (package : string)
  : pydict :=
  let features := AppFeatures package in
  match records with
  | [] => features
  | _ :: _ =>
      let features :=
        dict_set "total_syscalls" (VInt (Z.of_nat (length records))) features in
      let st := fold_left tally_step records (start features) in
      let thread_names := Loc.thread_names st in
      let file_paths := Loc.file_paths st in
      let ip_addresses := Loc.ip_addresses st in
      let database_files := Loc.database_files st in
      let features := Loc.features st in
      let features := dict_set "_thread_names" (VSet thread_names) features in
      let features := dict_set "_file_paths" (VSet file_paths) features in
      let features := dict_set "_ip_addresses" (VSet ip_addresses) features in
      let features := fold_left classify_thread (iter thread_names) features in
      let features := fold_left classify_path (iter file_paths) features in
      let features :=
        dict_set "num_unique_threads" (VInt (len thread_names)) features in
      let features :=
        dict_set "num_databases" (VInt (len database_files)) features in
      let features :=
        dict_set "num_unique_ips" (VInt (len ip_addresses)) features in
      rates features
  end.

End Extraction.

(** An enumeration of sets: every member once, in some order. *)
Definition enumerates (iter : gset string → list string) : Prop :=
  ∀ s, iter s ≡ₚ elements s.

(** ** The exporter *)

(** [features_to_dict]: the loop over [features.__dict__.items()]. *)
Definition export_item (result : pydict) (item : string * pyval) : pydict :=
  let '(key, value) := item in
  if PyStr.startswith key "_" then result
  else
    match value with
    | VBool b => dict_set key (VInt (if b then 1 else 0)) result
    | _ => dict_set key value result
    end.

Definition features_to_dict (features : pydict) : pydict :=
  fold_left export_item features [].

(** [get_feature_columns]: the loop over the keys of a fresh
    [AppFeatures()]. *)
Definition get_feature_columns : list string :=
  fold_left
    (fun columns key =>
       if negb (PyStr.startswith key "_") then (columns ++ [key])%list
       else columns)
    (keys (AppFeatures "")) [].

(** ** The batch driver *)

(** What the driver sees of the file system: the names in the trace
    directory, in the order the directory enumerates them, and for each
    path what [open] gives. *)
Record filesystem : Type := {
  listdir : list string;
  open_ : string → file
}.

(** [os.path.basename]: what follows the last slash. *)
Fixpoint basename (p : string) : string :=
  match p with
  | EmptyString => EmptyString
  | String c p' =>
      if existsb (Ascii.eqb "/") (list_ascii_of_string p') then basename p'
      else if Ascii.eqb c "/" then p' else p
  end.

Section Batch.

Variable iter : gset string → list string.
Variable fs : filesystem.

Definition process_trace_file (trace_path package : string) : result pydict :=
  let package :=
    if truthy package then package
    else
      let filename := basename trace_path in
      PyStr.remove_all ".log" (PyStr.remove_all ".syscall.log" filename) in
  records ← parse_syscall_log (open_ fs trace_path);
  Ok (extract_features iter records package).

(** [Path(trace_dir).glob('*.log')], for a directory path that does not
    end in a slash. *)
Definition glob_log (trace_dir : string) : list string :=
  (fun name => trace_dir +:+ "/" +:+ name)
    <$> filter (fun name => PyStr.endswith name ".log" = true) (listdir fs).

(** [sorted], on paths that are compared as strings. *)
Fixpoint insert_sorted (p : string) (l : list string) : list string :=
  match l with
  | [] => [p]
  | q :: l' => if String.ltb p q then p :: l else q :: insert_sorted p l'
  end.

Definition sorted (l : list string) : list string :=
  foldr insert_sorted [] l.

(** [csv.DictWriter.writerow]: a key outside the field names raises
    [ValueError]; a field name the row lacks gives the empty string. *)
Definition csv_row (fieldnames : list string) (row : pydict)
  : result (list pyval) :=
  if forallb (fun k => existsb (String.eqb k) fieldnames) (keys row)
  then Ok ((fun k => default (VStr "") (dict_get k row)) <$> fieldnames)
  else Raise ValueError.

(** What a run of [process_all_traces] leaves: nothing written (no
    trace file found), or the header and the rows of the dataset. The
    output file is taken to be writable. *)
Inductive outcome : Type :=
| NoTraceFiles
| Written (header : list string) (rows : list (list pyval)).

Definition process_all_traces (trace_dir : string) : result outcome :=
  let trace_files := glob_log trace_dir in
  match trace_files with
  | [] => Ok NoTraceFiles
  | _ :: _ =>
      all_features ←
        foldM (fun all_features trace_path =>
                 features ← process_trace_file trace_path "";
                 Ok (all_features ++ [features_to_dict features])%list)
              [] (sorted trace_files);
      let columns := get_feature_columns in
      rows ←
        foldM (fun rows row => r ← csv_row columns row; Ok (rows ++ [r])%list)
              [] all_features;
      Ok (Written columns rows)
  end.

End Batch.

(** ** Vocabulary of the statements *)

(** The attribute names of a feature vector, in the order of the
    dataclass. *)
Definition fields : list string := keys (AppFeatures "").

(** An instance dictionary with the attributes of [AppFeatures], in
    their order. *)
Definition shaped (o : pydict) : Prop := keys o = fields.

Definition bound (k : string) : bool := existsb (String.eqb k) fields.

(** The two classification loops as rule lists: each [if] of the loop
    bodies tests one category and either sets a flag or counts. *)
Inductive action : Type := SetFlag | Count.

Definition rule : Type := string * action * string.

Definition attr_of (r : rule) : string := r.2.

Definition apply_rule (is_a : string → string → bool) (x : string)
    (features : pydict) (r : rule) : pydict :=
  match r with
  | (category, SetFlag, attr) => flag_if (is_a category x) attr features
  | (category, Count, attr) => count_if (is_a category x) attr features
  end.

Definition run_rules (is_a : string → string → bool) (rules : list rule)
    (features : pydict) (x : string) : pydict :=
  fold_left (apply_rule is_a x) rules features.

Definition thread_rules : list rule :=
  [ ("okhttp", SetFlag, "has_okhttp_thread");
    ("okhttp_task", SetFlag, "has_okhttp_task_thread");
    ("rxjava", SetFlag, "has_rxjava_thread");
    ("rxjava_cached", SetFlag, "has_rxjava_cached_thread");
    ("coroutines", SetFlag, "has_coroutine_thread");
    ("workmanager", SetFlag, "has_workmanager_thread");
    ("workmanager_alt", SetFlag, "has_workmanager_alt_thread");
    ("room_io", SetFlag, "has_room_io_thread");
    ("glide", SetFlag, "has_glide_thread");
    ("glide_source", SetFlag, "has_glide_source_thread");
    ("glide_disk", SetFlag, "has_glide_disk_thread");
    ("coil", SetFlag, "has_coil_thread");
    ("fresco", SetFlag, "has_fresco_thread");
    ("exoplayer", SetFlag, "has_exoplayer_thread");
    ("flutter", SetFlag, "has_flutter_thread");
    ("async_task", SetFlag, "has_async_task_thread") ].

Definition path_rules : list rule :=
  [ ("room_wal", SetFlag, "has_room_wal");
    ("room_shm", SetFlag, "has_room_shm");
    ("room_journal", SetFlag, "has_room_journal");
    ("workmanager_db", SetFlag, "has_workmanager_db");
    ("datastore", SetFlag, "has_datastore");
    ("okhttp_cache", SetFlag, "has_okhttp_cache");
    ("okhttp_cache_dir", SetFlag, "has_okhttp_cache_dir");
    ("okhttp_journal", SetFlag, "has_okhttp_journal");
    ("glide_cache", SetFlag, "has_glide_cache");
    ("glide_journal", SetFlag, "has_glide_journal");
    ("coil_cache", SetFlag, "has_coil_cache");
    ("coil_cache_v3", SetFlag, "has_coil_cache_v3");
    ("coil_journal", SetFlag, "has_coil_journal");
    ("fresco_cache", SetFlag, "has_fresco_cache");
    ("cacerts", SetFlag, "has_cacerts_access");
    ("http_cache", SetFlag, "has_http_cache");
    ("shared_prefs", Count, "num_shared_prefs");
    ("native_lib", Count, "num_native_libs") ].

(** The rule that writes attribute [k], if any. *)
Definition rule_for (k : string) (rules : list rule) : option rule :=
  find (fun r => attr_of r =? k) rules.

(** How many of [xs] belong to [category]. *)
Definition num_match (is_a : string → string → bool) (category : string)
    (xs : list string) : nat :=
  length (filter (fun x => is_a category x = true) xs).

(** What the loop over [xs] leaves in attribute [k]. *)
Definition classified (is_a : string → string → bool) (rules : list rule)
    (xs : list string) (features : pydict) (k : string) : option pyval :=
  match rule_for k rules with
  | None => dict_get k features
  | Some (category, act, _) =>
      match num_match is_a category xs, act with
      | O, _ => dict_get k features
      | S _, SetFlag => Some (VBool true)
      | S n, Count => Some (VInt (get_int k features + Z.of_nat (S n)))
      end
  end.

(** The distinct non-empty values of a field over the records. *)
Definition seen (field : SyscallRecord → string)
    (records : list SyscallRecord) : gset string :=
  list_to_set (filter (fun s => truthy s = true) (field <$> records)).

(** The value of the last match with key [key], [d] if there is none. *)
Definition last_value (key : string) (tokens : list (string * string))
    (d : string) : string :=
  fold_left (fun acc kv => if kv.1 =? key then kv.2 else acc) tokens d.

(** A match whose value [int] refuses. *)
Definition malformed (kv : string * string) : bool :=
  existsb (String.eqb kv.1) int_keys
  && match PyStr.py_int kv.2 with
     | None => true
     | Some _ => false
     end.

(** A string of white space only. *)
Fixpoint blank (s : string) : bool :=
  match s with
  | EmptyString => true
  | String c s' => PyStr.is_space c && blank s'
  end.

(** Positive floats: plus infinity, or finite with a mantissa below
    2^53 and an exponent not below [E]. *)
Definition at_least (E : Z) (x : spec_float) : Prop :=
  match x with
  | S754_infinity false => True
  | S754_finite false m e => (Z.pos m < 2 ^ 53)%Z ∧ (E <= e)%Z
  | _ => False
  end.

(** What one rule leaves in attribute [k] when the loop body runs on
    [x]. *)
Definition fired (is_a : string → string → bool) (r : rule) (x : string)
    (features : pydict) (k : string) : option pyval :=
  match r with
  | (category, SetFlag, _) =>
      if is_a category x then Some (VBool true) else dict_get k features
  | (category, Count, _) =>
      if is_a category x then Some (VInt (get_int k features + 1))
      else dict_get k features
  end.

(** The attributes that the loop over the records writes. *)
Definition tally_attrs : list string :=
  ["num_openat"; "num_read"; "total_bytes_read"; "num_write";
   "total_bytes_written"; "num_close"; "num_clone"; "num_threads_spawned";
   "num_mmap"; "num_socket"; "num_tcp_sockets"; "num_unix_sockets";
   "num_connect"; "num_network_connects"; "has_ipv4_connect";
   "has_ipv6_connect"; "num_port_443_connects"].

(** The attributes that [extract_features] writes outside its two
    classification loops and its loop over the records. *)
Definition late_attrs : list string :=
  ["total_syscalls"; "_thread_names"; "_file_paths"; "_ip_addresses";
   "num_unique_threads"; "num_databases"; "num_unique_ips";
   "trace_duration_sec"; "syscalls_per_second"; "threads_per_second"].

(** The stages of [extract_features] on a non-empty list of records: the
    locals after the loop over the records, the feature vector with the
    three working sets stored, and the cardinalities. *)
Definition tallied (records : list SyscallRecord) (package : string)
  : Loc.tally :=
  fold_left tally_step records
    (start (dict_set "total_syscalls" (VInt (Z.of_nat (length records)))
              (AppFeatures package))).

Definition published (st : Loc.tally) : pydict :=
  dict_set "_ip_addresses" (VSet (Loc.ip_addresses st))
    (dict_set "_file_paths" (VSet (Loc.file_paths st))
       (dict_set "_thread_names" (VSet (Loc.thread_names st))
          (Loc.features st))).

Definition counted (st : Loc.tally) (features : pydict) : pydict :=
  dict_set "num_unique_ips" (VInt (len (Loc.ip_addresses st)))
    (dict_set "num_databases" (VInt (len (Loc.database_files st)))
       (dict_set "num_unique_threads" (VInt (len (Loc.thread_names st)))
          features)).


(** The syscall names whose records carry a byte count, with the
    attribute that adds it up. *)
Definition byte_totals : list (string * string) :=
  [("read", "total_bytes_read"); ("write", "total_bytes_written")].

(** What holds of the attribute of a rule of the list [own]: that rule
    alone writes it. *)
Definition quiet (own other : list rule) (r : rule) : Prop :=
  rule_for (attr_of r) own = Some r
  ∧ rule_for (attr_of r) other = None
  ∧ existsb (String.eqb (attr_of r)) late_attrs = false
  ∧ existsb (String.eqb (attr_of r)) tally_attrs = false.

(** Sample inputs. *)
Definition read_of (k : Z) : SyscallRecord :=
  set_actual k (set_syscall "read" (new_record "")).

Definition sample_trace : list SyscallRecord :=
  [ set_path "/data/app/base.db-wal"
      (set_comm "OkHttp Dispatcher" (set_syscall "openat" (new_record "")));
    set_path "/data/app/lib/libx.so"
      (set_comm "RxCachedThreadScheduler-1" (set_syscall "openat" (new_record "")));
    set_actual 5 (set_comm "main" (set_syscall "read" (new_record ""))) ].

(** A trace directory with a readable trace and an unreadable one, and
    the same directory without the unreadable one. *)
Definition sample_fs : filesystem :=
  {| listdir := ["b.log"; "a.log"; "notes.txt"];
     open_ := fun p =>
       if p =? "traces/a.log" then Some ["syscall=read actual=5"] else None |}.

Definition readable_fs : filesystem :=
  {| listdir := ["a.log"; "notes.txt"]; open_ := open_ sample_fs |}.

(** ** Vocabulary of the further properties *)

(** The keys that the chain of [if]/[elif] of the parser recognises. *)
Definition recognised : list string :=
  ["ts"; "syscall"; "pid"; "tid"; "uid"; "comm"; "path"; "fd"; "flags";
   "count"; "actual"; "family"; "ip"; "port"; "child_pid"; "type"; "prot"].

(** The integer of the last match with key [key], [d] if there is none. *)
Definition last_int (key : string) (tokens : list (string * string)) (d : Z)
  : Z :=
  fold_left
    (fun acc kv => if kv.1 =? key then default acc (PyStr.py_int kv.2) else acc)
    tokens d.

(** The record that a list of well-formed matches describes: every field
    is taken from the last match with its key and keeps its default when
    there is none. *)
Definition described (line : string) (tokens : list (string * string))
  : SyscallRecord :=
  {| timestamp := last_value "ts" tokens "";
     syscall := last_value "syscall" tokens "";
     pid := last_int "pid" tokens 0;
     tid := last_int "tid" tokens 0;
     uid := last_int "uid" tokens 0;
     comm := last_value "comm" tokens "";
     path := last_value "path" tokens "";
     fd := last_int "fd" tokens (-1);
     flags := last_value "flags" tokens "";
     count := last_int "count" tokens 0;
     actual := last_int "actual" tokens 0;
     family := last_value "family" tokens "";
     ip := last_value "ip" tokens "";
     port := last_int "port" tokens 0;
     child_pid := last_int "child_pid" tokens 0;
     clone_type := last_value "type" tokens "";
     prot := last_value "prot" tokens "";
     raw_line := line |}.

(** One well-formed match applied to a record. *)
Definition updated (r : SyscallRecord) (kv : string * string) : SyscallRecord :=
  let str (key : string) (old : string) := if kv.1 =? key then kv.2 else old in
  let num (key : string) (old : Z) :=
    if kv.1 =? key then default old (PyStr.py_int kv.2) else old in
  {| timestamp := str "ts" (timestamp r);
     syscall := str "syscall" (syscall r);
     pid := num "pid" (pid r);
     tid := num "tid" (tid r);
     uid := num "uid" (uid r);
     comm := str "comm" (comm r);
     path := str "path" (path r);
     fd := num "fd" (fd r);
     flags := str "flags" (flags r);
     count := num "count" (count r);
     actual := num "actual" (actual r);
     family := str "family" (family r);
     ip := str "ip" (ip r);
     port := num "port" (port r);
     child_pid := num "child_pid" (child_pid r);
     clone_type := str "type" (clone_type r);
     prot := str "prot" (prot r);
     raw_line := raw_line r |}.

(** A line that is neither blank nor a comment, and one of those with a
    malformed match. *)
Definition data_line (line : string) : bool :=
  negb (blank line || PyStr.startswith line "#").

Definition bad_line (line : string) : bool :=
  data_line line && existsb malformed (finditer line).

(** The record of a line, when the parser returns one. *)
Definition record_of (line : string) : option SyscallRecord :=
  match parse_syscall_line line with
  | Ok (Some r) => Some r
  | _ => None
  end.

(** What a record does to an attribute in the loop over the records: it
    adds an amount, or it sets the attribute to [True]. *)
Inductive effect : Type :=
| Add (n : Z)
| Mark.

(** The record's syscall name is one of [names]. *)
Definition called (names : list string) (r : SyscallRecord) : bool :=
  existsb (String.eqb (syscall r)) names.

(** The writes of the chain of [if]/[elif] on the syscall name, in its
    order: the attribute, the condition on the record under which it is
    written, and what is written. *)
Definition tally_rules
  : list (string * (SyscallRecord → bool) * (SyscallRecord → effect)) :=
  [ ("num_openat", called ["openat"; "open"], fun _ => Add 1);
    ("num_read", called ["read"], fun _ => Add 1);
    ("total_bytes_read", called ["read"], fun r => Add (actual r));
    ("num_write", called ["write"], fun _ => Add 1);
    ("total_bytes_written", called ["write"], fun r => Add (actual r));
    ("num_close", called ["close"], fun _ => Add 1);
    ("num_clone", called ["clone"], fun _ => Add 1);
    ("num_threads_spawned",
      fun r => called ["clone"] r && (clone_type r =? "thread"),
      fun _ => Add 1);
    ("num_mmap", called ["mmap"], fun _ => Add 1);
    ("num_socket", called ["socket"], fun _ => Add 1);
    ("num_tcp_sockets",
      fun r => called ["socket"] r
               && ((family r =? "ipv4") || (family r =? "ipv6")),
      fun _ => Add 1);
    ("num_unix_sockets",
      fun r => called ["socket"] r && (family r =? "unix"),
      fun _ => Add 1);
    ("num_connect", called ["connect"], fun _ => Add 1);
    ("num_network_connects", called ["connect"], fun _ => Add 1);
    ("has_ipv4_connect",
      fun r => called ["connect"] r && (family r =? "ipv4"),
      fun _ => Mark);
    ("has_ipv6_connect",
      fun r => called ["connect"] r && (family r =? "ipv6"),
      fun _ => Mark);
    ("num_port_443_connects",
      fun r => called ["connect"] r && (port r =? 443)%Z,
      fun _ => Add 1) ].

Definition apply_tally (r : SyscallRecord) (features : pydict)
    (rule : string * (SyscallRecord → bool) * (SyscallRecord → effect))
  : pydict :=
  let '(attr, cond, eff) := rule in
  if cond r then
    match eff r with
    | Add n => iadd attr n features
    | Mark => set_true attr features
    end
  else features.

(** The number an attribute value stands for, as [get_int] reads it. *)
Definition as_int (v : option pyval) : Z :=
  match v with
  | Some (VInt n) => n
  | Some (VBool b) => if b then 1 else 0
  | _ => 0
  end.

(** What one record leaves in an attribute that holds [v]. *)
Definition struck (cond : SyscallRecord → bool) (eff : SyscallRecord → effect)
    (v : option pyval) (r : SyscallRecord) : option pyval :=
  if cond r then
    match eff r with
    | Add n => Some (VInt (as_int v + n))
    | Mark => Some (VBool true)
    end
  else v.

(** The sum of [amount] over the records that satisfy [cond], and their
    number. *)
Definition total (cond : SyscallRecord → bool) (amount : SyscallRecord → Z)
    (records : list SyscallRecord) : Z :=
  foldr (fun r acc => (if cond r then amount r else 0) + acc) 0 records.

Definition count_of (cond : SyscallRecord → bool)
    (records : list SyscallRecord) : Z :=
  Z.of_nat (length (filter (fun r => cond r = true) records)).

(** The counters of one syscall name each (two for [num_openat]). *)
Definition call_counters : list (string * list string) :=
  [ ("num_openat", ["openat"; "open"]);
    ("num_read", ["read"]);
    ("num_write", ["write"]);
    ("num_close", ["close"]);
    ("num_clone", ["clone"]);
    ("num_mmap", ["mmap"]);
    ("num_socket", ["socket"]);
    ("num_connect", ["connect"]);
    ("num_network_connects", ["connect"]) ].

(** The remote addresses and the database files that the loop over the
    records collects. *)
Definition connected_ips (records : list SyscallRecord) : gset string :=
  list_to_set
    (ip <$> filter (fun r => called ["connect"] r && truthy (ip r) = true) records).

Definition opened_databases (records : list SyscallRecord) : gset string :=
  list_to_set
    (path <$> filter (fun r => called ["openat"; "open"] r
                               && PyStr.endswith (path r) ".db" = true) records).

(** The integers held by a list of attributes, added up; [None] when one
    of them is missing or holds no integer. *)
Fixpoint attr_sum (f : pydict) (ks : list string) : option Z :=
  match ks with
  | [] => Some 0
  | k :: ks' =>
      match dict_get k f, attr_sum f ks' with
      | Some (VInt n), Some m => Some (n + m)
      | _, _ => None
      end
  end.

(** The syscall names that the chain of [if]/[elif] tests, and the
    counters of its branches. *)
Definition known_calls : list string :=
  ["openat"; "open"; "read"; "write"; "close"; "clone"; "mmap"; "socket";
   "connect"].

Definition branch_counters : list string :=
  ["num_openat"; "num_read"; "num_write"; "num_close"; "num_clone";
   "num_mmap"; "num_socket"; "num_connect"].

(** Counters that stay below another one: the attributes on the left,
    added up, never exceed the attribute on the right. *)
Definition counter_bounds : list (list string * string) :=
  [ (branch_counters, "total_syscalls");
    (["num_threads_spawned"], "num_clone");
    (["num_tcp_sockets"; "num_unix_sockets"], "num_socket");
    (["num_port_443_connects"], "num_connect");
    (["num_unique_ips"], "num_connect");
    (["num_databases"], "num_openat");
    (["num_unique_threads"], "total_syscalls") ].

(** What is left of [s] after the prefix [p], if [s] starts with it. *)
Fixpoint after (p s : string) : option string :=
  match p with
  | EmptyString => Some s
  | String c p' =>
      match s with
      | EmptyString => None
      | String c0 s' => if Ascii.eqb c0 c then after p' s' else None
      end
  end.

(** The thread categories with a flag, each with the prefixes its pattern
    stands for. *)
Definition thread_prefixes : list (string * list string) :=
  [ ("okhttp", ["OkHttp"]);
    ("okhttp_task", ["OkHttp TaskRunn"]);
    ("rxjava", ["RxCached"; "RxComputation"; "RxIO"; "RxSingle";
                "RxNewThread"; "RxScheduler"]);
    ("rxjava_cached", ["RxCachedThreadS"]);
    ("coroutines", ["DefaultDispatch"]);
    ("workmanager", ["WM.task"]);
    ("workmanager_alt", ["androidx.work"]);
    ("room_io", ["arch_disk_io"]);
    ("glide", ["Glide"; "glide"]);
    ("glide_source", ["glide-source-th"]);
    ("glide_disk", ["glide-disk-cach"]);
    ("coil", ["Coil"; "coil"]);
    ("fresco", ["Fresco"; "fresco"]);
    ("exoplayer", ["ExoPlayer"]);
    ("flutter", ["flutter-worker-"; "DartWorker"]);
    ("async_task", ["AsyncTask"]) ].

(** Pairs of flags of which the first cannot be set without the second:
    whatever the first pattern matches, the second matches too. *)
Definition implied_flags : list (string * string) :=
  [ ("has_okhttp_task_thread", "has_okhttp_thread");
    ("has_rxjava_cached_thread", "has_rxjava_thread");
    ("has_glide_source_thread", "has_glide_thread");
    ("has_glide_disk_thread", "has_glide_thread");
    ("has_glide_journal", "has_glide_cache");
    ("has_coil_cache_v3", "has_coil_cache");
    ("has_coil_journal", "has_coil_cache") ].

(** A trace of one record, from a worker thread of OkHttp's task
    runner. *)
Definition task_runner_trace : list SyscallRecord :=
  [ set_comm "OkHttp TaskRunner" (set_syscall "read" (new_record "")) ].

(** What the exporter writes for a value: a [bool] as 1 or 0, anything
    else as it is. *)
Definition exported (v : pyval) : pyval :=
  match v with
  | VBool b => VInt (if b then 1 else 0)
  | _ => v
  end.

(** The package name that [process_trace_file] derives from the path of
    a trace file. *)
Definition package_of (trace_path : string) : string :=
  PyStr.remove_all ".log"
    (PyStr.remove_all ".syscall.log" (basename trace_path)).

(** A trace file that can be read and holds no bad line, and the records
    of a trace file. *)
Definition clean (fs : filesystem) (trace_path : string) : bool :=
  match open_ fs trace_path with
  | Some lines => negb (existsb bad_line lines)
  | None => false
  end.

Definition records_of (fs : filesystem) (trace_path : string)
  : list SyscallRecord :=
  match open_ fs trace_path with
  | Some lines => omap record_of lines
  | None => []
  end.

(** The error of a trace file that is not clean. *)
Definition error_of (fs : filesystem) (trace_path : string) : exn :=
  match open_ fs trace_path with
  | Some _ => ValueError
  | None => OSError
  end.

(** The row of a trace file: for every column the exported value of that
    attribute of the feature vector extracted from the file's records. *)
Definition row_of (iter : gset string → list string) (fs : filesystem)
    (trace_path : string) : list pyval :=
  let features :=
    extract_features iter (records_of fs trace_path) (package_of trace_path) in
  (fun k => exported (default (VStr "") (dict_get k features)))
    <$> get_feature_columns.

(** The fields of a record that the extraction reads. *)
Definition relevant (r : SyscallRecord)
  : string * string * string * Z * string * string * string * Z :=
  (syscall r, comm r, path r, actual r, clone_type r, family r, ip r, port r).

(** The locals of the loop over the records that are read after it. *)
Definition parts (st : Loc.tally)
  : pydict * gset string * gset string * gset string * gset string :=
  (Loc.features st, Loc.thread_names st, Loc.file_paths st,
   Loc.ip_addresses st, Loc.database_files st).

(** The sample trace with other timestamps, process identifiers and
    requested byte counts. *)
Definition restamped_trace : list SyscallRecord :=
  (fun r => set_timestamp "1700000000.5" (set_pid 4242 (set_count 4096 r)))
    <$> sample_trace.

(** The path categories whose pattern is a run of literal characters
    before the anchor [$], each with that run. *)
Definition path_suffixes : list (string * string) :=
  [ ("room_wal", ".db-wal");
    ("room_shm", ".db-shm");
    ("room_journal", ".db-journal");
    ("native_lib", ".so") ].

(** The sample directory, listed in another order. *)
Definition relisted_fs : filesystem :=
  {| listdir := ["notes.txt"; "a.log"; "b.log"]; open_ := open_ sample_fs |}.

(** Every character of [s] satisfies [p]. *)
Definition all_chars (p : ascii → bool) (s : string) : bool :=
  forallb p (list_ascii_of_string s).

(** The shapes of the parts of a match: a key is a non-empty run of word
    characters; a value taken from between double quotes holds no double
    quote, a value taken bare is not empty and holds no white space. *)
Definition word (s : string) : bool :=
  negb (PyStr.is_empty s) && all_chars PyStr.is_word s.

Definition quoted_value (v : string) : bool :=
  all_chars (fun c => negb (Ascii.eqb c PyStr.quote)) v.

Definition bare_value (v : string) : bool :=
  negb (PyStr.is_empty v) && all_chars (fun c => negb (PyStr.is_space c)) v.

(** A text without an equals sign. *)
Definition no_equals (s : string) : bool :=
  all_chars (fun c => negb (Ascii.eqb c "=")) s.

(** [old in s]: the text [old] occurs in [s]. *)
Fixpoint occurs (old s : string) : bool :=
  String.prefix old s
  || match s with
     | EmptyString => false
     | String _ s' => occurs old s'
     end.

(** A file name without a slash. *)
Definition no_slash (s : string) : bool :=
  all_chars (fun c => negb (Ascii.eqb "/" c)) s.

(** A key and a value written as a token: the value bare when it can be
    (not empty, no white space), between double quotes otherwise; and a
    list of tokens written as a line, one space between two tokens. *)
Definition render (kv : string * string) : string :=
  if bare_value kv.2 then kv.1 +:+ "=" +:+ kv.2
  else kv.1 +:+ "=" +:+ String PyStr.quote (kv.2 +:+ String PyStr.quote "").

Fixpoint render_line (tokens : list (string * string)) : string :=
  match tokens with
  | [] => ""
  | kv :: rest =>
      render kv +:+ match rest with
                    | [] => ""
                    | _ :: _ => " " +:+ render_line rest
                    end
  end.

(** A text that is empty or starts with white space. *)
Definition boundary (s : string) : bool :=
  match s with
  | EmptyString => true
  | String c _ => PyStr.is_space c
  end.

(** * Properties *)

(** ** Dictionaries *)

Lemma dict_get_set k k' v d :
  dict_get k' (dict_set k v d) = if k =? k' then Some v else dict_get k' d.
Proof.
  induction d as [|[k0 v0] d IH]; simpl.
  - destruct (k =? k'); reflexivity.
  - destruct (k0 =? k) eqn:E0; simpl.
    + apply String.eqb_eq in E0. subst k0. destruct (k =? k'); reflexivity.
    + destruct (k0 =? k') eqn:E1.
      * apply String.eqb_eq in E1. subst k0. rewrite String.eqb_sym, E0. reflexivity.
      * exact IH.
Qed.

Lemma dict_get_set_eq k v d : dict_get k (dict_set k v d) = Some v.
Proof. rewrite dict_get_set, String.eqb_refl. reflexivity. Qed.

Lemma dict_get_set_ne k k' v d :
  (k =? k') = false → dict_get k' (dict_set k v d) = dict_get k' d.
Proof. intros E. rewrite dict_get_set, E. reflexivity. Qed.

Lemma keys_dict_set k v d :
  keys (dict_set k v d)
  = if existsb (String.eqb k) (keys d) then keys d else (keys d ++ [k])%list.
Proof.
  unfold keys. induction d as [|[k0 v0] d IH]; simpl; [reflexivity|].
  rewrite (String.eqb_sym k k0).
  destruct (k0 =? k) eqn:E0; simpl.
  - apply String.eqb_eq in E0. subst. reflexivity.
  - rewrite IH. destruct (existsb _ _); reflexivity.
Qed.

Lemma shaped_set k v o : bound k = true → shaped o → shaped (dict_set k v o).
Proof.
  unfold shaped, bound. intros Hk Ho. rewrite keys_dict_set, Ho, Hk. reflexivity.
Qed.

Lemma dict_get_None k d : existsb (String.eqb k) (keys d) = false → dict_get k d = None.
Proof.
  unfold keys. induction d as [|[k0 v0] d IH]; simpl; [reflexivity|].
  rewrite (String.eqb_sym k k0). destruct (k0 =? k); simpl; [discriminate|exact IH].
Qed.

(** Two dictionaries with the same keys, each once, and the same values
    are the same dictionary. *)
Lemma dict_ext d1 d2 :
  keys d1 = keys d2 → NoDup (keys d1) →
  (∀ k, dict_get k d1 = dict_get k d2) → d1 = d2.
Proof.
  unfold keys. revert d2.
  induction d1 as [|[k1 v1] d1 IH]; intros [|[k2 v2] d2]; simpl; try discriminate; [reflexivity|].
  intros Hk Hnd Hget. injection Hk as -> Hk.
  apply NoDup_cons in Hnd as [Hnotin Hnd].
  pose proof (Hget k2) as H2. simpl in H2. rewrite String.eqb_refl in H2.
  injection H2 as ->. f_equal.
  apply IH; [exact Hk|exact Hnd|].
  intros k. specialize (Hget k). simpl in Hget.
  destruct (k2 =? k) eqn:E; [|exact Hget].
  apply String.eqb_eq in E. subst k.
  assert (Hex : existsb (String.eqb k2) (keys d1) = false).
  { apply not_true_is_false. intros Hex. apply existsb_exists in Hex as (x & Hx & Hx').
    apply String.eqb_eq in Hx'. subst x. apply Hnotin. apply list_elem_of_In. exact Hx. }
  rewrite (dict_get_None _ _ Hex).
  unfold keys in Hex. fold (keys d1) in Hex. 
  assert (Hex2 : existsb (String.eqb k2) (keys d2) = false) by (unfold keys; rewrite <- Hk; exact Hex).
  rewrite (dict_get_None _ _ Hex2). reflexivity.
Qed.

Lemma fields_NoDup : NoDup fields.
Proof. apply (bool_decide_unpack (NoDup fields)). vm_compute. exact I. Qed.

Lemma shaped_iadd k n o : bound k = true → shaped o → shaped (iadd k n o).
Proof. apply shaped_set. Qed.
Lemma shaped_incr k o : bound k = true → shaped o → shaped (incr k o).
Proof. apply shaped_set. Qed.
Lemma shaped_set_true k o : bound k = true → shaped o → shaped (set_true k o).
Proof. apply shaped_set. Qed.
Lemma shaped_flag_if c k o : bound k = true → shaped o → shaped (flag_if c k o).
Proof. destruct c; simpl; [apply shaped_set|trivial]. Qed.
Lemma shaped_count_if c k o : bound k = true → shaped o → shaped (count_if c k o).
Proof. destruct c; simpl; [apply shaped_set|trivial]. Qed.

Lemma shaped_AppFeatures package : shaped (AppFeatures package).
Proof. reflexivity. Qed.

(** ** The classification loops as rule lists *)

Lemma classify_thread_rules features thread_name :
  classify_thread features thread_name
  = run_rules thread_is thread_rules features thread_name.
Proof. reflexivity. Qed.

Lemma classify_path_rules features path :
  classify_path features path = run_rules path_is path_rules features path.
Proof. reflexivity. Qed.

(** Every category the loops subscript is bound in its table. *)
Lemma thread_rules_bound :
  Forall (fun r : rule => existsb (String.eqb r.1.1) (THREAD_PATTERNS.*1) = true)
    thread_rules.
Proof. repeat constructor. Qed.

Lemma path_rules_bound :
  Forall (fun r : rule => existsb (String.eqb r.1.1) (PATH_PATTERNS.*1) = true)
    path_rules.
Proof. repeat constructor. Qed.

Lemma thread_rules_NoDup : NoDup (attr_of <$> thread_rules).
Proof. apply (bool_decide_unpack (NoDup (attr_of <$> thread_rules))). vm_compute. exact I. Qed.

Lemma path_rules_NoDup : NoDup (attr_of <$> path_rules).
Proof. apply (bool_decide_unpack (NoDup (attr_of <$> path_rules))). vm_compute. exact I. Qed.

Lemma thread_rules_fields : Forall (fun r => bound (attr_of r) = true) thread_rules.
Proof. repeat constructor. Qed.

Lemma path_rules_fields : Forall (fun r => bound (attr_of r) = true) path_rules.
Proof. repeat constructor. Qed.

Section Rules.

Variable is_a : string → string → bool.

Lemma apply_rule_get x features r k :
  dict_get k (apply_rule is_a x features r)
  = if attr_of r =? k then fired is_a r x features k else dict_get k features.
Proof.
  destruct r as [[category act] attr]. unfold attr_of. simpl.
  destruct (attr =? k) eqn:E.
  - apply String.eqb_eq in E. subst attr.
    destruct act; simpl; unfold flag_if, count_if;
      destruct (is_a category x); try reflexivity; apply dict_get_set_eq.
  - destruct act; simpl; unfold flag_if, count_if;
      destruct (is_a category x); try reflexivity; apply dict_get_set_ne, E.
Qed.

Lemma apply_rule_shaped x features r :
  bound (attr_of r) = true → shaped features →
  shaped (apply_rule is_a x features r).
Proof.
  destruct r as [[category []] attr]; simpl;
    [apply shaped_flag_if|apply shaped_count_if].
Qed.

Lemma run_rules_shaped rules features x :
  Forall (fun r => bound (attr_of r) = true) rules → shaped features →
  shaped (run_rules is_a rules features x).
Proof.
  unfold run_rules. intros Hall. revert features.
  induction Hall as [|r rules Hr _ IH]; intros features Hf; simpl; [exact Hf|].
  apply IH, apply_rule_shaped; assumption.
Qed.

Lemma run_rules_untouched rules features x k :
  rule_for k rules = None →
  dict_get k (run_rules is_a rules features x) = dict_get k features.
Proof.
  unfold run_rules, rule_for. revert features.
  induction rules as [|r rules IH]; intros features; simpl; [reflexivity|].
  destruct (attr_of r =? k) eqn:E; [discriminate|].
  intros Hnone. rewrite (IH _ Hnone), apply_rule_get, E. reflexivity.
Qed.

Lemma rule_for_fresh k rules :
  k ∉ attr_of <$> rules → rule_for k rules = None.
Proof.
  unfold rule_for. induction rules as [|r rules IH]; simpl; [reflexivity|].
  intros Hnotin. apply not_elem_of_cons in Hnotin as [Hne Hnotin].
  destruct (attr_of r =? k) eqn:E.
  - apply String.eqb_eq in E. congruence.
  - apply IH, Hnotin.
Qed.

(** One pass of the loop body, attribute by attribute. *)
Lemma run_rules_get rules features x k :
  NoDup (attr_of <$> rules) →
  dict_get k (run_rules is_a rules features x)
  = match rule_for k rules with
    | Some r => fired is_a r x features k
    | None => dict_get k features
    end.
Proof.
  unfold run_rules. revert features.
  induction rules as [|r rules IH]; intros features Hnd; [reflexivity|].
  rewrite fmap_cons in Hnd. apply NoDup_cons in Hnd as [Hfresh Hnd].
  cbn [fold_left]. unfold rule_for. cbn [find].
  destruct (attr_of r =? k) eqn:E.
  - apply String.eqb_eq in E.
    fold (run_rules is_a rules (apply_rule is_a x features r) x).
    rewrite run_rules_untouched by (apply rule_for_fresh; congruence).
    rewrite apply_rule_get, <- E, String.eqb_refl. reflexivity.
  - rewrite (IH _ Hnd). fold (rule_for k rules).
    destruct (rule_for k rules) as [[[category act] attr]|].
    + unfold fired, get_int. rewrite !apply_rule_get, E. reflexivity.
    + rewrite apply_rule_get, E. reflexivity.
Qed.

Lemma num_match_cons category x xs :
  num_match is_a category (x :: xs)
  = if is_a category x then S (num_match is_a category xs)
    else num_match is_a category xs.
Proof.
  unfold num_match. rewrite filter_cons.
  destruct (decide (is_a category x = true)) as [->|Hn]; [reflexivity|].
  apply not_true_is_false in Hn. rewrite Hn. reflexivity.
Qed.

(** The whole loop, attribute by attribute. *)
Lemma classified_spec rules xs features k :
  NoDup (attr_of <$> rules) →
  dict_get k (fold_left (run_rules is_a rules) xs features)
  = classified is_a rules xs features k.
Proof.
  intros Hnd. revert features.
  induction xs as [|x xs IH]; intros features.
  - unfold classified. simpl. destruct (rule_for k rules) as [[[? ?] ?]|]; reflexivity.
  - cbn [fold_left]. rewrite IH. unfold classified, get_int.
    rewrite !run_rules_get by exact Hnd.
    destruct (rule_for k rules) as [[[category act] attr]|]; [|reflexivity].
    rewrite num_match_cons. unfold fired, get_int.
    destruct (is_a category x), (num_match is_a category xs), act;
      try reflexivity; do 2 f_equal; lia.
Qed.

Lemma classify_shaped rules xs features :
  Forall (fun r => bound (attr_of r) = true) rules → shaped features →
  shaped (fold_left (run_rules is_a rules) xs features).
Proof.
  intros Hall. revert features.
  induction xs as [|x xs IH]; intros features Hf; [exact Hf|].
  apply IH, run_rules_shaped; assumption.
Qed.

Lemma num_match_perm category xs ys :
  xs ≡ₚ ys → num_match is_a category xs = num_match is_a category ys.
Proof. intros H. unfold num_match. rewrite H. reflexivity. Qed.

(** The loop does not depend on the order of its visits. *)
Lemma classify_perm rules xs ys features :
  NoDup (attr_of <$> rules) →
  Forall (fun r => bound (attr_of r) = true) rules → shaped features →
  xs ≡ₚ ys →
  fold_left (run_rules is_a rules) xs features
  = fold_left (run_rules is_a rules) ys features.
Proof.
  intros Hnd Hall Hf Hp. apply dict_ext.
  - transitivity fields; [|symmetry]; apply classify_shaped; assumption.
  - rewrite (classify_shaped rules xs features Hall Hf). apply fields_NoDup.
  - intros k. rewrite !classified_spec by exact Hnd. unfold classified.
    destruct (rule_for k rules) as [[[category act] attr]|]; [|reflexivity].
    rewrite (num_match_perm category xs ys Hp). reflexivity.
Qed.

End Rules.

(** ** The loop over the records *)

Lemma dict_get_iadd k k' n o :
  dict_get k' (iadd k n o)
  = if k =? k' then Some (VInt (get_int k o + n)) else dict_get k' o.
Proof. apply dict_get_set. Qed.

Lemma get_int_iadd k k' n o :
  get_int k' (iadd k n o) = if k =? k' then get_int k o + n else get_int k' o.
Proof. unfold get_int at 1. rewrite dict_get_iadd. destruct (k =? k'); reflexivity. Qed.

(** Case analysis on every condition of the goal. *)
Ltac split_ifs :=
  repeat match goal with
         | |- context [if ?c then _ else _] => destruct c eqn:?
         end.

(** The loop over the records keeps the attributes and their order. *)
Lemma dispatch_shaped record features ips dbs :
  shaped features → shaped (dispatch record features ips dbs).1.1.
Proof.
  intros Hf. unfold dispatch. split_ifs; cbn [fst];
    repeat first [ exact Hf
                 | apply shaped_iadd; [reflexivity|]
                 | apply shaped_incr; [reflexivity|]
                 | apply shaped_set_true; [reflexivity|] ].
Qed.

Lemma tally_step_features st record :
  Loc.features (tally_step st record)
  = (dispatch record (Loc.features st) (Loc.ip_addresses st)
       (Loc.database_files st)).1.1.
Proof.
  unfold tally_step.
  destruct (dispatch record (Loc.features st) (Loc.ip_addresses st)
              (Loc.database_files st)) as [[f i] d].
  reflexivity.
Qed.

Lemma tally_shaped records st :
  shaped (Loc.features st) →
  shaped (Loc.features (fold_left tally_step records st)).
Proof.
  revert st. induction records as [|r records IH]; intros st Hst; [exact Hst|].
  cbn [fold_left]. apply IH. rewrite tally_step_features.
  apply dispatch_shaped, Hst.
Qed.

Lemma dispatch_untouched record features ips dbs k :
  existsb (String.eqb k) tally_attrs = false →
  dict_get k (dispatch record features ips dbs).1.1 = dict_get k features.
Proof.
  intros Hk. cbn [existsb tally_attrs] in Hk.
  repeat (apply orb_false_elim in Hk as [?%String.eqb_neq Hk]).
  unfold dispatch. split_ifs; cbn [fst]; unfold incr, set_true, iadd;
    repeat rewrite dict_get_set_ne by (apply String.eqb_neq; congruence);
    reflexivity.
Qed.

Lemma tally_untouched records st k :
  existsb (String.eqb k) tally_attrs = false →
  dict_get k (Loc.features (fold_left tally_step records st))
  = dict_get k (Loc.features st).
Proof.
  intros Hk. revert st. induction records as [|r records IH]; intros st; [reflexivity|].
  cbn [fold_left]. rewrite IH, tally_step_features. apply dispatch_untouched, Hk.
Qed.

(** The sets of names and paths the loop collects. *)
Lemma seen_cons field r records :
  seen field (r :: records)
  = if truthy (field r) then {[field r]} ∪ seen field records
    else seen field records.
Proof.
  unfold seen. rewrite fmap_cons, filter_cons.
  destruct (decide (truthy (field r) = true)) as [Ht|Ht].
  - rewrite Ht. apply list_to_set_cons.
  - apply not_true_is_false in Ht. rewrite Ht. reflexivity.
Qed.

Lemma tally_step_thread_names st r :
  Loc.thread_names (tally_step st r)
  = if truthy (comm r) then add (comm r) (Loc.thread_names st)
    else Loc.thread_names st.
Proof. unfold tally_step. destruct (dispatch _ _ _ _) as [[? ?] ?]. reflexivity. Qed.

Lemma tally_step_file_paths st r :
  Loc.file_paths (tally_step st r)
  = if truthy (path r) then add (path r) (Loc.file_paths st)
    else Loc.file_paths st.
Proof. unfold tally_step. destruct (dispatch _ _ _ _) as [[? ?] ?]. reflexivity. Qed.

Lemma tally_thread_names records st :
  Loc.thread_names (fold_left tally_step records st)
  = seen comm records ∪ Loc.thread_names st.
Proof.
  revert st. induction records as [|r records IH]; intros st.
  - symmetry. apply (left_id_L ∅ (∪)).
  - cbn [fold_left]. rewrite IH, seen_cons, tally_step_thread_names. unfold add.
    destruct (truthy (comm r)); [|reflexivity].
    rewrite (assoc_L (∪)), (comm_L (∪) (seen comm records)). reflexivity.
Qed.

Lemma tally_file_paths records st :
  Loc.file_paths (fold_left tally_step records st)
  = seen path records ∪ Loc.file_paths st.
Proof.
  revert st. induction records as [|r records IH]; intros st.
  - symmetry. apply (left_id_L ∅ (∪)).
  - cbn [fold_left]. rewrite IH, seen_cons, tally_step_file_paths. unfold add.
    destruct (truthy (path r)); [|reflexivity].
    rewrite (assoc_L (∪)), (comm_L (∪) (seen path records)). reflexivity.
Qed.

(** ** The stages of the extraction *)

Lemma extract_features_nil iter package :
  extract_features iter [] package = AppFeatures package.
Proof. reflexivity. Qed.

Lemma extract_features_stages iter records package :
  records ≠ [] →
  extract_features iter records package
  = let st := tallied records package in
    rates (counted st
             (fold_left classify_path (iter (Loc.file_paths st))
                (fold_left classify_thread (iter (Loc.thread_names st))
                   (published st)))).
Proof. destruct records; [congruence|reflexivity]. Qed.

Lemma rates_shaped features : shaped features → shaped (rates features).
Proof.
  intros Hf. unfold rates. split_ifs;
    repeat (apply shaped_set; [reflexivity|]); exact Hf.
Qed.

Lemma tallied_shaped records package :
  shaped (Loc.features (tallied records package)).
Proof.
  apply tally_shaped. cbn [start Loc.features].
  apply shaped_set; [reflexivity|apply shaped_AppFeatures].
Qed.

Lemma published_shaped st : shaped (Loc.features st) → shaped (published st).
Proof. intros H. unfold published. repeat (apply shaped_set; [reflexivity|]). exact H. Qed.

Lemma counted_shaped st features : shaped features → shaped (counted st features).
Proof. intros H. unfold counted. repeat (apply shaped_set; [reflexivity|]). exact H. Qed.

Lemma classify_thread_shaped xs features :
  shaped features → shaped (fold_left classify_thread xs features).
Proof. apply (classify_shaped thread_is thread_rules), thread_rules_fields. Qed.

Lemma classify_path_shaped xs features :
  shaped features → shaped (fold_left classify_path xs features).
Proof. apply (classify_shaped path_is path_rules), path_rules_fields. Qed.

(** The attributes of an extracted feature vector are those of the
    dataclass, in its order. *)
Lemma extract_features_shaped iter records package :
  shaped (extract_features iter records package).
Proof.
  destruct records as [|r records]; [apply shaped_AppFeatures|].
  rewrite extract_features_stages by discriminate. cbv zeta.
  apply rates_shaped, counted_shaped, classify_path_shaped,
    classify_thread_shaped, published_shaped, tallied_shaped.
Qed.

(** Attributes that the late writes leave alone. *)
Lemma late_split k :
  existsb (String.eqb k) late_attrs = false →
  Forall (fun a => (a =? k) = false) late_attrs.
Proof.
  intros Hk. apply Forall_forall. intros a Ha.
  apply not_true_is_false. intros E. apply String.eqb_eq in E. subst a.
  apply not_true_iff_false in Hk. apply Hk.
  apply existsb_exists. exists k. split; [apply list_elem_of_In, Ha|apply String.eqb_refl].
Qed.

(** From [k] outside [late_attrs] to one inequality per attribute. *)
Ltac late_facts H :=
  apply late_split in H; unfold late_attrs in H;
  repeat match type of H with
         | Forall _ (_ :: _) => apply Forall_cons in H as [? H]
         end.

Lemma rates_untouched features k :
  existsb (String.eqb k) late_attrs = false →
  dict_get k (rates features) = dict_get k features.
Proof.
  intros Hk. late_facts Hk. unfold rates. split_ifs;
    repeat rewrite dict_get_set_ne by assumption; reflexivity.
Qed.

Lemma counted_untouched st features k :
  existsb (String.eqb k) late_attrs = false →
  dict_get k (counted st features) = dict_get k features.
Proof.
  intros Hk. late_facts Hk. unfold counted.
  repeat rewrite dict_get_set_ne by assumption. reflexivity.
Qed.

Lemma published_untouched st k :
  existsb (String.eqb k) late_attrs = false →
  dict_get k (published st) = dict_get k (Loc.features st).
Proof.
  intros Hk. late_facts Hk. unfold published.
  repeat rewrite dict_get_set_ne by assumption. reflexivity.
Qed.

Lemma tallied_start (records : list SyscallRecord) package k :
  existsb (String.eqb k) late_attrs = false →
  dict_get k (Loc.features (start (dict_set "total_syscalls"
                (VInt (Z.of_nat (length records))) (AppFeatures package))))
  = dict_get k (AppFeatures package).
Proof.
  intros Hk. late_facts Hk. cbn [start Loc.features].
  rewrite dict_get_set_ne by assumption. reflexivity.
Qed.

Lemma tallied_thread_names records package :
  Loc.thread_names (tallied records package) = seen comm records.
Proof.
  unfold tallied. rewrite tally_thread_names. apply (right_id_L ∅ (∪)).
Qed.

Lemma tallied_file_paths records package :
  Loc.file_paths (tallied records package) = seen path records.
Proof.
  unfold tallied. rewrite tally_file_paths. apply (right_id_L ∅ (∪)).
Qed.

(** ** The column contract *)

Lemma export_item_keys result item :
  keys (export_item result item)
  = if PyStr.startswith item.1 "_" then keys result
    else if existsb (String.eqb item.1) (keys result) then keys result
    else (keys result ++ [item.1])%list.
Proof.
  destruct item as [key value]. unfold export_item. cbn [fst].
  destruct (PyStr.startswith key "_"); [reflexivity|].
  destruct value; apply keys_dict_set.
Qed.

Lemma features_to_dict_keys features result :
  keys (fold_left export_item features result)
  = fold_left
      (fun ks key =>
         if PyStr.startswith key "_" then ks
         else if existsb (String.eqb key) ks then ks
         else (ks ++ [key])%list)
      (keys features) (keys result).
Proof.
  revert result. induction features as [|item features IH]; intros result; [reflexivity|].
  cbn [fold_left keys map]. rewrite IH, export_item_keys. reflexivity.
Qed.

(** C2: for every record sequence (and every visiting order of the sets),
    the keys of the dictionary exported from the extracted feature vector
    are the columns that the schema accessor declares, in the same
    order. *)
Theorem exported_keys_are_columns iter records package :
  keys (features_to_dict (extract_features iter records package))
  = get_feature_columns.
Proof.
  unfold features_to_dict. rewrite features_to_dict_keys.
  rewrite (extract_features_shaped iter records package).
  reflexivity.
Qed.

(** ** The empty trace *)


(** ** Byte totals *)

Lemma dispatch_bytes_get record features ips dbs sc attr :
  (sc, attr) ∈ byte_totals →
  syscall record = sc →
  dict_get attr (dispatch record features ips dbs).1.1
  = Some (VInt (get_int attr features + actual record)).
Proof.
  intros Hin Hsc. unfold dispatch. rewrite Hsc.
  apply elem_of_cons in Hin as [[= -> ->]|Hin];
    [|apply elem_of_cons in Hin as [[= -> ->]|Hin]; [|inversion Hin]];
    cbn [String.eqb Ascii.eqb Bool.eqb orb fst]; unfold incr;
    rewrite dict_get_iadd, get_int_iadd; reflexivity.
Qed.

Lemma tally_bytes_get records st sc attr K n0 :
  (sc, attr) ∈ byte_totals →
  Forall (fun r => syscall r = sc ∧ actual r = K) records →
  dict_get attr (Loc.features st) = Some (VInt n0) →
  dict_get attr (Loc.features (fold_left tally_step records st))
  = Some (VInt (n0 + Z.of_nat (length records) * K)).
Proof.
  intros Hin Hall. revert st n0.
  induction Hall as [|r records [Hsc HK] _ IH]; intros st n0 Hst.
  - cbn [fold_left length]. rewrite Hst. do 2 f_equal. lia.
  - cbn [fold_left]. rewrite (IH _ (n0 + K)).
    + rewrite length_cons. do 2 f_equal. lia.
    + rewrite tally_step_features, (dispatch_bytes_get _ _ _ _ sc attr Hin Hsc).
      unfold get_int. rewrite Hst, HK. reflexivity.
Qed.

Lemma byte_totals_facts :
  Forall (fun p => existsb (String.eqb p.2) late_attrs = false
                   ∧ rule_for p.2 thread_rules = None
                   ∧ rule_for p.2 path_rules = None
                   ∧ ∀ package, dict_get p.2 (AppFeatures package) = Some (VInt 0))
    byte_totals.
Proof. repeat constructor. Qed.

(** C7: a sequence of N records whose syscall name is [read], each with
    the transferred byte count K, gives [total_bytes_read] = N * K; the
    same holds of [write] records and [total_bytes_written]. *)
Theorem bytes_total_is_product iter records package sc attr K :
  (sc, attr) ∈ byte_totals →
  Forall (fun r => syscall r = sc ∧ actual r = K) records →
  dict_get attr (extract_features iter records package)
  = Some (VInt (Z.of_nat (length records) * K)).
Proof.
  intros Hin Hall.
  pose proof byte_totals_facts as Hfacts.
  rewrite Forall_forall in Hfacts.
  destruct (Hfacts _ Hin) as (Hlate & Hthread & Hpath & Hinit). cbn [snd] in *.
  destruct records as [|r records]; [apply Hinit|].
  rewrite extract_features_stages by discriminate. cbv zeta.
  rewrite rates_untouched, counted_untouched by exact Hlate.
  change classify_path with (run_rules path_is path_rules).
  rewrite classified_spec by apply path_rules_NoDup.
  unfold classified. rewrite Hpath.
  change classify_thread with (run_rules thread_is thread_rules).
  rewrite classified_spec by apply thread_rules_NoDup.
  unfold classified. rewrite Hthread.
  rewrite published_untouched by exact Hlate.
  unfold tallied.
  rewrite (tally_bytes_get _ _ sc attr K 0 Hin Hall).
  - reflexivity.
  - rewrite tallied_start by exact Hlate. apply Hinit.
Qed.

Lemma bytes_total_is_product_witness :
  dict_get "total_bytes_read"
    (extract_features elements [read_of 5; read_of 5; read_of 5] "app")
  = Some (VInt (3 * 5)).
Proof.
  apply (bytes_total_is_product elements [read_of 5; read_of 5; read_of 5]
           "app" "read" "total_bytes_read" 5).
  - constructor.
  - repeat constructor.
Defined.

(** ** Purity *)

Lemma enumerates_perm iter1 iter2 s :
  enumerates iter1 → enumerates iter2 → iter1 s ≡ₚ iter2 s.
Proof. intros H1 H2. rewrite (H1 s), (H2 s). reflexivity. Qed.

(** C6: two runs of the extraction on the same record sequence and
    identifier give the same feature vector, whatever order each run
    visits its sets in (the one thing in which two runs of the
    interpreter can differ): the result is a function of the input
    alone. *)
Theorem extraction_is_pure iter1 iter2 records package :
  enumerates iter1 → enumerates iter2 →
  extract_features iter1 records package
  = extract_features iter2 records package.
Proof.
  intros H1 H2. destruct records as [|r records]; [reflexivity|].
  rewrite !extract_features_stages by discriminate. cbv zeta.
  set (st := tallied (r :: records) package).
  do 2 f_equal.
  change classify_path with (run_rules path_is path_rules).
  change classify_thread with (run_rules thread_is thread_rules).
  assert (Hp : shaped (published st))
    by apply published_shaped, tallied_shaped.
  rewrite (classify_perm thread_is thread_rules
             (iter1 (Loc.thread_names st)) (iter2 (Loc.thread_names st)))
    by first [ apply thread_rules_NoDup | apply thread_rules_fields
             | exact Hp | apply enumerates_perm; assumption ].
  apply classify_perm;
    first [ apply path_rules_NoDup | apply path_rules_fields
          | apply enumerates_perm; assumption | idtac ].
  apply (classify_shaped thread_is thread_rules), Hp. apply thread_rules_fields.
Qed.

Lemma extraction_is_pure_witness :
  extract_features elements sample_trace "app"
  = extract_features (fun s => reverse (elements s)) sample_trace "app".
Proof.
  apply extraction_is_pure.
  - intros s. reflexivity.
  - intros s. apply reverse_Permutation.
Defined.

(** ** Classification *)



Lemma thread_rules_quiet : Forall (quiet thread_rules path_rules) thread_rules.
Proof. repeat constructor. Qed.

Lemma path_rules_quiet : Forall (quiet path_rules thread_rules) path_rules.
Proof. repeat constructor. Qed.

Lemma flags_start_false package :
  Forall (fun r : rule => r.1.2 = SetFlag →
            dict_get (attr_of r) (AppFeatures package) = Some (VBool false))
    (thread_rules ++ path_rules).
Proof. repeat constructor; discriminate. Qed.




(** ** The line parser *)

Lemma bind_Ok {A B} (a : A) (k : A → result B) : (Ok a ≫= k) = k a.
Proof. reflexivity. Qed.

Lemma bind_Raise {A B} e (k : A → result B) : (Raise e ≫= k) = Raise e.
Proof. reflexivity. Qed.

Lemma int_raises value :
  PyStr.py_int value = None → int value = Raise ValueError.
Proof. unfold int. intros ->. reflexivity. Qed.

Lemma int_returns value n : PyStr.py_int value = Some n → int value = Ok n.
Proof. unfold int. intros ->. reflexivity. Qed.

(** An assignment raises exactly on a malformed match; the others leave
    the syscall name alone, but for the one of the key [syscall]. *)
Lemma assign_malformed record kv :
  malformed kv = true → assign record kv = Raise ValueError.
Proof.
  destruct kv as [key value]. unfold malformed. cbn [fst snd].
  intros [Hkey Hval]%andb_true_iff.
  destruct (PyStr.py_int value) eqn:E; [discriminate|].
  apply existsb_exists in Hkey as (k & Hk & ->%String.eqb_eq).
  unfold int_keys in Hk. unfold assign.
  repeat (destruct Hk as [<-|Hk];
          [cbn [String.eqb Ascii.eqb Bool.eqb]; rewrite (int_raises _ E); reflexivity|]).
  destruct Hk.
Qed.

Lemma assign_well_formed record kv :
  malformed kv = false →
  ∃ record', assign record kv = Ok record'
             ∧ syscall record' = if kv.1 =? "syscall" then kv.2 else syscall record.
Proof.
  destruct kv as [key value]. unfold malformed, int_keys. cbn [fst snd existsb].
  intros Hwf. unfold assign. cbn [fst snd].
  destruct record.
  repeat match goal with
         | |- context [if key =? ?k then _ else _] =>
             let E := fresh "E" in
             destruct (key =? k) eqn:E;
             [ apply String.eqb_eq in E; subst key;
               cbn [String.eqb Ascii.eqb Bool.eqb orb andb] in * |]
         end;
    try (eexists; split; reflexivity);
    (destruct (PyStr.py_int value) as [n|] eqn:En;
     [ rewrite (int_returns _ _ En); eexists; split; reflexivity
     | discriminate Hwf ]).
Qed.

Lemma assign_exn record kv e : assign record kv = Raise e → e = ValueError.
Proof.
  destruct (malformed kv) eqn:E.
  - rewrite (assign_malformed _ _ E). congruence.
  - destruct (assign_well_formed record kv E) as (r & -> & _). discriminate.
Qed.

Lemma scan_malformed tokens record :
  existsb malformed tokens = true →
  foldM assign record tokens = Raise ValueError.
Proof.
  revert record. induction tokens as [|kv tokens IH]; intros record; [discriminate|].
  cbn [existsb foldM]. intros H.
  destruct (assign record kv) as [record'|e] eqn:E.
  - rewrite bind_Ok. apply IH.
    destruct (malformed kv) eqn:Em; [|exact H].
    rewrite (assign_malformed _ _ Em) in E. discriminate.
  - rewrite bind_Raise. f_equal. eapply assign_exn, E.
Qed.

Lemma scan_well_formed tokens record :
  existsb malformed tokens = false →
  ∃ record', foldM assign record tokens = Ok record'
             ∧ syscall record' = last_value "syscall" tokens (syscall record).
Proof.
  revert record. induction tokens as [|kv tokens IH]; intros record.
  - intros _. exists record. split; reflexivity.
  - cbn [existsb foldM]. intros [Hkv Htl]%orb_false_iff.
    destruct (assign_well_formed record kv Hkv) as (r1 & -> & Hs1).
    rewrite bind_Ok. destruct (IH r1 Htl) as (r2 & -> & Hs2).
    exists r2. split; [reflexivity|].
    rewrite Hs2, Hs1. unfold last_value. reflexivity.
Qed.

(** The three outcomes of the line parser. *)
Lemma parse_syscall_line_skipped line :
  PyStr.is_empty (PyStr.strip line) || PyStr.startswith line "#" = true →
  parse_syscall_line line = Ok None.
Proof. unfold parse_syscall_line. intros ->. reflexivity. Qed.

Lemma parse_syscall_line_malformed line :
  PyStr.is_empty (PyStr.strip line) || PyStr.startswith line "#" = false →
  existsb malformed (finditer line) = true →
  parse_syscall_line line = Raise ValueError.
Proof.
  unfold parse_syscall_line. intros -> H. rewrite (scan_malformed _ _ H). reflexivity.
Qed.

Lemma parse_syscall_line_well_formed line :
  PyStr.is_empty (PyStr.strip line) || PyStr.startswith line "#" = false →
  existsb malformed (finditer line) = false →
  ∃ record,
    syscall record = last_value "syscall" (finditer line) ""
    ∧ parse_syscall_line line
      = Ok (if PyStr.is_empty (syscall record) then None else Some record).
Proof.
  unfold parse_syscall_line. intros -> H.
  destruct (scan_well_formed _ (new_record line) H) as (r & -> & Hs).
  exists r. split; [exact Hs|reflexivity].
Qed.

Lemma parse_syscall_line_exn line e :
  parse_syscall_line line = Raise e → e = ValueError.
Proof.
  unfold parse_syscall_line.
  destruct (_ || _); [discriminate|].
  destruct (foldM assign _ _) as [r|e'] eqn:E; [discriminate|].
  rewrite bind_Raise. intros [= <-].
  destruct (existsb malformed (finditer line)) eqn:Em.
  - rewrite (scan_malformed _ _ Em) in E. congruence.
  - destruct (scan_well_formed _ (new_record line) Em) as (r & Hr & _). congruence.
Qed.

(** A loop stops at the first element on which its body raises. *)
Lemma foldM_raises {A B} (f : A → B → result A) (E : exn) l1 x l2 a :
  (∀ a b e, f a b = Raise e → e = E) →
  (∀ a, f a x = Raise E) →
  foldM f a (l1 ++ x :: l2)%list = Raise E.
Proof.
  intros Hexn Hx. revert a. induction l1 as [|b l1 IH]; intros a; cbn [foldM app].
  - rewrite Hx. reflexivity.
  - destruct (f a b) as [a'|e] eqn:Eq.
    + rewrite bind_Ok. apply IH.
    + rewrite bind_Raise. f_equal. eapply Hexn, Eq.
Qed.

Lemma collect_exn records line e : collect records line = Raise e → e = ValueError.
Proof.
  unfold collect. destruct (parse_syscall_line line) as [r|e'] eqn:E; [discriminate|].
  rewrite bind_Raise. intros [= <-]. eapply parse_syscall_line_exn, E.
Qed.

(** C1, as the code has it: when the value of an integer-typed token of
    a data line cannot be coerced, [int] raises [ValueError] out of the
    line parser (no record is returned for the line, whether or not it
    names a syscall), and the parsing of a file that holds the line stops
    with that error. *)
Theorem malformed_field_aborts line before after :
  PyStr.is_empty (PyStr.strip line) || PyStr.startswith line "#" = false →
  existsb malformed (finditer line) = true →
  parse_syscall_line line = Raise ValueError
  ∧ parse_syscall_log (Some (before ++ line :: after)%list) = Raise ValueError.
Proof.
  intros Hdata Hbad.
  pose proof (parse_syscall_line_malformed line Hdata Hbad) as Hline.
  split; [exact Hline|].
  cbn [parse_syscall_log]. apply foldM_raises.
  - apply collect_exn.
  - intros records. unfold collect. rewrite Hline. reflexivity.
Qed.

Lemma malformed_field_aborts_witness :
  parse_syscall_line "syscall=read pid=abc" = Raise ValueError
  ∧ parse_syscall_log
      (Some (["syscall=openat"] ++ "syscall=read pid=abc" :: ["syscall=write"])%list)
    = Raise ValueError.
Proof.
  apply (malformed_field_aborts "syscall=read pid=abc"
           ["syscall=openat"] ["syscall=write"]); reflexivity.
Defined.

(** C1, as the claim has it, fails: the line below names the syscall
    [read] and holds a process identifier that is no integer; the parser
    returns no record for it, and the file around it is not parsed to its
    end. *)
Lemma malformed_field_counterexample :
  last_value "syscall" (finditer "syscall=read pid=abc") "" = "read"
  ∧ existsb malformed (finditer "syscall=read pid=abc") = true
  ∧ (¬ ∃ record, parse_syscall_line "syscall=read pid=abc" = Ok (Some record))
  ∧ is_ok (parse_syscall_log (Some ["syscall=read pid=abc"; "syscall=write"]))
    = false.
Proof.
  repeat split; try reflexivity.
  intros [record H]. vm_compute in H. discriminate H.
Qed.

(** ** Comment lines *)

Lemma lstrip_blank ws s :
  blank ws = true →
  PyStr.lstrip_by PyStr.is_space (ws +:+ s) = PyStr.lstrip_by PyStr.is_space s.
Proof.
  induction ws as [|c ws IH]; [reflexivity|].
  cbn [blank]. intros [Hc Hws]%andb_true_iff.
  change (String c ws +:+ s) with (String c (ws +:+ s)).
  cbn [PyStr.lstrip_by]. rewrite Hc. apply IH, Hws.
Qed.

Lemma strip_hash ws rest :
  blank ws = true →
  PyStr.is_empty (PyStr.strip (ws +:+ String "#" rest)) = false.
Proof.
  intros Hws. unfold PyStr.strip. rewrite (lstrip_blank _ _ Hws).
  cbn [PyStr.lstrip_by]. change (PyStr.is_space "#") with false.
  cbn [PyStr.rstrip_by]. change (PyStr.is_space "#") with false.
  rewrite andb_false_r. reflexivity.
Qed.

Lemma prefix_hash c s :
  String.prefix "#" (String c s) = if ascii_dec "#" c then true else false.
Proof. destruct s; reflexivity. Qed.

Lemma startswith_hash_blank ws rest :
  ws ≠ "" → blank ws = true →
  PyStr.startswith (ws +:+ String "#" rest) "#" = false.
Proof.
  destruct ws as [|c ws]; [congruence|]. intros _.
  cbn [blank]. intros [Hc _]%andb_true_iff.
  unfold PyStr.startswith.
  change (String c ws +:+ String "#" rest) with (String c (ws +:+ String "#" rest)).
  rewrite prefix_hash.
  destruct (ascii_dec "#" c) as [<-|_]; [discriminate Hc|reflexivity].
Qed.

Lemma startswith_hash rest : PyStr.startswith (String "#" rest) "#" = true.
Proof.
  unfold PyStr.startswith. rewrite prefix_hash.
  destruct (ascii_dec "#" "#"); [reflexivity|congruence].
Qed.

(** C10, as the code has it: a line that starts with [#] is a comment,
    a line in which white space precedes the [#] is not: the parser goes
    on to its matches, and returns a record when they are well formed and
    the last [syscall] match has a value that is not empty. *)
Theorem indented_hash_is_data ws rest :
  ws ≠ "" → blank ws = true →
  let line := ws +:+ String "#" rest in
  parse_syscall_line (String "#" rest) = Ok None
  ∧ parse_syscall_line line
    = (record ← foldM assign (new_record line) (finditer line);
       Ok (if PyStr.is_empty (syscall record) then None else Some record))
  ∧ (existsb malformed (finditer line) = false →
     last_value "syscall" (finditer line) "" ≠ "" →
     ∃ record, parse_syscall_line line = Ok (Some record)
               ∧ syscall record = last_value "syscall" (finditer line) "").
Proof.
  intros Hne Hws line.
  assert (Hdata : PyStr.is_empty (PyStr.strip line) || PyStr.startswith line "#" = false).
  { unfold line. rewrite (strip_hash _ _ Hws), (startswith_hash_blank _ _ Hne Hws).
    reflexivity. }
  split; [|split].
  - apply parse_syscall_line_skipped. rewrite startswith_hash. apply orb_true_r.
  - unfold parse_syscall_line. rewrite Hdata. reflexivity.
  - intros Hwf Hname.
    destruct (parse_syscall_line_well_formed line Hdata Hwf) as (record & Hs & ->).
    exists record. split; [|exact Hs].
    destruct (syscall record) eqn:E; [|reflexivity].
    exfalso. apply Hname. rewrite <- Hs. reflexivity.
Qed.

Lemma indented_hash_is_data_witness :
  ∃ record, parse_syscall_line " # syscall=read pid=3" = Ok (Some record)
            ∧ syscall record = "read".
Proof.
  refine (proj2 (proj2 (indented_hash_is_data " " " syscall=read pid=3" _ _)) _ _).
  - discriminate.
  - reflexivity.
  - reflexivity.
  - discriminate.
Defined.

(** C10, as the claim has it, fails: the line below begins with white
    space followed by [#] and holds the match [syscall=read], and the
    parser returns no record for it: the value of [pid] is no integer. *)
Lemma indented_hash_counterexample :
  blank " " = true
  ∧ finditer " # syscall=read pid=x" = [("syscall", "read"); ("pid", "x")]
  ∧ parse_syscall_line " # syscall=read pid=x" = Raise ValueError
  ∧ ¬ ∃ record, parse_syscall_line " # syscall=read pid=x" = Ok (Some record).
Proof.
  split; [reflexivity|]. split; [vm_compute; reflexivity|].
  split; [vm_compute; reflexivity|].
  intros [record H]. vm_compute in H. discriminate H.
Qed.

(** ** The batch driver *)

Lemma insert_sorted_elem p q l : q ∈ insert_sorted p l ↔ q = p ∨ q ∈ l.
Proof.
  induction l as [|x l IH]; cbn [insert_sorted].
  - rewrite list_elem_of_singleton, elem_of_nil. tauto.
  - destruct (String.ltb p x).
    + apply elem_of_cons.
    + rewrite !elem_of_cons, IH. tauto.
Qed.

Lemma sorted_elem q l : q ∈ sorted l ↔ q ∈ l.
Proof.
  unfold sorted. induction l as [|x l IH]; cbn [foldr]; [reflexivity|].
  rewrite insert_sorted_elem, elem_of_cons, IH. reflexivity.
Qed.

Lemma glob_log_elem fs trace_dir name :
  name ∈ listdir fs → PyStr.endswith name ".log" = true →
  trace_dir +:+ "/" +:+ name ∈ glob_log fs trace_dir.
Proof.
  intros Hin Hlog. unfold glob_log.
  apply (list_elem_of_fmap_2 (fun name => trace_dir +:+ "/" +:+ name)).
  apply list_elem_of_filter. split; assumption.
Qed.

(** A loop raises when its body raises on one of the elements, whatever
    was accumulated before. *)
Lemma foldM_raises_on {A B} (f : A → B → result A) l x a :
  x ∈ l → (∀ a, ∃ e, f a x = Raise e) → ∃ e, foldM f a l = Raise e.
Proof.
  intros Hin Hx. revert a. induction l as [|b l IH]; intros a; [inversion Hin|].
  cbn [foldM]. apply elem_of_cons in Hin as [<-|Hin].
  - destruct (Hx a) as [e ->]. exists e. reflexivity.
  - destruct (f a b) as [a'|e].
    + apply (IH Hin).
    + exists e. reflexivity.
Qed.

Lemma process_trace_file_unreadable iter fs trace_path package :
  open_ fs trace_path = None →
  process_trace_file iter fs trace_path package = Raise OSError.
Proof. unfold process_trace_file. intros ->. reflexivity. Qed.

(** C3, as the code has it: nothing catches the error of a trace file that
    cannot be opened. When one of the [*.log] files of the directory is
    unreadable, the run stops with an exception: no file is skipped and
    no dataset is written. *)
Theorem unreadable_file_aborts iter fs trace_dir name :
  name ∈ listdir fs → PyStr.endswith name ".log" = true →
  open_ fs (trace_dir +:+ "/" +:+ name) = None →
  ∃ e, process_all_traces iter fs trace_dir = Raise e.
Proof.
  intros Hin Hlog Hopen.
  pose proof (glob_log_elem fs trace_dir name Hin Hlog) as Hglob.
  unfold process_all_traces.
  destruct (glob_log fs trace_dir) as [|p l] eqn:E; [inversion Hglob|].
  rewrite <- E. rewrite <- E in Hglob. clear E.
  apply sorted_elem in Hglob.
  destruct (foldM_raises_on
              (fun all_features trace_path =>
                 features ← process_trace_file iter fs trace_path "";
                 Ok (all_features ++ [features_to_dict features])%list)
              (sorted (glob_log fs trace_dir)) _ [] Hglob) as [e He].
  - intros a. exists OSError.
    rewrite (process_trace_file_unreadable _ _ _ _ Hopen). reflexivity.
  - exists e. rewrite He. reflexivity.
Qed.

Lemma unreadable_file_aborts_witness :
  ∃ e, process_all_traces elements sample_fs "traces" = Raise e.
Proof.
  apply (unreadable_file_aborts elements sample_fs "traces" "b.log").
  - constructor.
  - reflexivity.
  - reflexivity.
Defined.

(** C3, as the claim has it, fails: of the two trace files of the sample
    directory one is unreadable; the run does not write the row of the
    readable one (which it writes when that file is alone), it raises. *)
Lemma unreadable_file_counterexample :
  process_all_traces elements sample_fs "traces" = Raise OSError
  ∧ (∃ header row,
       process_all_traces elements readable_fs "traces"
       = Ok (Written header [row]))
  ∧ ¬ ∃ out, process_all_traces elements sample_fs "traces" = Ok out.
Proof.
  split; [reflexivity|]. split.
  - eexists _, _. vm_compute. reflexivity.
  - intros [out H]. vm_compute in H. discriminate H.
Qed.


(** ** Binary64 arithmetic *)

Lemma digits2_pos_bounds p :
  2 ^ (Z.pos (digits2_pos p) - 1) <= Z.pos p < 2 ^ Z.pos (digits2_pos p).
Proof.
  induction p as [p IH|p IH|]; cbn [digits2_pos].
  - rewrite Pos2Z.inj_succ. change (Z.pos p~1) with (2 * Z.pos p + 1).
    replace (Z.succ (Z.pos (digits2_pos p)) - 1) with (Z.succ (Z.pos (digits2_pos p) - 1)) by lia.
    rewrite !Z.pow_succ_r by lia.
    destruct IH as [IH1 IH2]. revert IH1 IH2.
    generalize (2 ^ (Z.pos (digits2_pos p) - 1)) (2 ^ Z.pos (digits2_pos p)).
    intros a b Ha Hb. lia.
  - rewrite Pos2Z.inj_succ. change (Z.pos p~0) with (2 * Z.pos p).
    replace (Z.succ (Z.pos (digits2_pos p)) - 1) with (Z.succ (Z.pos (digits2_pos p) - 1)) by lia.
    rewrite !Z.pow_succ_r by lia.
    destruct IH as [IH1 IH2]. revert IH1 IH2.
    generalize (2 ^ (Z.pos (digits2_pos p) - 1)) (2 ^ Z.pos (digits2_pos p)).
    intros a b Ha Hb. lia.
  - simpl. lia.
Qed.

Lemma shr_1_m mrs : 0 <= shr_m mrs → shr_m (shr_1 mrs) = shr_m mrs / 2.
Proof.
  destruct mrs as [m r s]. cbn [shr_m]. intros Hm. unfold shr_1.
  destruct m as [|[p|p|]|p]; cbn [shr_m].
  - reflexivity.
  - change (Z.pos p~1) with (2 * Z.pos p + 1).
    apply Z.div_unique with 1; lia.
  - change (Z.pos p~0) with (2 * Z.pos p).
    apply Z.div_unique with 0; lia.
  - reflexivity.
  - lia.
Qed.

Lemma iter_shr_1_m p mrs :
  0 <= shr_m mrs →
  shr_m (SpecFloat.iter_pos shr_1 p mrs) = shr_m mrs / 2 ^ Z.pos p.
Proof.
  revert mrs. induction p as [p IH|p IH|]; intros mrs Hm; cbn [SpecFloat.iter_pos].
  - assert (H1 : 0 <= shr_m (shr_1 mrs)) by (rewrite shr_1_m by lia; apply Z.div_pos; lia).
    assert (H2 : 0 <= shr_m (SpecFloat.iter_pos shr_1 p (shr_1 mrs)))
      by (rewrite IH by lia; apply Z.div_pos; lia).
    rewrite IH, IH, shr_1_m by lia.
    rewrite !Z.div_div by lia. f_equal.
    change (Z.pos p~1) with (2 * Z.pos p + 1). rewrite Z.pow_add_r, Z.pow_mul_r by lia.
    change (2 ^ 2) with 4. rewrite Z.pow_1_r.
    replace 4 with (2 * 2) by lia. rewrite Z.pow_mul_l. lia.
  - assert (H2 : 0 <= shr_m (SpecFloat.iter_pos shr_1 p mrs))
      by (rewrite IH by lia; apply Z.div_pos; lia).
    rewrite IH, IH by lia. rewrite Z.div_div by lia. f_equal.
    change (Z.pos p~0) with (2 * Z.pos p). rewrite Z.pow_mul_r by lia.
    change (2 ^ 2) with 4. replace 4 with (2 * 2) by lia. rewrite Z.pow_mul_l. lia.
  - rewrite shr_1_m by lia. reflexivity.
Qed.

Lemma shr_record_of_loc_m m l : shr_m (shr_record_of_loc m l) = m.
Proof. destruct l as [|[]]; reflexivity. Qed.

(** The shift to the format: a positive mantissa stays positive, fits in
    53 bits afterwards, and the exponent does not go down. *)
Lemma shr_fexp_positive m e l :
  0 < m → -1074 <= e →
  0 < shr_m (shr_fexp 53 1024 m e l).1 < 2 ^ 53
  ∧ e <= (shr_fexp 53 1024 m e l).2.
Proof.
  intros Hm He. unfold shr_fexp, shr, fexp, emin.
  destruct m as [|p|p]; try lia. cbn [Zdigits2].
  pose proof (digits2_pos_bounds p) as Hd.
  set (d := Z.pos (digits2_pos p)) in *.
  assert (Hd1 : 1 <= d) by (unfold d; lia).
  destruct (Z.max (d + e - 53) (3 - 1024 - 53) - e) as [|n|n] eqn:En;
    cbn [fst snd].
  - rewrite shr_record_of_loc_m. split; [|lia]. split; [lia|].
    apply Z.lt_le_trans with (2 ^ d); [lia|].
    apply Z.pow_le_mono_r; lia.
  - rewrite iter_shr_1_m by (rewrite shr_record_of_loc_m; lia).
    rewrite shr_record_of_loc_m.
    assert (Hn : Z.pos n = d - 53) by lia. rewrite Hn.
    split; [|lia]. split.
    + apply Z.div_str_pos. split; [apply Z.pow_pos_nonneg; lia|].
      apply Z.le_trans with (2 ^ (d - 1)); [|lia].
      apply Z.pow_le_mono_r; lia.
    + apply Z.div_lt_upper_bound; [apply Z.pow_pos_nonneg; lia|].
      rewrite <- Z.pow_add_r by lia.
      replace (d - 53 + 53) with d by lia. lia.
  - rewrite shr_record_of_loc_m. split; [|lia]. split; [lia|].
    apply Z.lt_le_trans with (2 ^ d); [lia|].
    apply Z.pow_le_mono_r; lia.
Qed.

Lemma round_nearest_even_bounds m l :
  m <= round_nearest_even m l <= m + 1.
Proof.
  unfold round_nearest_even. destruct l as [|[]]; try lia.
  destruct (Z.even m); lia.
Qed.

(** Rounding a positive number whose exponent is in range gives a
    positive float. *)
Lemma binary_round_aux_positive m e l :
  0 < m → -1074 <= e →
  at_least e (binary_round_aux 53 1024 false m e l).
Proof.
  intros Hm He. unfold binary_round_aux.
  pose proof (shr_fexp_positive m e l Hm He) as [H1 H1e].
  destruct (shr_fexp 53 1024 m e l) as [mrs' e']. cbn [fst snd] in *.
  pose proof (round_nearest_even_bounds (shr_m mrs') (loc_of_shr_record mrs')) as Hr.
  set (m2 := round_nearest_even _ _) in *.
  pose proof (shr_fexp_positive m2 e' loc_Exact ltac:(lia) ltac:(lia)) as [H2 H2e].
  destruct (shr_fexp 53 1024 m2 e' loc_Exact) as [mrs'' e'']. cbn [fst snd] in *.
  destruct (shr_m mrs'') as [|p|p]; try lia.
  destruct (Z.leb e'' (1024 - 53)); cbn [at_least]; [|exact I].
  split; lia.
Qed.

Lemma at_least_mono E E' x : E' <= E → at_least E x → at_least E' x.
Proof. intros HE. destruct x as [| [] | |[] m e]; cbn [at_least]; try tauto. lia. Qed.

(** The conversion of a positive integer. *)
Lemma of_int_positive n : 0 < n → at_least (-52) (PyFloat.of_int n).
Proof.
  intros Hn. destruct n as [|p|p]; try lia.
  unfold PyFloat.of_int, PyFloat.prec, PyFloat.emax, binary_normalize, binary_round.
  pose proof (digits2_pos_bounds p) as Hd.
  unfold shl_align, fexp, emin.
  set (d := Z.pos (digits2_pos p)) in *.
  assert (Hd1 : 1 <= d) by (unfold d; lia).
  destruct (Z.max (d + 0 - 53) (3 - 1024 - 53) - 0) as [|k|k] eqn:Ek.
  - eapply at_least_mono; [|apply binary_round_aux_positive; lia]. lia.
  - eapply at_least_mono; [|apply binary_round_aux_positive; lia]. lia.
  - eapply at_least_mono; [|apply binary_round_aux_positive; lia]. lia.
Qed.

Lemma hundred_digits : PyFloat.hundred = S754_finite false 7036874417766400 (-46).
Proof. reflexivity. Qed.

(** The division of a positive float of an integer by [100.0]. *)
Lemma div_hundred_positive x :
  at_least (-52) x → at_least (-1074) (PyFloat.div x PyFloat.hundred).
Proof.
  destruct x as [| [] | |[] m e]; cbn [at_least]; try tauto.
  intros [Hm He]. rewrite hundred_digits.
  unfold PyFloat.div, PyFloat.prec, PyFloat.emax, SFdiv, SFdiv_core_binary.
  cbn [xorb Zdigits2].
  pose proof (digits2_pos_bounds m) as Hd.
  set (d := Z.pos (digits2_pos m)) in *.
  assert (Hd1 : 1 <= d <= 53).
  { split; [unfold d; lia|].
    destruct (Z_le_gt_dec d 53) as [|Hgt]; [assumption|exfalso].
    assert (2 ^ 53 <= 2 ^ (d - 1)) by (apply Z.pow_le_mono_r; lia). lia. }
  change (Z.pos (digits2_pos 7036874417766400)) with 53.
  unfold fexp, emin.
  replace (Z.min (Z.max (d + e - (53 + -46) - 53) (3 - 1024 - 53)) (e - -46))
    with (d + e - 60) by lia.
  replace (e - -46 - (d + e - 60)) with (106 - d) by lia.
  destruct (106 - d) as [|s|s] eqn:Es; try lia.
  rewrite <- Es. clear Es s.
  rewrite Z.shiftl_mul_pow2 by lia.
  pose proof (Z_div_mod (Z.pos m * 2 ^ (106 - d)) 7036874417766400 ltac:(lia)) as Hdiv.
  destruct (Z.div_eucl (Z.pos m * 2 ^ (106 - d)) 7036874417766400) as [q r].
  apply (at_least_mono (d + e - 60)); [lia|].
  apply binary_round_aux_positive; [|lia].
  assert (Hbig : 2 ^ 105 <= Z.pos m * 2 ^ (106 - d)).
  { replace 105 with ((d - 1) + (106 - d)) by lia.
    rewrite Z.pow_add_r by lia.
    apply Z.mul_le_mono_nonneg_r; [apply Z.pow_nonneg; lia|lia]. }
  assert (H105 : 2 ^ 105 = 40564819207303340847894502572032) by reflexivity.
  nia.
Qed.

Lemma positive_compare x :
  at_least (-1074) x →
  PyFloat.ltb PyFloat.zero x = true ∧ PyFloat.eqb x PyFloat.zero = false.
Proof. destruct x as [| [] | |[] m e]; cbn [at_least]; try tauto; split; reflexivity. Qed.

(** The estimated duration of a non-empty trace is positive. *)
Lemma duration_positive n :
  0 < n →
  at_least (-1074) (PyFloat.div (PyFloat.of_int n) PyFloat.hundred).
Proof. intros Hn. apply div_hundred_positive, of_int_positive, Hn. Qed.

(** ** Duration and rates *)

Lemma get_int_set_ne k k' v o :
  (k =? k') = false → get_int k' (dict_set k v o) = get_int k' o.
Proof. intros E. unfold get_int. rewrite dict_get_set_ne by exact E. reflexivity. Qed.

Lemma get_float_set_eq k x o : get_float k (dict_set k (VFloat x) o) = x.
Proof. unfold get_float. rewrite dict_get_set_eq. reflexivity. Qed.

Lemma get_float_set_ne k k' v o :
  (k =? k') = false → get_float k' (dict_set k v o) = get_float k' o.
Proof. intros E. unfold get_float. rewrite dict_get_set_ne by exact E. reflexivity. Qed.

(** The end of the extraction when the syscall count is positive: the
    guard on the duration holds and the three attributes are written. *)
Lemma rates_of_positive features :
  0 < get_int "total_syscalls" features →
  rates features
  = let total := PyFloat.of_int (get_int "total_syscalls" features) in
    let spawned := PyFloat.of_int (get_int "num_threads_spawned" features) in
    let duration := PyFloat.div total PyFloat.hundred in
    dict_set "threads_per_second" (VFloat (PyFloat.div spawned duration))
      (dict_set "syscalls_per_second" (VFloat (PyFloat.div total duration))
         (dict_set "trace_duration_sec" (VFloat duration) features)).
Proof.
  intros Hn. unfold rates. cbv zeta.
  rewrite !get_float_set_eq.
  destruct (positive_compare _ (duration_positive _ Hn)) as [-> _].
  rewrite !get_float_set_ne, !get_float_set_eq by reflexivity.
  rewrite !get_int_set_ne by reflexivity.
  reflexivity.
Qed.

(** The syscall count is written once, before the loops. *)
Lemma staged_total iter r records package :
  let st := tallied (r :: records) package in
  dict_get "total_syscalls"
    (counted st
       (fold_left classify_path (iter (Loc.file_paths st))
          (fold_left classify_thread (iter (Loc.thread_names st))
             (published st))))
  = Some (VInt (Z.of_nat (length (r :: records)))).
Proof.
  intros st. unfold counted.
  rewrite !dict_get_set_ne by reflexivity.
  change classify_path with (run_rules path_is path_rules).
  rewrite classified_spec by apply path_rules_NoDup.
  change classify_thread with (run_rules thread_is thread_rules).
  change (classified path_is path_rules ?xs ?f "total_syscalls")
    with (dict_get "total_syscalls" f).
  rewrite classified_spec by apply thread_rules_NoDup.
  change (classified thread_is thread_rules ?xs ?f "total_syscalls")
    with (dict_get "total_syscalls" f).
  unfold published. rewrite !dict_get_set_ne by reflexivity.
  unfold st, tallied. rewrite tally_untouched by reflexivity.
  cbn [start Loc.features]. apply dict_get_set_eq.
Qed.

(** C5: the estimated duration is the syscall count divided by the
    constant 100.0, and the two rates are the syscall count and the
    number of threads spawned divided by that duration, zero when the
    duration is zero. *)
Theorem rates_from_estimated_duration iter records package :
  let f := extract_features iter records package in
  let total := get_int "total_syscalls" f in
  let spawned := get_int "num_threads_spawned" f in
  ∃ duration,
    total = Z.of_nat (length records)
    ∧ duration = PyFloat.div (PyFloat.of_int total) PyFloat.hundred
    ∧ dict_get "trace_duration_sec" f = Some (VFloat duration)
    ∧ dict_get "syscalls_per_second" f
      = Some (VFloat (if PyFloat.eqb duration PyFloat.zero then PyFloat.zero
                      else PyFloat.div (PyFloat.of_int total) duration))
    ∧ dict_get "threads_per_second" f
      = Some (VFloat (if PyFloat.eqb duration PyFloat.zero then PyFloat.zero
                      else PyFloat.div (PyFloat.of_int spawned) duration)).
Proof.
  destruct records as [|r records].
  - exists PyFloat.zero. repeat split; reflexivity.
  - cbv zeta. rewrite extract_features_stages by discriminate. cbv zeta.
    pose proof (staged_total iter r records package) as Htotal. cbv zeta in Htotal.
    set (f3 := counted _ _) in *.
    assert (Hn : get_int "total_syscalls" f3 = Z.of_nat (length (r :: records)))
      by (unfold get_int; rewrite Htotal; reflexivity).
    assert (Hpos : 0 < get_int "total_syscalls" f3)
      by (rewrite Hn, length_cons; lia).
    rewrite (rates_of_positive f3 Hpos). cbv zeta.
    rewrite !get_int_set_ne by reflexivity.
    eexists. split; [exact Hn|]. split; [reflexivity|].
    destruct (positive_compare _ (duration_positive _ Hpos)) as [_ ->].
    rewrite !dict_get_set. cbn [String.eqb Ascii.eqb Bool.eqb].
    repeat split; reflexivity.
Qed.




(** ** The parser as a function of the matches *)

Lemma strip_blank s : PyStr.is_empty (PyStr.strip s) = blank s.
Proof.
  unfold PyStr.strip. induction s as [|c s IH]; [reflexivity|].
  cbn [PyStr.lstrip_by blank]. destruct (PyStr.is_space c) eqn:E.
  - exact IH.
  - cbn [PyStr.rstrip_by]. rewrite E, andb_false_r. reflexivity.
Qed.

Lemma assign_updated record kv :
  malformed kv = false → assign record kv = Ok (updated record kv).
Proof.
  destruct kv as [key value]. unfold malformed, int_keys, updated.
  cbn [fst snd existsb]. intros Hwf. unfold assign.
  destruct record.
  repeat match goal with
         | |- context [if key =? ?k then _ else _] =>
             let E := fresh "E" in
             destruct (key =? k) eqn:E;
             [ apply String.eqb_eq in E; subst key;
               cbn [String.eqb Ascii.eqb Bool.eqb orb andb] in * |]
         end;
    try reflexivity;
    (destruct (PyStr.py_int value) as [n|] eqn:En;
     [ rewrite (int_returns _ _ En); reflexivity | discriminate Hwf ]).
Qed.

Lemma fold_updated tokens r :
  fold_left updated tokens r
  = {| timestamp := last_value "ts" tokens (timestamp r);
       syscall := last_value "syscall" tokens (syscall r);
       pid := last_int "pid" tokens (pid r);
       tid := last_int "tid" tokens (tid r);
       uid := last_int "uid" tokens (uid r);
       comm := last_value "comm" tokens (comm r);
       path := last_value "path" tokens (path r);
       fd := last_int "fd" tokens (fd r);
       flags := last_value "flags" tokens (flags r);
       count := last_int "count" tokens (count r);
       actual := last_int "actual" tokens (actual r);
       family := last_value "family" tokens (family r);
       ip := last_value "ip" tokens (ip r);
       port := last_int "port" tokens (port r);
       child_pid := last_int "child_pid" tokens (child_pid r);
       clone_type := last_value "type" tokens (clone_type r);
       prot := last_value "prot" tokens (prot r);
       raw_line := raw_line r |}.
Proof.
  revert r. induction tokens as [|kv tokens IH]; intros r.
  - destruct r. reflexivity.
  - cbn [fold_left]. rewrite IH. reflexivity.
Qed.

Lemma scan_updated tokens record :
  existsb malformed tokens = false →
  foldM assign record tokens = Ok (fold_left updated tokens record).
Proof.
  revert record. induction tokens as [|kv tokens IH]; intros record; [reflexivity|].
  cbn [existsb foldM fold_left]. intros [Hkv Htl]%orb_false_iff.
  rewrite (assign_updated _ _ Hkv), bind_Ok. apply IH, Htl.
Qed.

Lemma scan_described line :
  existsb malformed (finditer line) = false →
  foldM assign (new_record line) (finditer line)
  = Ok (described line (finditer line)).
Proof.
  intros H. rewrite (scan_updated _ _ H), fold_updated. reflexivity.
Qed.

(** X1: the line parser as a function of its matches. A blank line or a
    line that starts with [#] gives no record and raises nothing, whatever
    else it holds; a data line with a malformed integer match raises
    [ValueError]; any other line gives the record in which every field
    holds the value of the last match with its key (a later duplicate
    wins) or its default, with the whole line in [raw_line], provided that
    record has a syscall name, and no record otherwise. *)
Theorem parse_syscall_line_spec line :
  parse_syscall_line line
  = if blank line || PyStr.startswith line "#" then Ok None
    else if existsb malformed (finditer line) then Raise ValueError
    else if PyStr.is_empty (last_value "syscall" (finditer line) "") then Ok None
    else Ok (Some (described line (finditer line))).
Proof.
  unfold parse_syscall_line. rewrite strip_blank.
  destruct (blank line || PyStr.startswith line "#"); [reflexivity|].
  destruct (existsb malformed (finditer line)) eqn:E.
  - rewrite (scan_malformed _ _ E). reflexivity.
  - rewrite (scan_described _ E), bind_Ok. cbn [syscall described].
    destruct (PyStr.is_empty _); reflexivity.
Qed.

(** X2: a match whose key the parser does not recognise is ignored: the
    scan of a list of matches gives the same result (the same record or
    the same error) as the scan of its matches with recognised keys. *)
Theorem unrecognised_keys_ignored tokens record :
  foldM assign record tokens
  = foldM assign record
      (filter (fun kv => existsb (String.eqb kv.1) recognised = true) tokens).
Proof.
  revert record. induction tokens as [|[key value] tokens IH]; intros record;
    [reflexivity|].
  rewrite filter_cons. cbn [fst].
  destruct (decide (existsb (String.eqb key) recognised = true)) as [Hk|Hk].
  - cbn [foldM]. destruct (assign record (key, value)); [|reflexivity].
    rewrite !bind_Ok. apply IH.
  - cbn [foldM]. apply not_true_is_false in Hk.
    unfold recognised in Hk. cbn [existsb] in Hk.
    repeat (apply orb_false_elim in Hk as [? Hk]).
    assert (Hskip : assign record (key, value) = Ok record).
    { unfold assign.
      repeat match goal with
             | H : (key =? ?k) = false |- context [key =? ?k] => rewrite H
             end.
      reflexivity. }
    rewrite Hskip, bind_Ok. apply IH.
Qed.

Lemma data_line_cases line :
  PyStr.is_empty (PyStr.strip line) || PyStr.startswith line "#"
  = negb (data_line line).
Proof. unfold data_line. rewrite strip_blank, negb_involutive. reflexivity. Qed.

Lemma collect_cases records line :
  collect records line
  = if bad_line line then Raise ValueError
    else Ok (records ++ option_list (record_of line))%list.
Proof.
  unfold collect, bad_line, record_of.
  pose proof (data_line_cases line) as Hd.
  destruct (data_line line); cbn [negb andb] in *.
  - destruct (existsb malformed (finditer line)) eqn:E.
    + rewrite (parse_syscall_line_malformed _ Hd E). reflexivity.
    + destruct (parse_syscall_line_well_formed _ Hd E) as (r & _ & ->).
      rewrite bind_Ok. destruct (PyStr.is_empty (syscall r)); cbn [option_list];
        [rewrite app_nil_r|]; reflexivity.
  - rewrite (parse_syscall_line_skipped _ Hd), bind_Ok.
    cbn [option_list]. rewrite app_nil_r. reflexivity.
Qed.

Lemma collect_all lines records :
  foldM collect records lines
  = if existsb bad_line lines then Raise ValueError
    else Ok (records ++ omap record_of lines)%list.
Proof.
  revert records. induction lines as [|line lines IH]; intros records.
  - cbn [foldM existsb omap list_omap]. rewrite app_nil_r. reflexivity.
  - cbn [foldM existsb]. rewrite collect_cases.
    destruct (bad_line line); [reflexivity|].
    rewrite bind_Ok, IH. cbn [orb].
    destruct (existsb bad_line lines); [reflexivity|].
    f_equal. rewrite <- app_assoc. f_equal.
    cbn [omap list_omap]. destruct (record_of line); reflexivity.
Qed.

(** X3: parsing a readable file raises [ValueError] exactly when one of
    its data lines holds a malformed integer match; otherwise it returns
    the records of the lines that give one, in the order of the file
    (an empty file gives the empty list). *)
Theorem parse_syscall_log_spec lines :
  parse_syscall_log (Some lines)
  = if existsb bad_line lines then Raise ValueError
    else Ok (omap record_of lines).
Proof. cbn [parse_syscall_log]. rewrite collect_all. reflexivity. Qed.

(** ** The loop over the records, attribute by attribute *)

Lemma apply_tally_idle r rules features :
  Forall (fun rule : string * (SyscallRecord → bool) * (SyscallRecord → effect) =>
            rule.1.2 r = false) rules →
  fold_left (apply_tally r) rules features = features.
Proof.
  induction 1 as [|[[attr cond] eff] rules Hc _ IH]; [reflexivity|].
  cbn [fold_left apply_tally]. cbn [fst snd] in Hc. rewrite Hc. exact IH.
Qed.

(** The rule list run on a record whose conditions compute. *)
Ltac run_tally :=
  unfold tally_rules, called;
  cbn [fold_left apply_tally existsb syscall actual family port clone_type
       String.eqb Ascii.eqb Bool.eqb orb andb fst snd].

(** The chain of [if]/[elif] does what the rule list says. *)
Lemma dispatch_features record features ips dbs :
  (dispatch record features ips dbs).1.1
  = fold_left (apply_tally record) tally_rules features.
Proof.
  destruct record as [ts sc pid tid uid cm pth fd fl cnt act fam ipa prt cpid ct prot raw].
  unfold dispatch, incr. cbn [syscall actual family port clone_type path ip].
  destruct (sc =? "openat") eqn:E1.
  { apply String.eqb_eq in E1. subst sc. run_tally. split_ifs; reflexivity. }
  destruct (sc =? "open") eqn:E2.
  { apply String.eqb_eq in E2. subst sc. run_tally. split_ifs; reflexivity. }
  cbn [orb].
  destruct (sc =? "read") eqn:E3.
  { apply String.eqb_eq in E3. subst sc. run_tally. reflexivity. }
  destruct (sc =? "write") eqn:E4.
  { apply String.eqb_eq in E4. subst sc. run_tally. reflexivity. }
  destruct (sc =? "close") eqn:E5.
  { apply String.eqb_eq in E5. subst sc. run_tally. reflexivity. }
  destruct (sc =? "clone") eqn:E6.
  { apply String.eqb_eq in E6. subst sc. run_tally. split_ifs; reflexivity. }
  destruct (sc =? "mmap") eqn:E7.
  { apply String.eqb_eq in E7. subst sc. run_tally. reflexivity. }
  destruct (sc =? "socket") eqn:E8.
  { apply String.eqb_eq in E8. subst sc. run_tally.
    destruct (fam =? "ipv4") eqn:F1;
      [apply String.eqb_eq in F1; subst fam; reflexivity|].
    destruct (fam =? "ipv6") eqn:F2;
      [apply String.eqb_eq in F2; subst fam; reflexivity|].
    cbn [orb]. destruct (fam =? "unix"); reflexivity. }
  destruct (sc =? "connect") eqn:E9.
  { apply String.eqb_eq in E9. subst sc. run_tally.
    destruct (fam =? "ipv4") eqn:F1;
      [apply String.eqb_eq in F1; subst fam;
       cbn [String.eqb Ascii.eqb Bool.eqb]; split_ifs; reflexivity|].
    destruct (fam =? "ipv6") eqn:F2; split_ifs; reflexivity. }
  cbn [fst]. symmetry. apply apply_tally_idle.
  unfold tally_rules, called.
  repeat (apply Forall_cons_2;
          [cbn [fst snd existsb syscall];
           rewrite ?E1, ?E2, ?E3, ?E4, ?E5, ?E6, ?E7, ?E8, ?E9; reflexivity|]).
  apply Forall_nil_2.
Qed.

Lemma dispatch_ips record features ips dbs :
  (dispatch record features ips dbs).1.2
  = if called ["connect"] record && truthy (ip record)
    then add (ip record) ips else ips.
Proof.
  destruct record as [ts sc pid tid uid cm pth fd fl cnt act fam ipa prt cpid ct prot raw].
  unfold dispatch, called. cbn [syscall ip path existsb]. rewrite orb_false_r.
  repeat match goal with
         | |- context [sc =? ?k] =>
             let E := fresh "E" in
             destruct (sc =? k) eqn:E;
             [ apply String.eqb_eq in E; subst sc;
               cbn [String.eqb Ascii.eqb Bool.eqb orb andb fst snd];
               split_ifs; reflexivity |]
         end.
  reflexivity.
Qed.

Lemma dispatch_dbs record features ips dbs :
  (dispatch record features ips dbs).2
  = if called ["openat"; "open"] record && PyStr.endswith (path record) ".db"
    then add (path record) dbs else dbs.
Proof.
  destruct record as [ts sc pid tid uid cm pth fd fl cnt act fam ipa prt cpid ct prot raw].
  unfold dispatch, called. cbn [syscall ip path existsb]. rewrite orb_false_r.
  repeat match goal with
         | |- context [sc =? ?k] =>
             let E := fresh "E" in
             destruct (sc =? k) eqn:E;
             [ apply String.eqb_eq in E; subst sc;
               cbn [String.eqb Ascii.eqb Bool.eqb orb andb fst snd];
               split_ifs; reflexivity |]
         end.
  reflexivity.
Qed.

Lemma tally_rules_NoDup : NoDup (tally_rules.*1.*1).
Proof. apply (bool_decide_unpack (NoDup (tally_rules.*1.*1))). vm_compute. exact I. Qed.

Section Tally.

Context (rules : list (string * (SyscallRecord → bool) * (SyscallRecord → effect))).

Lemma apply_tally_get_here r features attr cond eff :
  dict_get attr (apply_tally r features (attr, cond, eff))
  = struck cond eff (dict_get attr features) r.
Proof.
  unfold apply_tally, struck. destruct (cond r); [|reflexivity].
  destruct (eff r); apply dict_get_set_eq.
Qed.

Lemma apply_tally_get_other r features rule k :
  (rule.1.1 =? k) = false →
  dict_get k (apply_tally r features rule) = dict_get k features.
Proof.
  destruct rule as [[attr cond] eff]. cbn [fst]. intros E.
  unfold apply_tally. destruct (cond r); [|reflexivity].
  destruct (eff r); apply dict_get_set_ne, E.
Qed.

Lemma tally_rules_untouched r features k :
  find (fun rule => rule.1.1 =? k) rules = None →
  dict_get k (fold_left (apply_tally r) rules features) = dict_get k features.
Proof.
  revert features. induction rules as [|rule rules' IH]; intros features; [reflexivity|].
  cbn [find fold_left]. destruct (rule.1.1 =? k) eqn:E; [discriminate|].
  intros Hnone. rewrite (IH _ Hnone). apply apply_tally_get_other, E.
Qed.

Lemma find_fresh k :
  k ∉ rules.*1.*1 → find (fun rule => rule.1.1 =? k) rules = None.
Proof.
  induction rules as [|rule rules' IH]; [reflexivity|].
  rewrite !fmap_cons. intros [Hne Hnotin]%not_elem_of_cons. cbn [find].
  destruct (rule.1.1 =? k) eqn:E.
  - apply String.eqb_eq in E. congruence.
  - apply IH, Hnotin.
Qed.

End Tally.

(** One record, attribute by attribute. *)
Lemma apply_tally_get rules r features k :
  NoDup (rules.*1.*1) →
  dict_get k (fold_left (apply_tally r) rules features)
  = match find (fun rule => rule.1.1 =? k) rules with
    | Some (_, cond, eff) => struck cond eff (dict_get k features) r
    | None => dict_get k features
    end.
Proof.
  revert features. induction rules as [|[[attr cond] eff] rules IH];
    intros features Hnd; [reflexivity|].
  rewrite !fmap_cons in Hnd. apply NoDup_cons in Hnd as [Hfresh Hnd].
  cbn [fold_left find fst]. cbn [fst] in Hfresh.
  destruct (attr =? k) eqn:E.
  - apply String.eqb_eq in E. subst k.
    rewrite tally_rules_untouched by (apply find_fresh, Hfresh).
    apply apply_tally_get_here.
  - rewrite (IH _ Hnd).
    rewrite (apply_tally_get_other r features (attr, cond, eff) k E).
    reflexivity.
Qed.

(** The whole loop, attribute by attribute. *)
Lemma tally_get records st k :
  dict_get k (Loc.features (fold_left tally_step records st))
  = match find (fun rule => rule.1.1 =? k) tally_rules with
    | Some (_, cond, eff) =>
        fold_left (struck cond eff) records (dict_get k (Loc.features st))
    | None => dict_get k (Loc.features st)
    end.
Proof.
  revert st. induction records as [|r records IH]; intros st.
  - destruct (find _ tally_rules) as [[[? ?] ?]|]; reflexivity.
  - cbn [fold_left]. rewrite IH, tally_step_features, dispatch_features.
    rewrite (apply_tally_get tally_rules r _ k tally_rules_NoDup).
    destruct (find _ tally_rules) as [[[? cond] eff]|]; reflexivity.
Qed.

(** An attribute that only the loop over the records writes, in the
    extracted feature vector. *)
Lemma extracted_tally iter records package attr cond eff :
  find (fun rule => rule.1.1 =? attr) tally_rules = Some (attr, cond, eff) →
  existsb (String.eqb attr) late_attrs = false →
  rule_for attr thread_rules = None →
  rule_for attr path_rules = None →
  dict_get attr (extract_features iter records package)
  = fold_left (struck cond eff) records (dict_get attr (AppFeatures package)).
Proof.
  intros Hfind Hlate Hthread Hpath.
  destruct records as [|r records]; [reflexivity|].
  rewrite extract_features_stages by discriminate. cbv zeta.
  rewrite rates_untouched, counted_untouched by exact Hlate.
  change classify_path with (run_rules path_is path_rules).
  rewrite classified_spec by apply path_rules_NoDup.
  unfold classified. rewrite Hpath.
  change classify_thread with (run_rules thread_is thread_rules).
  rewrite classified_spec by apply thread_rules_NoDup.
  unfold classified. rewrite Hthread.
  rewrite published_untouched by exact Hlate.
  unfold tallied. rewrite tally_get, Hfind.
  rewrite tallied_start by exact Hlate. reflexivity.
Qed.

Lemma fold_struck_add cond amount records n0 :
  fold_left (struck cond (fun r => Add (amount r))) records (Some (VInt n0))
  = Some (VInt (n0 + total cond amount records)).
Proof.
  revert n0. induction records as [|r records IH]; intros n0.
  - cbn [fold_left total foldr]. do 2 f_equal. lia.
  - cbn [fold_left total foldr]. unfold struck at 2. cbn [as_int].
    destruct (cond r); rewrite IH; do 2 f_equal; fold (total cond amount records); lia.
Qed.

Lemma fold_struck_mark cond records b0 :
  fold_left (struck cond (fun _ => Mark)) records (Some (VBool b0))
  = Some (VBool (b0 || existsb cond records)).
Proof.
  revert b0. induction records as [|r records IH]; intros b0.
  - cbn [fold_left existsb]. rewrite orb_false_r. reflexivity.
  - cbn [fold_left existsb]. unfold struck at 2.
    destruct (cond r); rewrite IH; cbn [orb]; [rewrite orb_true_r|]; reflexivity.
Qed.

Lemma total_count cond records :
  total cond (fun _ => 1) records = count_of cond records.
Proof.
  unfold count_of. induction records as [|r records IH]; [reflexivity|].
  cbn [total foldr]. fold (total cond (fun _ => 1) records). rewrite IH, filter_cons.
  destruct (decide (cond r = true)) as [->|Hn].
  - rewrite length_cons. lia.
  - apply not_true_is_false in Hn. rewrite Hn. lia.
Qed.

(** X4: each per-syscall counter is the number of records with its
    syscall name; [num_openat] counts the records named [openat] and those
    named [open], and [num_connect] and [num_network_connects] are always
    equal. *)
Theorem syscall_counters_count iter records package attr names :
  (attr, names) ∈ call_counters →
  dict_get attr (extract_features iter records package)
  = Some (VInt (count_of (called names) records)).
Proof.
  intros Hin. rewrite <- total_count. unfold call_counters in Hin.
  repeat (apply elem_of_cons in Hin as [[= -> ->]|Hin];
          [ rewrite (extracted_tally iter records package _ (called _) (fun _ => Add 1))
              by reflexivity;
            apply (fold_struck_add _ (fun _ => 1) records 0) |]).
  inversion Hin.
Qed.

Lemma syscall_counters_count_witness :
  dict_get "num_openat" (extract_features elements sample_trace "app")
  = Some (VInt (count_of (called ["openat"; "open"]) sample_trace)).
Proof.
  apply (syscall_counters_count elements sample_trace "app"). constructor.
Defined.

(** X5: the conditional counters. [num_threads_spawned] counts the
    [clone] records of type [thread]; [num_tcp_sockets] counts the
    [socket] records of family [ipv4] or [ipv6] (whatever the transport),
    [num_unix_sockets] those of family [unix]; [num_port_443_connects]
    counts the [connect] records to port 443. *)
Theorem conditional_counters_count iter records package :
  let f := extract_features iter records package in
  dict_get "num_threads_spawned" f
  = Some (VInt (count_of
       (fun r => called ["clone"] r && (clone_type r =? "thread")) records))
  ∧ dict_get "num_tcp_sockets" f
    = Some (VInt (count_of
         (fun r => called ["socket"] r
                   && ((family r =? "ipv4") || (family r =? "ipv6"))) records))
  ∧ dict_get "num_unix_sockets" f
    = Some (VInt (count_of
         (fun r => called ["socket"] r && (family r =? "unix")) records))
  ∧ dict_get "num_port_443_connects" f
    = Some (VInt (count_of
         (fun r => called ["connect"] r && (port r =? 443)%Z) records)).
Proof.
  cbv zeta. rewrite <- !total_count.
  repeat split;
    match goal with
    | |- dict_get ?attr _ = Some (VInt (total ?cond _ _)) =>
        rewrite (extracted_tally iter records package attr cond (fun _ => Add 1))
          by reflexivity;
        apply (fold_struck_add cond (fun _ => 1) records 0)
    end.
Qed.

(** X6: the byte totals are sums over the whole trace: [total_bytes_read]
    is the sum of the [actual] fields of the [read] records and
    [total_bytes_written] that of the [write] records, whatever other
    records lie between them; a negative [actual] lowers the total. *)
Theorem byte_totals_are_sums iter records package :
  let f := extract_features iter records package in
  dict_get "total_bytes_read" f
  = Some (VInt (total (called ["read"]) actual records))
  ∧ dict_get "total_bytes_written" f
    = Some (VInt (total (called ["write"]) actual records)).
Proof.
  cbv zeta. split.
  - rewrite (extracted_tally iter records package _ (called ["read"])
               (fun r => Add (actual r))) by reflexivity.
    apply (fold_struck_add _ actual records 0).
  - rewrite (extracted_tally iter records package _ (called ["write"])
               (fun r => Add (actual r))) by reflexivity.
    apply (fold_struck_add _ actual records 0).
Qed.

(** X7: the two connect flags. [has_ipv4_connect] is true exactly when
    some [connect] record has the family [ipv4], [has_ipv6_connect] when
    one has the family [ipv6]. *)
Theorem connect_flags_by_family iter records package :
  let f := extract_features iter records package in
  dict_get "has_ipv4_connect" f
  = Some (VBool (existsb
       (fun r => called ["connect"] r && (family r =? "ipv4")) records))
  ∧ dict_get "has_ipv6_connect" f
    = Some (VBool (existsb
         (fun r => called ["connect"] r && (family r =? "ipv6")) records)).
Proof.
  cbv zeta. split;
    match goal with
    | |- dict_get ?attr _ = Some (VBool (existsb ?cond _)) =>
        rewrite (extracted_tally iter records package attr cond (fun _ => Mark))
          by reflexivity;
        apply (fold_struck_mark cond records false)
    end.
Qed.

(** An attribute that nothing writes. *)
Lemma extracted_untouched iter records package attr :
  find (fun rule => rule.1.1 =? attr) tally_rules = None →
  existsb (String.eqb attr) late_attrs = false →
  rule_for attr thread_rules = None →
  rule_for attr path_rules = None →
  dict_get attr (extract_features iter records package)
  = dict_get attr (AppFeatures package).
Proof.
  intros Hfind Hlate Hthread Hpath.
  destruct records as [|r records]; [reflexivity|].
  rewrite extract_features_stages by discriminate. cbv zeta.
  rewrite rates_untouched, counted_untouched by exact Hlate.
  change classify_path with (run_rules path_is path_rules).
  rewrite classified_spec by apply path_rules_NoDup.
  unfold classified. rewrite Hpath.
  change classify_thread with (run_rules thread_is thread_rules).
  rewrite classified_spec by apply thread_rules_NoDup.
  unfold classified. rewrite Hthread.
  rewrite published_untouched by exact Hlate.
  unfold tallied. rewrite tally_get, Hfind.
  apply tallied_start, Hlate.
Qed.

(** X8: no path of the extraction writes [num_udp_sockets]: it is zero
    in every feature vector, whatever sockets the trace holds; and the
    package identifier is stored as given. *)
Theorem udp_sockets_never_counted iter records package :
  dict_get "num_udp_sockets" (extract_features iter records package)
  = Some (VInt 0)
  ∧ dict_get "package" (extract_features iter records package)
    = Some (VStr package).
Proof.
  split; rewrite extracted_untouched by reflexivity; reflexivity.
Qed.

(** ** The sets of the loop over the records *)

Lemma tally_step_ip_addresses st r :
  Loc.ip_addresses (tally_step st r)
  = if called ["connect"] r && truthy (ip r)
    then add (ip r) (Loc.ip_addresses st) else Loc.ip_addresses st.
Proof.
  rewrite <- (dispatch_ips r (Loc.features st) _ (Loc.database_files st)).
  unfold tally_step. destruct (dispatch _ _ _ _) as [[? ?] ?]. reflexivity.
Qed.

Lemma tally_step_database_files st r :
  Loc.database_files (tally_step st r)
  = if called ["openat"; "open"] r && PyStr.endswith (path r) ".db"
    then add (path r) (Loc.database_files st) else Loc.database_files st.
Proof.
  rewrite <- (dispatch_dbs r (Loc.features st) (Loc.ip_addresses st)).
  unfold tally_step. destruct (dispatch _ _ _ _) as [[? ?] ?]. reflexivity.
Qed.

Lemma tally_ip_addresses records st :
  Loc.ip_addresses (fold_left tally_step records st)
  = connected_ips records ∪ Loc.ip_addresses st.
Proof.
  revert st. induction records as [|r records IH]; intros st.
  - symmetry. apply (left_id_L ∅ (∪)).
  - cbn [fold_left]. rewrite IH, tally_step_ip_addresses.
    unfold connected_ips. rewrite filter_cons.
    destruct (decide (called ["connect"] r && truthy (ip r) = true)) as [->|Hn].
    + rewrite fmap_cons, list_to_set_cons. unfold add.
      rewrite (assoc_L (∪)), (comm_L (∪) (list_to_set _)). reflexivity.
    + apply not_true_is_false in Hn. rewrite Hn. reflexivity.
Qed.

Lemma tally_database_files records st :
  Loc.database_files (fold_left tally_step records st)
  = opened_databases records ∪ Loc.database_files st.
Proof.
  revert st. induction records as [|r records IH]; intros st.
  - symmetry. apply (left_id_L ∅ (∪)).
  - cbn [fold_left]. rewrite IH, tally_step_database_files.
    unfold opened_databases. rewrite filter_cons.
    destruct (decide (called ["openat"; "open"] r
                      && PyStr.endswith (path r) ".db" = true)) as [->|Hn].
    + rewrite fmap_cons, list_to_set_cons. unfold add.
      rewrite (assoc_L (∪)), (comm_L (∪) (list_to_set _)). reflexivity.
    + apply not_true_is_false in Hn. rewrite Hn. reflexivity.
Qed.

Lemma rates_other features k :
  ("trace_duration_sec" =? k) = false →
  ("syscalls_per_second" =? k) = false →
  ("threads_per_second" =? k) = false →
  dict_get k (rates features) = dict_get k features.
Proof.
  intros E1 E2 E3. unfold rates. split_ifs;
    repeat rewrite dict_get_set_ne by assumption; reflexivity.
Qed.

(** The three cardinalities of a non-empty trace. *)
Lemma extracted_cardinalities iter r records package :
  let f := extract_features iter (r :: records) package in
  let st := tallied (r :: records) package in
  dict_get "num_unique_threads" f = Some (VInt (len (Loc.thread_names st)))
  ∧ dict_get "num_databases" f = Some (VInt (len (Loc.database_files st)))
  ∧ dict_get "num_unique_ips" f = Some (VInt (len (Loc.ip_addresses st))).
Proof.
  cbv zeta. rewrite extract_features_stages by discriminate. cbv zeta.
  rewrite !rates_other by reflexivity. unfold counted.
  repeat split;
    rewrite ?dict_get_set_ne by reflexivity; apply dict_get_set_eq.
Qed.

(** The three working sets of a non-empty trace. *)
Lemma extracted_sets iter r records package :
  let f := extract_features iter (r :: records) package in
  let st := tallied (r :: records) package in
  dict_get "_thread_names" f = Some (VSet (Loc.thread_names st))
  ∧ dict_get "_file_paths" f = Some (VSet (Loc.file_paths st))
  ∧ dict_get "_ip_addresses" f = Some (VSet (Loc.ip_addresses st)).
Proof.
  cbv zeta. rewrite extract_features_stages by discriminate. cbv zeta.
  rewrite !rates_other by reflexivity. unfold counted.
  rewrite !dict_get_set_ne by reflexivity.
  change classify_path with (run_rules path_is path_rules).
  rewrite !classified_spec by apply path_rules_NoDup.
  change classify_thread with (run_rules thread_is thread_rules).
  unfold classified. cbn [rule_for find path_rules attr_of snd String.eqb Ascii.eqb Bool.eqb].
  rewrite !classified_spec by apply thread_rules_NoDup.
  unfold classified. cbn [rule_for find thread_rules attr_of snd String.eqb Ascii.eqb Bool.eqb].
  unfold published.
  repeat split;
    rewrite ?dict_get_set_ne by reflexivity; apply dict_get_set_eq.
Qed.

Lemma tallied_ip_addresses records package :
  Loc.ip_addresses (tallied records package) = connected_ips records.
Proof. unfold tallied. rewrite tally_ip_addresses. apply (right_id_L ∅ (∪)). Qed.

Lemma tallied_database_files records package :
  Loc.database_files (tallied records package) = opened_databases records.
Proof. unfold tallied. rewrite tally_database_files. apply (right_id_L ∅ (∪)). Qed.

(** X9: the cardinalities count distinct values. [num_unique_threads] is
    the number of distinct non-empty thread names of the trace,
    [num_unique_ips] the number of distinct non-empty addresses of its
    [connect] records, [num_databases] the number of distinct paths ending
    in [.db] of its [open] and [openat] records; the working sets stored
    in the vector are the sets of thread names, paths and addresses. *)
Theorem cardinalities_count_distinct iter records package :
  let f := extract_features iter records package in
  (dict_get "num_unique_threads" f = Some (VInt (len (seen comm records)))
   ∧ dict_get "num_databases" f = Some (VInt (len (opened_databases records)))
   ∧ dict_get "num_unique_ips" f = Some (VInt (len (connected_ips records))))
  ∧ (dict_get "_thread_names" f = Some (VSet (seen comm records))
     ∧ dict_get "_file_paths" f = Some (VSet (seen path records))
     ∧ dict_get "_ip_addresses" f = Some (VSet (connected_ips records))).
Proof.
  cbv zeta. destruct records as [|r records].
  - repeat split; reflexivity.
  - pose proof (extracted_cardinalities iter r records package) as Hc.
    pose proof (extracted_sets iter r records package) as Hs.
    cbv zeta in Hc, Hs.
    rewrite tallied_thread_names, tallied_database_files,
      tallied_ip_addresses in Hc.
    rewrite tallied_thread_names, tallied_file_paths,
      tallied_ip_addresses in Hs.
    split; assumption.
Qed.

(** ** Counters of the extracted vector *)

(** A counter of the loop over the records. *)
Lemma extracted_count iter records package attr cond :
  find (fun rule => rule.1.1 =? attr) tally_rules
  = Some (attr, cond, fun _ => Add 1) →
  existsb (String.eqb attr) late_attrs = false →
  rule_for attr thread_rules = None →
  rule_for attr path_rules = None →
  dict_get attr (AppFeatures package) = Some (VInt 0) →
  dict_get attr (extract_features iter records package)
  = Some (VInt (count_of cond records)).
Proof.
  intros Hfind Hlate Hthread Hpath Hstart.
  rewrite (extracted_tally iter records package attr cond (fun _ => Add 1))
    by assumption.
  rewrite Hstart, <- total_count.
  apply (fold_struck_add cond (fun _ => 1) records 0).
Qed.

Lemma extracted_total iter records package :
  dict_get "total_syscalls" (extract_features iter records package)
  = Some (VInt (Z.of_nat (length records))).
Proof.
  destruct records as [|r records]; [reflexivity|].
  rewrite extract_features_stages by discriminate. cbv zeta.
  rewrite !rates_other by reflexivity. apply staged_total.
Qed.

(** The three cardinalities. *)
Lemma extracted_sizes iter records package :
  let f := extract_features iter records package in
  dict_get "num_unique_threads" f = Some (VInt (len (seen comm records)))
  ∧ dict_get "num_databases" f = Some (VInt (len (opened_databases records)))
  ∧ dict_get "num_unique_ips" f = Some (VInt (len (connected_ips records))).
Proof.
  cbv zeta. destruct records as [|r records].
  - repeat split; reflexivity.
  - pose proof (extracted_cardinalities iter r records package) as Hc.
    cbv zeta in Hc.
    rewrite tallied_thread_names, tallied_database_files,
      tallied_ip_addresses in Hc.
    exact Hc.
Qed.

Lemma count_of_cons cond r records :
  count_of cond (r :: records) = Z.b2z (cond r) + count_of cond records.
Proof.
  unfold count_of. rewrite filter_cons.
  destruct (decide (cond r = true)) as [->|Hn].
  - rewrite length_cons. cbn [Z.b2z]. lia.
  - apply not_true_is_false in Hn. rewrite Hn. cbn [Z.b2z]. lia.
Qed.

Lemma count_of_nonneg cond records : 0 <= count_of cond records.
Proof. unfold count_of. lia. Qed.

Lemma count_of_split c1 c2 c records :
  (∀ r, c1 r = true → c r = true) →
  (∀ r, c2 r = true → c r = true) →
  (∀ r, c1 r = true → c2 r = false) →
  count_of c1 records + count_of c2 records <= count_of c records.
Proof.
  intros H1 H2 H12. induction records as [|r records IH]; [reflexivity|].
  rewrite !count_of_cons.
  specialize (H1 r). specialize (H2 r). specialize (H12 r).
  destruct (c1 r), (c2 r), (c r); cbn [Z.b2z];
    try lia; try (specialize (H1 eq_refl)); try (specialize (H2 eq_refl));
    try (specialize (H12 eq_refl)); congruence.
Qed.

Lemma count_of_mono c1 c records :
  (∀ r, c1 r = true → c r = true) →
  count_of c1 records <= count_of c records.
Proof.
  intros H1. induction records as [|r records IH]; [reflexivity|].
  rewrite !count_of_cons. specialize (H1 r).
  destruct (c1 r), (c r); cbn [Z.b2z]; try lia.
  all: specialize (H1 eq_refl); congruence.
Qed.

Lemma count_of_length cond records :
  count_of cond records <= Z.of_nat (length records).
Proof.
  induction records as [|r records IH]; [reflexivity|].
  rewrite count_of_cons, length_cons. destruct (cond r); cbn [Z.b2z]; lia.
Qed.

(** A record takes one branch of the chain at most. *)
Lemma one_branch r :
  Z.b2z (called ["openat"; "open"] r) + Z.b2z (called ["read"] r)
  + Z.b2z (called ["write"] r) + Z.b2z (called ["close"] r)
  + Z.b2z (called ["clone"] r) + Z.b2z (called ["mmap"] r)
  + Z.b2z (called ["socket"] r) + Z.b2z (called ["connect"] r)
  = Z.b2z (called known_calls r).
Proof.
  unfold called, known_calls. generalize (syscall r). intros s.
  cbn [existsb].
  repeat match goal with
         | |- context [String.eqb s ?name] =>
             destruct (String.eqb_spec s name) as [->|?]; [reflexivity|]
         end.
  reflexivity.
Qed.

Lemma branch_counts records :
  count_of (called ["openat"; "open"]) records
  + count_of (called ["read"]) records
  + count_of (called ["write"]) records
  + count_of (called ["close"]) records
  + count_of (called ["clone"]) records
  + count_of (called ["mmap"]) records
  + count_of (called ["socket"]) records
  + count_of (called ["connect"]) records
  = count_of (called known_calls) records.
Proof.
  induction records as [|r records IH]; [reflexivity|].
  rewrite !count_of_cons, <- IH, <- (one_branch r). lia.
Qed.

Lemma size_list_to_set_le (l : list string) :
  (size (list_to_set l : gset string) <= length l)%nat.
Proof.
  induction l as [|x l IH]; [rewrite list_to_set_nil, size_empty; lia|].
  rewrite list_to_set_cons, length_cons.
  rewrite size_union_alt, size_singleton.
  pose proof (subseteq_size (list_to_set l ∖ {[x]}) (list_to_set l : gset string)) as Hle.
  specialize (Hle ltac:(apply subseteq_difference_l; reflexivity)). lia.
Qed.

Lemma len_seen_le field records :
  len (seen field records) <= Z.of_nat (length records).
Proof.
  unfold len, seen. apply inj_le.
  etransitivity; [apply size_list_to_set_le|].
  etransitivity; [apply length_filter|]. rewrite length_fmap. reflexivity.
Qed.

Lemma len_connected_ips_le records :
  len (connected_ips records) <= count_of (called ["connect"]) records.
Proof.
  unfold len, connected_ips.
  etransitivity; [apply inj_le, size_list_to_set_le|].
  rewrite length_fmap.
  change (count_of (fun r => called ["connect"] r && truthy (ip r)) records
          <= count_of (called ["connect"]) records).
  apply count_of_mono. intros r H. apply andb_true_iff in H as [H _]. exact H.
Qed.

Lemma len_opened_databases_le records :
  len (opened_databases records) <= count_of (called ["openat"; "open"]) records.
Proof.
  unfold len, opened_databases.
  etransitivity; [apply inj_le, size_list_to_set_le|].
  rewrite length_fmap.
  change (count_of (fun r => called ["openat"; "open"] r
                             && PyStr.endswith (path r) ".db") records
          <= count_of (called ["openat"; "open"]) records).
  apply count_of_mono. intros r H. apply andb_true_iff in H as [H _]. exact H.
Qed.

(** The eight counters of the branches, added up. *)
Lemma branch_counters_sum iter records package :
  attr_sum (extract_features iter records package) branch_counters
  = Some (count_of (called known_calls) records).
Proof.
  cbn [attr_sum branch_counters].
  rewrite (extracted_count iter records package "num_openat" (called ["openat"; "open"]))
    by reflexivity.
  rewrite (extracted_count iter records package "num_read" (called ["read"]))
    by reflexivity.
  rewrite (extracted_count iter records package "num_write" (called ["write"]))
    by reflexivity.
  rewrite (extracted_count iter records package "num_close" (called ["close"]))
    by reflexivity.
  rewrite (extracted_count iter records package "num_clone" (called ["clone"]))
    by reflexivity.
  rewrite (extracted_count iter records package "num_mmap" (called ["mmap"]))
    by reflexivity.
  rewrite (extracted_count iter records package "num_socket" (called ["socket"]))
    by reflexivity.
  rewrite (extracted_count iter records package "num_connect" (called ["connect"]))
    by reflexivity.
  f_equal. rewrite <- branch_counts. lia.
Qed.

(** X10: the counters keep their order of size: in every extracted
    vector the eight per-syscall counters together do not exceed
    [total_syscalls], the spawned threads do not exceed [num_clone], the
    TCP and Unix sockets together do not exceed [num_socket], the
    connections to port 443 and the distinct addresses do not exceed
    [num_connect], the databases do not exceed [num_openat] and the
    distinct thread names do not exceed [total_syscalls]; none of these
    counters is negative. *)
Theorem counters_are_bounded iter records package ks k :
  (ks, k) ∈ counter_bounds →
  ∃ a b, attr_sum (extract_features iter records package) ks = Some a
         ∧ dict_get k (extract_features iter records package) = Some (VInt b)
         ∧ 0 <= a <= b.
Proof.
  intros Hin. unfold counter_bounds in Hin.
  destruct (extracted_sizes iter records package) as (Hthreads & Hdbs & Hips).
  repeat (apply elem_of_cons in Hin as [[= -> ->]|Hin]).
  - exists (count_of (called known_calls) records), (Z.of_nat (length records)).
    split; [apply branch_counters_sum|]. split; [apply extracted_total|].
    split; [apply count_of_nonneg|apply count_of_length].
  - eexists _, _. cbn [attr_sum].
    rewrite (extracted_count iter records package "num_threads_spawned"
               (fun r => called ["clone"] r && (clone_type r =? "thread")))
      by reflexivity.
    rewrite (extracted_count iter records package "num_clone" (called ["clone"]))
      by reflexivity.
    split; [reflexivity|]. split; [reflexivity|].
    rewrite Z.add_0_r. split; [apply count_of_nonneg|].
    apply count_of_mono. intros r H. apply andb_true_iff in H as [H _]. exact H.
  - eexists _, _. cbn [attr_sum].
    rewrite (extracted_count iter records package "num_tcp_sockets"
               (fun r => called ["socket"] r
                         && ((family r =? "ipv4") || (family r =? "ipv6"))))
      by reflexivity.
    rewrite (extracted_count iter records package "num_unix_sockets"
               (fun r => called ["socket"] r && (family r =? "unix")))
      by reflexivity.
    rewrite (extracted_count iter records package "num_socket" (called ["socket"]))
      by reflexivity.
    split; [reflexivity|]. split; [reflexivity|].
    rewrite Z.add_0_r. split.
    + pose proof (count_of_nonneg
        (fun r => called ["socket"] r
                  && ((family r =? "ipv4") || (family r =? "ipv6"))) records).
      pose proof (count_of_nonneg
        (fun r => called ["socket"] r && (family r =? "unix")) records).
      lia.
    + apply count_of_split.
      * intros r H. apply andb_true_iff in H as [H _]. exact H.
      * intros r H. apply andb_true_iff in H as [H _]. exact H.
      * intros r H. apply andb_true_iff in H as [_ H].
        apply orb_true_iff in H as [H|H]; apply String.eqb_eq in H;
          rewrite H, andb_comm; reflexivity.
  - eexists _, _. cbn [attr_sum].
    rewrite (extracted_count iter records package "num_port_443_connects"
               (fun r => called ["connect"] r && (port r =? 443)%Z))
      by reflexivity.
    rewrite (extracted_count iter records package "num_connect" (called ["connect"]))
      by reflexivity.
    split; [reflexivity|]. split; [reflexivity|].
    rewrite Z.add_0_r. split; [apply count_of_nonneg|].
    apply count_of_mono. intros r H. apply andb_true_iff in H as [H _]. exact H.
  - eexists _, _. cbn [attr_sum]. rewrite Hips.
    rewrite (extracted_count iter records package "num_connect" (called ["connect"]))
      by reflexivity.
    split; [reflexivity|]. split; [reflexivity|].
    rewrite Z.add_0_r. split; [unfold len; lia|apply len_connected_ips_le].
  - eexists _, _. cbn [attr_sum]. rewrite Hdbs.
    rewrite (extracted_count iter records package "num_openat"
               (called ["openat"; "open"])) by reflexivity.
    split; [reflexivity|]. split; [reflexivity|].
    rewrite Z.add_0_r. split; [unfold len; lia|apply len_opened_databases_le].
  - eexists _, _. cbn [attr_sum]. rewrite Hthreads, extracted_total.
    split; [reflexivity|]. split; [reflexivity|].
    rewrite Z.add_0_r. split; [unfold len; lia|apply len_seen_le].
  - inversion Hin.
Qed.

Lemma counters_are_bounded_witness :
  ∃ a b,
    attr_sum (extract_features elements sample_trace "app")
      ["num_threads_spawned"] = Some a
    ∧ dict_get "num_clone" (extract_features elements sample_trace "app")
      = Some (VInt b)
    ∧ 0 <= a <= b.
Proof.
  apply (counters_are_bounded elements sample_trace "app").
  unfold counter_bounds. apply elem_of_cons. right. constructor.
Defined.

(** X11: [total_syscalls] is the number of records, and the eight
    per-syscall counters add up to the number of records whose syscall is
    one of the nine names the loop tests; a record with any other name is
    counted in [total_syscalls] only. *)
Theorem branch_counters_partition iter records package :
  let f := extract_features iter records package in
  dict_get "total_syscalls" f = Some (VInt (Z.of_nat (length records)))
  ∧ attr_sum f branch_counters = Some (count_of (called known_calls) records).
Proof.
  cbv zeta. split; [apply extracted_total|apply branch_counters_sum].
Qed.

(** ** Counters of the loop over the paths *)

(** A counter of the loop over the paths. *)
Lemma extracted_path_count iter records package category attr :
  enumerates iter →
  rule_for attr path_rules = Some (category, Count, attr) →
  rule_for attr thread_rules = None →
  existsb (String.eqb attr) late_attrs = false →
  existsb (String.eqb attr) tally_attrs = false →
  dict_get attr (AppFeatures package) = Some (VInt 0) →
  dict_get attr (extract_features iter records package)
  = Some (VInt (Z.of_nat
       (num_match path_is category (elements (seen path records))))).
Proof.
  intros Hiter Hown Hother Hlate Htally Hstart.
  destruct records as [|r records].
  - rewrite extract_features_nil, Hstart. reflexivity.
  - rewrite extract_features_stages by discriminate. cbv zeta.
    rewrite rates_untouched, counted_untouched by exact Hlate.
    change classify_path with (run_rules path_is path_rules).
    rewrite classified_spec by apply path_rules_NoDup.
    unfold classified. rewrite Hown.
    rewrite tallied_file_paths.
    rewrite (num_match_perm path_is category _ _ (Hiter (seen path (r :: records)))).
    assert (Hbefore :
      dict_get attr
        (fold_left (run_rules thread_is thread_rules)
           (iter (Loc.thread_names (tallied (r :: records) package)))
           (published (tallied (r :: records) package)))
      = Some (VInt 0)).
    { rewrite classified_spec by apply thread_rules_NoDup.
      unfold classified. rewrite Hother.
      rewrite published_untouched by exact Hlate.
      unfold tallied. rewrite tally_untouched by exact Htally.
      rewrite tallied_start by exact Hlate. exact Hstart. }
    change classify_thread with (run_rules thread_is thread_rules).
    unfold get_int. rewrite Hbefore.
    destruct (num_match path_is category (elements (seen path (r :: records))));
      reflexivity.
Qed.

(** X12: [num_shared_prefs] and [num_native_libs] count distinct paths,
    not records: each is the number of distinct non-empty paths of the
    trace that its pattern finds, however often a path occurs and whatever
    the syscall of the record that carries it. *)
Theorem path_counters_count_distinct iter records package :
  enumerates iter →
  let f := extract_features iter records package in
  dict_get "num_shared_prefs" f
  = Some (VInt (Z.of_nat
       (num_match path_is "shared_prefs" (elements (seen path records)))))
  ∧ dict_get "num_native_libs" f
    = Some (VInt (Z.of_nat
         (num_match path_is "native_lib" (elements (seen path records))))).
Proof.
  intros Hiter. cbv zeta.
  split; apply extracted_path_count; first [exact Hiter|reflexivity].
Qed.

Lemma path_counters_count_distinct_witness :
  dict_get "num_shared_prefs" (extract_features elements sample_trace "app")
  = Some (VInt (Z.of_nat
       (num_match path_is "shared_prefs" (elements (seen path sample_trace)))))
  ∧ dict_get "num_native_libs" (extract_features elements sample_trace "app")
    = Some (VInt (Z.of_nat
         (num_match path_is "native_lib" (elements (seen path sample_trace))))).
Proof.
  apply (path_counters_count_distinct elements sample_trace "app").
  intros s. reflexivity.
Defined.

(** ** Patterns *)

Lemma re_match_Fail s : re_match Fail s = false.
Proof. induction s as [|c s IH]; [reflexivity|exact IH]. Qed.

Lemma re_match_Eps s : re_match Eps s = true.
Proof. destruct s; reflexivity. Qed.

Lemma re_match_any s : re_match any s = true.
Proof. destruct s; reflexivity. Qed.

Lemma re_match_Alt r1 r2 s :
  re_match (Alt r1 r2) s = re_match r1 s || re_match r2 s.
Proof.
  revert r1 r2. induction s as [|c s IH]; intros r1 r2;
    cbn [re_match nullable deriv].
  - btauto.
  - rewrite IH. btauto.
Qed.

(** A pattern without a match in front of [s] has none when something is
    appended to it. *)
Lemma re_match_dead x r s : re_match x s = false → re_match (Cat x r) s = false.
Proof.
  revert x. induction s as [|c s IH]; intros x H; cbn [re_match nullable deriv] in *.
  - apply orb_false_elim in H as [-> _]. reflexivity.
  - apply orb_false_elim in H as [Hn Hd]. rewrite Hn, re_match_Alt, (IH _ Hd).
    apply re_match_Fail.
Qed.

Lemma re_match_Cat_Alt x y r s :
  re_match (Cat (Alt x y) r) s = re_match (Cat x r) s || re_match (Cat y r) s.
Proof.
  revert x y. induction s as [|c s IH]; intros x y;
    cbn [re_match nullable deriv].
  - btauto.
  - rewrite !re_match_Alt, IH.
    destruct (nullable (String c s) x), (nullable (String c s) y);
      cbn [orb andb]; rewrite ?re_match_Fail; btauto.
Qed.

Lemma re_match_Cat_Eps r s : re_match (Cat Eps r) s = re_match r s.
Proof.
  destruct s as [|c s]; cbn [re_match nullable deriv andb]; [reflexivity|].
  rewrite re_match_Alt, (re_match_dead Fail) by apply re_match_Fail.
  reflexivity.
Qed.

Lemma re_match_Cat_accepts b r s :
  re_match (Cat (accepts b) r) s = b && re_match r s.
Proof.
  destruct b; [apply re_match_Cat_Eps|].
  apply re_match_dead, re_match_Fail.
Qed.

Lemma re_match_Cat_Lit c r s :
  re_match (Cat (Lit c) r) s
  = match s with
    | EmptyString => false
    | String c0 s' => Ascii.eqb c0 c && re_match r s'
    end.
Proof.
  destruct s as [|c0 s]; cbn [re_match nullable deriv andb orb]; [reflexivity|].
  rewrite re_match_Alt, re_match_Cat_accepts, re_match_Fail. apply orb_false_r.
Qed.

Lemma re_match_Cat_Class cs r s :
  re_match (Cat (Class cs) r) s
  = match s with
    | EmptyString => false
    | String c0 s' => existsb (Ascii.eqb c0) cs && re_match r s'
    end.
Proof.
  destruct s as [|c0 s]; cbn [re_match nullable deriv andb orb]; [reflexivity|].
  rewrite re_match_Alt, re_match_Cat_accepts, re_match_Fail. apply orb_false_r.
Qed.

Lemma re_match_Cat_assoc a b r s :
  re_match (Cat (Cat a b) r) s = re_match (Cat a (Cat b r)) s.
Proof.
  revert a. induction s as [|c s IH]; intros a; cbn [re_match nullable deriv].
  - btauto.
  - rewrite !re_match_Alt, re_match_Cat_Alt, IH.
    destruct (nullable (String c s) a), (nullable (String c s) b);
      cbn [orb andb];
      rewrite ?re_match_Alt, ?re_match_Fail, ?(re_match_dead Fail)
        by apply re_match_Fail;
      btauto.
Qed.

(** A run of literal characters in front of a pattern. *)
Lemma re_match_lit_Cat p r s :
  re_match (Cat (lit p) r) s
  = match after p s with
    | Some rest => re_match r rest
    | None => false
    end.
Proof.
  revert s. induction p as [|c p IH]; intros s.
  - apply re_match_Cat_Eps.
  - destruct p as [|c' p'].
    + cbn [lit]. rewrite re_match_Cat_Lit. destruct s as [|c0 s]; [reflexivity|].
      cbn [after]. destruct (Ascii.eqb c0 c); reflexivity.
    + change (lit (String c (String c' p')))
        with (Cat (Lit c) (lit (String c' p'))).
      rewrite re_match_Cat_assoc, re_match_Cat_Lit.
      destruct s as [|c0 s]; [reflexivity|].
      cbn [after]. destruct (Ascii.eqb c0 c); [apply IH|reflexivity].
Qed.

Lemma prefix_cons c p s :
  String.prefix (String c p) s
  = match s with
    | EmptyString => false
    | String c0 s' => Ascii.eqb c0 c && String.prefix p s'
    end.
Proof.
  destruct s as [|c0 s]; [reflexivity|]. cbn [String.prefix].
  destruct (ascii_dec c c0) as [->|Hn].
  - rewrite Ascii.eqb_refl. reflexivity.
  - destruct (Ascii.eqb_spec c0 c); [congruence|reflexivity].
Qed.

Lemma prefix_after p q s :
  String.prefix (p +:+ q) s
  = match after p s with
    | Some rest => String.prefix q rest
    | None => false
    end.
Proof.
  revert s. induction p as [|c p IH]; intros s; [reflexivity|].
  change (String c p +:+ q) with (String c (p +:+ q)).
  rewrite prefix_cons. destruct s as [|c0 s]; [reflexivity|].
  cbn [after]. destruct (Ascii.eqb c0 c); [apply IH|reflexivity].
Qed.

Lemma append_empty p : p +:+ "" = p.
Proof.
  induction p as [|c p IH]; [reflexivity|].
  change (String c p +:+ "") with (String c (p +:+ "")). rewrite IH. reflexivity.
Qed.

(** [P.*] under [re.match] is a prefix test. *)
Lemma prefix_pattern p s : re_match (Cat (lit p) any) s = PyStr.startswith s p.
Proof.
  unfold PyStr.startswith. rewrite re_match_lit_Cat.
  replace (String.prefix p s) with (String.prefix (p +:+ "") s)
    by (rewrite append_empty; reflexivity).
  rewrite prefix_after.
  destruct (after p s) as [rest|]; [|reflexivity].
  rewrite re_match_any. destruct rest; reflexivity.
Qed.

Lemma class_pattern a b p s :
  re_match (Cat (Class [a; b]) (Cat (lit p) any)) s
  = PyStr.startswith s (String a p) || PyStr.startswith s (String b p).
Proof.
  rewrite re_match_Cat_Class. unfold PyStr.startswith. rewrite !prefix_cons.
  destruct s as [|c0 s]; [reflexivity|].
  rewrite prefix_pattern. unfold PyStr.startswith. cbn [existsb]. btauto.
Qed.

Lemma alt_pattern p q s :
  re_match (Cat (Alt (lit p) (lit q)) any) s
  = PyStr.startswith s p || PyStr.startswith s q.
Proof. rewrite re_match_Cat_Alt, !prefix_pattern. reflexivity. Qed.

Lemma rxjava_pattern s :
  thread_is "rxjava" s
  = existsb (PyStr.startswith s)
      ["RxCached"; "RxComputation"; "RxIO"; "RxSingle"; "RxNewThread";
       "RxScheduler"].
Proof.
  unfold thread_is, THREAD_PATTERNS.
  cbn [subscript String.eqb Ascii.eqb Bool.eqb existsb].
  rewrite re_match_lit_Cat. unfold PyStr.startswith.
  change "RxCached" with ("Rx" +:+ "Cached").
  change "RxComputation" with ("Rx" +:+ "Computation").
  change "RxIO" with ("Rx" +:+ "IO").
  change "RxSingle" with ("Rx" +:+ "Single").
  change "RxNewThread" with ("Rx" +:+ "NewThread").
  change "RxScheduler" with ("Rx" +:+ "Scheduler").
  rewrite !prefix_after.
  destruct (after "Rx" s) as [rest|]; [|reflexivity].
  rewrite !re_match_Cat_Alt, !prefix_pattern. unfold PyStr.startswith.
  rewrite orb_false_r. reflexivity.
Qed.

(** X13: the thread patterns are prefix tests. Under [re.match] the
    trailing [.*] changes nothing: a thread name belongs to a category
    exactly when it starts with one of the category's prefixes; the
    test is case sensitive except on the first letter of [glide], [coil]
    and [fresco]. *)
Theorem thread_patterns_are_prefixes category prefixes thread_name :
  (category, prefixes) ∈ thread_prefixes →
  thread_is category thread_name
  = existsb (PyStr.startswith thread_name) prefixes.
Proof.
  intros Hin. unfold thread_prefixes in Hin.
  repeat (apply elem_of_cons in Hin as [[= -> ->]|Hin]);
    try apply rxjava_pattern;
    try (unfold thread_is, THREAD_PATTERNS;
         cbn [subscript String.eqb Ascii.eqb Bool.eqb existsb];
         rewrite ?orb_false_r;
         first [apply prefix_pattern|apply class_pattern|apply alt_pattern]).
  inversion Hin.
Qed.

Lemma thread_patterns_are_prefixes_witness :
  thread_is "glide" "glide-disk-cache-1"
  = existsb (PyStr.startswith "glide-disk-cache-1") ["Glide"; "glide"].
Proof.
  apply (thread_patterns_are_prefixes "glide").
  unfold thread_prefixes. do 8 (apply elem_of_cons; right). constructor.
Defined.

(** ** Flags of the two classification loops *)

Lemma num_match_existsb is_a category xs :
  match num_match is_a category xs with O => false | S _ => true end
  = existsb (is_a category) xs.
Proof.
  induction xs as [|x xs IH]; [reflexivity|].
  rewrite num_match_cons. cbn [existsb]. destruct (is_a category x); [reflexivity|].
  exact IH.
Qed.

(** A flag of the loop over the thread names, on a non-empty trace. *)
Lemma extracted_thread_flag iter r records package category attr :
  (category, SetFlag, attr) ∈ thread_rules →
  dict_get attr (extract_features iter (r :: records) package)
  = Some (VBool (existsb (thread_is category)
                   (iter (seen comm (r :: records))))).
Proof.
  intros Hin.
  pose proof (flags_start_false package) as Hstart.
  rewrite Forall_app, !Forall_forall in Hstart. destruct Hstart as [Hst _].
  specialize (Hst _ Hin eq_refl).
  pose proof thread_rules_quiet as Hq. rewrite Forall_forall in Hq.
  destruct (Hq _ Hin) as (Hown & Hother & Hlate & Htally).
  unfold attr_of in *. cbn [snd] in *.
  rewrite extract_features_stages by discriminate. cbv zeta.
  rewrite rates_untouched, counted_untouched by exact Hlate.
  change classify_path with (run_rules path_is path_rules).
  rewrite classified_spec by apply path_rules_NoDup.
  unfold classified at 1. rewrite Hother.
  change classify_thread with (run_rules thread_is thread_rules).
  rewrite classified_spec by apply thread_rules_NoDup.
  unfold classified. rewrite Hown.
  rewrite published_untouched by exact Hlate.
  unfold tallied at 2. rewrite tally_untouched by exact Htally.
  rewrite tallied_start by exact Hlate. rewrite Hst.
  rewrite tallied_thread_names, <- num_match_existsb.
  destruct (num_match thread_is category (iter (seen comm (r :: records))));
    reflexivity.
Qed.

(** A flag of the loop over the paths, on a non-empty trace. *)
Lemma extracted_path_flag iter r records package category attr :
  (category, SetFlag, attr) ∈ path_rules →
  dict_get attr (extract_features iter (r :: records) package)
  = Some (VBool (existsb (path_is category)
                   (iter (seen path (r :: records))))).
Proof.
  intros Hin.
  pose proof (flags_start_false package) as Hstart.
  rewrite Forall_app, !Forall_forall in Hstart. destruct Hstart as [_ Hst].
  specialize (Hst _ Hin eq_refl).
  pose proof path_rules_quiet as Hq. rewrite Forall_forall in Hq.
  destruct (Hq _ Hin) as (Hown & Hother & Hlate & Htally).
  unfold attr_of in *. cbn [snd] in *.
  rewrite extract_features_stages by discriminate. cbv zeta.
  rewrite rates_untouched, counted_untouched by exact Hlate.
  change classify_path with (run_rules path_is path_rules).
  rewrite classified_spec by apply path_rules_NoDup.
  unfold classified. rewrite Hown.
  change classify_thread with (run_rules thread_is thread_rules).
  rewrite classified_spec by apply thread_rules_NoDup.
  unfold classified. rewrite Hother.
  rewrite published_untouched by exact Hlate.
  unfold tallied at 2. rewrite tally_untouched by exact Htally.
  rewrite tallied_start by exact Hlate. rewrite Hst.
  rewrite tallied_file_paths, <- num_match_existsb.
  destruct (num_match path_is category (iter (seen path (r :: records))));
    reflexivity.
Qed.

Lemma existsb_impl {A} (p q : A → bool) xs :
  (∀ x, p x = true → q x = true) → existsb p xs = true → existsb q xs = true.
Proof.
  intros Hpq H. apply existsb_exists in H as (x & Hx & Hp).
  apply existsb_exists. exists x. split; [exact Hx|apply Hpq, Hp].
Qed.

Lemma thread_flag_implies iter records package ca a cb b :
  (ca, SetFlag, a) ∈ thread_rules →
  (cb, SetFlag, b) ∈ thread_rules →
  (∀ t, thread_is ca t = true → thread_is cb t = true) →
  dict_get a (extract_features iter records package) = Some (VBool true) →
  dict_get b (extract_features iter records package) = Some (VBool true).
Proof.
  intros Ha Hb Himp. destruct records as [|r records].
  - pose proof (flags_start_false package) as Hstart.
    rewrite Forall_app, !Forall_forall in Hstart. destruct Hstart as [Hst _].
    specialize (Hst _ Ha eq_refl). unfold attr_of in Hst. cbn [snd] in Hst.
    rewrite extract_features_nil, Hst. discriminate.
  - rewrite (extracted_thread_flag iter r records package ca a Ha),
      (extracted_thread_flag iter r records package cb b Hb).
    intros [= H]. do 2 f_equal. revert H. apply existsb_impl, Himp.
Qed.

Lemma path_flag_implies iter records package ca a cb b :
  (ca, SetFlag, a) ∈ path_rules →
  (cb, SetFlag, b) ∈ path_rules →
  (∀ p, path_is ca p = true → path_is cb p = true) →
  dict_get a (extract_features iter records package) = Some (VBool true) →
  dict_get b (extract_features iter records package) = Some (VBool true).
Proof.
  intros Ha Hb Himp. destruct records as [|r records].
  - pose proof (flags_start_false package) as Hstart.
    rewrite Forall_app, !Forall_forall in Hstart. destruct Hstart as [_ Hst].
    specialize (Hst _ Ha eq_refl). unfold attr_of in Hst. cbn [snd] in Hst.
    rewrite extract_features_nil, Hst. discriminate.
  - rewrite (extracted_path_flag iter r records package ca a Ha),
      (extracted_path_flag iter r records package cb b Hb).
    intros [= H]. do 2 f_equal. revert H. apply existsb_impl, Himp.
Qed.

Lemma re_search_mono r1 r2 s :
  (∀ t, re_match r1 t = true → re_match r2 t = true) →
  re_search r1 s = true → re_search r2 s = true.
Proof.
  intros Himp. induction s as [|c s IH]; cbn [re_search]; intros H;
    apply orb_true_iff in H as [H|H]; apply orb_true_iff.
  - left. apply Himp, H.
  - discriminate.
  - left. apply Himp, H.
  - right. apply IH, H.
Qed.

Lemma re_match_accepts b s : re_match (accepts b) s = b.
Proof. destruct b; [apply re_match_Eps|apply re_match_Fail]. Qed.

(** A run of literal characters is a prefix test. *)
Lemma re_match_lit p s : re_match (lit p) s = String.prefix p s.
Proof.
  revert s. induction p as [|c p IH]; intros s.
  - rewrite re_match_Eps. destruct s; reflexivity.
  - rewrite prefix_cons. destruct p as [|c' p'].
    + cbn [lit]. destruct s as [|c0 s]; [reflexivity|].
      cbn [re_match nullable deriv orb]. rewrite re_match_accepts.
      destruct s; cbn [String.prefix]; rewrite andb_true_r; reflexivity.
    + change (lit (String c (String c' p')))
        with (Cat (Lit c) (lit (String c' p'))).
      rewrite re_match_Cat_Lit. destruct s as [|c0 s]; [reflexivity|].
      rewrite IH. reflexivity.
Qed.

Lemma prefix_weaken p q s :
  String.prefix (p +:+ q) s = true → String.prefix p s = true.
Proof.
  rewrite prefix_after.
  replace (String.prefix p s) with (String.prefix (p +:+ "") s)
    by (rewrite append_empty; reflexivity).
  rewrite prefix_after. destruct (after p s) as [rest|]; [|discriminate].
  intros _. destruct rest; reflexivity.
Qed.

(** What starts with a run of literal characters and goes on matches the
    run. *)
Lemma lit_Cat_weaken p r s :
  re_match (Cat (lit p) r) s = true → re_match (lit p) s = true.
Proof.
  rewrite re_match_lit_Cat, re_match_lit.
  replace (String.prefix p s) with (String.prefix (p +:+ "") s)
    by (rewrite append_empty; reflexivity).
  rewrite prefix_after. destruct (after p s) as [rest|]; [|discriminate].
  intros _. destruct rest; reflexivity.
Qed.

Ltac thread_table :=
  unfold thread_is, THREAD_PATTERNS;
  cbn [subscript String.eqb Ascii.eqb Bool.eqb].

Ltac path_table :=
  unfold path_is, PATH_PATTERNS;
  cbn [subscript String.eqb Ascii.eqb Bool.eqb].

Ltac in_rules :=
  unfold thread_rules, path_rules;
  repeat first [apply list_elem_of_here | apply list_elem_of_further].

(** X14: flags that come together. The patterns of some categories
    match only what the pattern of another category matches too, so a
    feature vector with [has_okhttp_task_thread] has [has_okhttp_thread],
    one with [has_rxjava_cached_thread] has [has_rxjava_thread], one with
    [has_glide_source_thread] or [has_glide_disk_thread] has
    [has_glide_thread], one with [has_glide_journal] has [has_glide_cache],
    and one with [has_coil_cache_v3] or [has_coil_journal] has
    [has_coil_cache]. *)
Theorem implied_flags_hold iter records package a b :
  (a, b) ∈ implied_flags →
  dict_get a (extract_features iter records package) = Some (VBool true) →
  dict_get b (extract_features iter records package) = Some (VBool true).
Proof.
  intros Hin. unfold implied_flags in Hin.
  repeat (apply elem_of_cons in Hin as [[= -> ->]|Hin]).
  - apply (thread_flag_implies iter records package "okhttp_task" _ "okhttp");
      [in_rules..|].
    intros t. thread_table. rewrite !prefix_pattern.
    apply (prefix_weaken "OkHttp" " TaskRunn").
  - apply (thread_flag_implies iter records package "rxjava_cached" _ "rxjava");
      [in_rules..|].
    intros t. rewrite rxjava_pattern. thread_table. rewrite prefix_pattern.
    intros H. cbn [existsb]. apply orb_true_iff. left.
    apply (prefix_weaken "RxCached" "ThreadS"), H.
  - apply (thread_flag_implies iter records package "glide_source" _ "glide");
      [in_rules..|].
    intros t. thread_table. rewrite prefix_pattern, class_pattern.
    intros H. apply orb_true_iff. right.
    apply (prefix_weaken "glide" "-source-th"), H.
  - apply (thread_flag_implies iter records package "glide_disk" _ "glide");
      [in_rules..|].
    intros t. thread_table. rewrite prefix_pattern, class_pattern.
    intros H. apply orb_true_iff. right.
    apply (prefix_weaken "glide" "-disk-cach"), H.
  - apply (path_flag_implies iter records package "glide_journal" _ "glide_cache");
      [in_rules..|].
    intros p. path_table. apply re_search_mono. intros t H.
    rewrite re_match_Alt. apply orb_true_iff. right.
    apply (lit_Cat_weaken _ _ _ H).
  - apply (path_flag_implies iter records package "coil_cache_v3" _ "coil_cache");
      [in_rules..|].
    intros p. path_table. apply re_search_mono. intros t H.
    rewrite re_match_Alt. apply orb_true_iff. left.
    apply (lit_Cat_weaken _ _ _ H).
  - apply (path_flag_implies iter records package "coil_journal" _ "coil_cache");
      [in_rules..|].
    intros p. path_table. apply re_search_mono. intros t H.
    rewrite re_match_Alt. apply orb_true_iff. left.
    apply (lit_Cat_weaken _ _ _ H).
  - inversion Hin.
Qed.

Lemma implied_flags_hold_witness :
  dict_get "has_okhttp_thread"
    (extract_features elements task_runner_trace "app")
  = Some (VBool true).
Proof.
  apply (implied_flags_hold elements task_runner_trace "app"
           "has_okhttp_task_thread").
  - unfold implied_flags. constructor.
  - vm_compute. reflexivity.
Defined.

(** ** The exporter, value by value *)

Lemma export_item_get result key value k :
  dict_get k (export_item result (key, value))
  = if PyStr.startswith key "_" then dict_get k result
    else if key =? k then Some (exported value) else dict_get k result.
Proof.
  unfold export_item. destruct (PyStr.startswith key "_"); [reflexivity|].
  destruct value; apply dict_get_set.
Qed.

Lemma dict_get_fresh k (d : pydict) : k ∉ keys d → dict_get k d = None.
Proof.
  induction d as [|[k0 v0] d IH]; [reflexivity|].
  cbn [keys map fst dict_get]. intros Hk. apply not_elem_of_cons in Hk as [Hne Hk].
  destruct (String.eqb_spec k0 k); [congruence|]. apply IH, Hk.
Qed.

Lemma fold_export_get features result k :
  NoDup (keys features) →
  dict_get k (fold_left export_item features result)
  = match dict_get k features with
    | Some v => if PyStr.startswith k "_" then dict_get k result
                else Some (exported v)
    | None => dict_get k result
    end.
Proof.
  revert result. induction features as [|[k0 v0] features IH]; intros result Hnd;
    [reflexivity|].
  cbn [keys map fst] in Hnd. apply NoDup_cons in Hnd as [Hfresh Hnd].
  cbn [fold_left dict_get]. rewrite (IH _ Hnd), export_item_get.
  destruct (String.eqb_spec k0 k) as [->|Hne].
  - rewrite (dict_get_fresh k features Hfresh).
    destruct (PyStr.startswith k "_"); reflexivity.
  - destruct (dict_get k features); destruct (PyStr.startswith k0 "_");
      reflexivity.
Qed.

(** X15: the exporter, value by value. The exported dictionary has no
    entry for an attribute whose name starts with an underscore and none
    for a name that is no attribute; a flag is exported as the integer 1
    or 0; every other attribute is exported with the value it holds. *)
Theorem exported_values features k :
  NoDup (keys features) →
  dict_get k (features_to_dict features)
  = if PyStr.startswith k "_" then None
    else exported <$> dict_get k features.
Proof.
  intros Hnd. unfold features_to_dict. rewrite (fold_export_get _ _ _ Hnd).
  destruct (dict_get k features), (PyStr.startswith k "_"); reflexivity.
Qed.

Lemma exported_values_witness :
  dict_get "has_okhttp_thread"
    (features_to_dict (extract_features elements task_runner_trace "app"))
  = if PyStr.startswith "has_okhttp_thread" "_" then None
    else exported
           <$> dict_get "has_okhttp_thread"
                 (extract_features elements task_runner_trace "app").
Proof.
  apply (exported_values (extract_features elements task_runner_trace "app")).
  apply (bool_decide_unpack
           (NoDup (keys (extract_features elements task_runner_trace "app")))).
  vm_compute. exact I.
Defined.

(** ** The batch driver as a function of the directory *)

Lemma process_trace_file_cases iter fs trace_path :
  process_trace_file iter fs trace_path ""
  = if clean fs trace_path
    then Ok (extract_features iter (records_of fs trace_path)
               (package_of trace_path))
    else Raise (error_of fs trace_path).
Proof.
  unfold process_trace_file, clean, records_of, error_of, package_of.
  cbn [truthy PyStr.is_empty negb].
  destruct (open_ fs trace_path) as [lines|]; [|reflexivity].
  cbn [parse_syscall_log]. rewrite collect_all.
  destruct (existsb bad_line lines); reflexivity.
Qed.

Lemma gather_cases iter fs trace_files all_features :
  foldM (fun all_features trace_path =>
           features ← process_trace_file iter fs trace_path "";
           Ok (all_features ++ [features_to_dict features])%list)
        all_features trace_files
  = match find (fun p => negb (clean fs p)) trace_files with
    | Some p => Raise (error_of fs p)
    | None =>
        Ok (all_features
            ++ ((fun p => features_to_dict
                            (extract_features iter (records_of fs p) (package_of p)))
                  <$> trace_files))%list
    end.
Proof.
  revert all_features.
  induction trace_files as [|p trace_files IH]; intros all_features.
  - cbn [foldM find fmap list_fmap]. rewrite app_nil_r. reflexivity.
  - cbn [foldM find]. rewrite process_trace_file_cases.
    destruct (clean fs p); cbn [negb]; [|reflexivity].
    rewrite !bind_Ok, IH.
    destruct (find _ trace_files); [reflexivity|].
    rewrite fmap_cons, <- app_assoc. reflexivity.
Qed.

Lemma columns_public :
  Forall (fun k => PyStr.startswith k "_" = false) get_feature_columns.
Proof.
  apply (bool_decide_unpack
           (Forall (fun k => PyStr.startswith k "_" = false) get_feature_columns)).
  vm_compute. exact I.
Qed.

(** The row that the writer makes of an exported feature vector. *)
Lemma csv_row_exported iter records package :
  csv_row get_feature_columns
    (features_to_dict (extract_features iter records package))
  = Ok ((fun k => exported
                    (default (VStr "")
                       (dict_get k (extract_features iter records package))))
          <$> get_feature_columns).
Proof.
  unfold csv_row.
  assert (Hkeys : keys (features_to_dict (extract_features iter records package))
                  = get_feature_columns).
  { unfold features_to_dict. rewrite features_to_dict_keys.
    rewrite (extract_features_shaped iter records package). reflexivity. }
  rewrite Hkeys.
  assert (Hall : forallb (fun k => existsb (String.eqb k) get_feature_columns)
                   get_feature_columns = true) by (vm_compute; reflexivity).
  rewrite Hall. f_equal.
  apply list_eq_Forall2, Forall2_fmap, Forall_Forall2_diag.
  eapply Forall_impl; [apply columns_public|]. intros k Hk. cbv beta in *.
  unfold features_to_dict. rewrite fold_export_get, Hk.
  - destruct (dict_get k (extract_features iter records package)); reflexivity.
  - rewrite (extract_features_shaped iter records package). apply fields_NoDup.
Qed.

Lemma write_rows iter (fs : filesystem) (trace_files : list string) rows :
  foldM (fun rows row => r ← csv_row get_feature_columns row; Ok (rows ++ [r])%list)
        rows
        ((fun p => features_to_dict
                     (extract_features iter (records_of fs p) (package_of p)))
           <$> trace_files)
  = Ok (rows ++ (row_of iter fs <$> trace_files))%list.
Proof.
  revert rows. induction trace_files as [|p trace_files IH]; intros rows.
  - cbn [foldM fmap list_fmap]. rewrite app_nil_r. reflexivity.
  - rewrite !fmap_cons. cbn [foldM]. rewrite csv_row_exported, !bind_Ok, IH.
    rewrite <- app_assoc. reflexivity.
Qed.

Lemma sorted_nil l : sorted l = [] ↔ l = [].
Proof.
  split; [|intros ->; reflexivity].
  destruct l as [|x l]; [reflexivity|]. intros H.
  assert (Hx : x ∈ sorted (x :: l)) by (apply sorted_elem; constructor).
  rewrite H in Hx. inversion Hx.
Qed.

(** X16: the batch driver as a function of the directory. Without a
    [*.log] file nothing is written and nothing is raised. Otherwise the
    trace files are taken in sorted order; the run stops at the first
    file that cannot be read ([OSError]) or holds a bad line
    ([ValueError]) and writes nothing; when there is none, it writes the
    header of the columns and one row per trace file, in that order, each
    row holding for every column the exported value of the feature vector
    of its file, whose package name is derived from the file name. *)
Theorem process_all_traces_spec iter fs trace_dir :
  process_all_traces iter fs trace_dir
  = match sorted (glob_log fs trace_dir) with
    | [] => Ok NoTraceFiles
    | trace_files =>
        match find (fun p => negb (clean fs p)) trace_files with
        | Some p => Raise (error_of fs p)
        | None =>
            Ok (Written get_feature_columns (row_of iter fs <$> trace_files))
        end
    end.
Proof.
  unfold process_all_traces.
  destruct (glob_log fs trace_dir) as [|p0 l] eqn:E; [reflexivity|].
  rewrite <- E.
  destruct (sorted (glob_log fs trace_dir)) as [|p trace_files] eqn:Es.
  - apply (proj1 (sorted_nil _)) in Es. congruence.
  - rewrite gather_cases.
    destruct (find _ (p :: trace_files)); [reflexivity|].
    rewrite bind_Ok. cbn [app]. rewrite write_rows, bind_Ok. reflexivity.
Qed.

(** ** What the extraction depends on *)

(** What follows the loop over the records reads five of its locals. *)
Lemma extract_features_parts iter r records r' records' package package' :
  length (r :: records) = length (r' :: records') →
  parts (tallied (r :: records) package) = parts (tallied (r' :: records') package') →
  extract_features iter (r :: records) package
  = extract_features iter (r' :: records') package'.
Proof.
  intros Hlen Hparts. rewrite !extract_features_stages by discriminate. cbv zeta.
  unfold counted, published. unfold parts in Hparts.
  injection Hparts as -> -> -> -> ->. reflexivity.
Qed.

Lemma tally_step_parts st st' r r' :
  parts st = parts st' → relevant r = relevant r' →
  parts (tally_step st r) = parts (tally_step st' r').
Proof.
  unfold parts, relevant. intros [= Hf Ht Hp Hi Hd] [= Hs Hc Hpa Ha Hct Hfa Hip Hpo].
  rewrite !tally_step_features, !tally_step_thread_names, !tally_step_file_paths.
  rewrite !tally_step_ip_addresses, !tally_step_database_files.
  assert (Hdis : ∀ f i d, dispatch r f i d = dispatch r' f i d).
  { intros f i d. unfold dispatch.
    rewrite Hs, Hpa, Ha, Hct, Hfa, Hip, Hpo. reflexivity. }
  unfold called. rewrite Hdis, Hf, Ht, Hp, Hi, Hd, Hc, Hpa, Hip, Hs.
  reflexivity.
Qed.

Lemma tally_parts records records' st st' :
  parts st = parts st' → relevant <$> records = relevant <$> records' →
  parts (fold_left tally_step records st)
  = parts (fold_left tally_step records' st').
Proof.
  revert records' st st'.
  induction records as [|r records IH]; intros [|r' records'] st st' Hst Hrel;
    try discriminate Hrel; [exact Hst|].
  rewrite !fmap_cons in Hrel.
  assert (Hr : relevant r = relevant r') by congruence.
  assert (Htl : relevant <$> records = relevant <$> records') by congruence.
  cbn [fold_left]. apply IH; [|exact Htl]. apply tally_step_parts; assumption.
Qed.

(** X17: the extraction reads eight fields of a record: the syscall
    name, the thread name, the path, the byte count [actual], the clone
    type, the socket family, the address and the port. Two traces whose
    records agree on these fields give the same feature vector, whatever
    their timestamps, process, thread and user identifiers, file
    descriptors, flags, requested byte counts, child process identifiers,
    protections and raw lines. *)
Theorem extraction_reads_eight_fields iter records records' package :
  relevant <$> records = relevant <$> records' →
  extract_features iter records package
  = extract_features iter records' package.
Proof.
  intros Hrel.
  assert (Hlen : length records = length records').
  { rewrite <- (length_fmap relevant records), Hrel. apply length_fmap. }
  destruct records as [|r records], records' as [|r' records'];
    try discriminate Hlen; [reflexivity|].
  apply extract_features_parts; [exact Hlen|].
  unfold tallied. rewrite Hlen. apply tally_parts; [reflexivity|exact Hrel].
Qed.

Lemma extraction_reads_eight_fields_witness :
  extract_features elements sample_trace "app"
  = extract_features elements restamped_trace "app".
Proof.
  apply (extraction_reads_eight_fields elements sample_trace restamped_trace).
  reflexivity.
Defined.

Lemma fold_left_perm {A B} (f : A → B → A) l l' :
  (∀ a x y, f (f a x) y = f (f a y) x) →
  l ≡ₚ l' → ∀ a, fold_left f l a = fold_left f l' a.
Proof.
  intros Hf Hp. induction Hp as [|x l l' _ IH|x y l|l l' l'' _ IH1 _ IH2]; intros a.
  - reflexivity.
  - cbn [fold_left]. apply IH.
  - cbn [fold_left]. rewrite Hf. reflexivity.
  - rewrite IH1. apply IH2.
Qed.

(** Every rule of the loop over the records adds amounts or sets a flag,
    so two records can be taken in either order. *)
Lemma tally_rules_commute :
  Forall (fun rule : string * (SyscallRecord → bool) * (SyscallRecord → effect) =>
            ∀ v r1 r2,
              struck rule.1.2 rule.2 (struck rule.1.2 rule.2 v r1) r2
              = struck rule.1.2 rule.2 (struck rule.1.2 rule.2 v r2) r1)
    tally_rules.
Proof.
  unfold tally_rules.
  repeat (apply Forall_cons_2;
          [ intros v r1 r2; unfold struck; cbn [fst snd];
            repeat match goal with
                   | |- context [if ?c then _ else _] => destruct c
                   end;
            cbn [as_int]; try reflexivity; do 2 f_equal; lia |]).
  apply Forall_nil_2.
Qed.

Lemma tallied_features_perm records records' package :
  records ≡ₚ records' →
  Loc.features (tallied records package) = Loc.features (tallied records' package).
Proof.
  intros Hp. apply dict_ext.
  - transitivity fields; [|symmetry]; apply tallied_shaped.
  - rewrite (tallied_shaped records package). apply fields_NoDup.
  - intros k. unfold tallied. rewrite (Permutation_length Hp), !tally_get.
    destruct (find (fun rule => rule.1.1 =? k) tally_rules)
      as [[[attr cond] eff]|] eqn:E; [|reflexivity].
    apply find_some in E as [Hin _].
    pose proof tally_rules_commute as Hc. rewrite Forall_forall in Hc.
    apply list_elem_of_In in Hin.
    apply (fold_left_perm _ _ _ (Hc _ Hin) Hp).
Qed.

Lemma list_to_set_perm_strings (l l' : list string) :
  l ≡ₚ l' → (list_to_set l : gset string) = list_to_set l'.
Proof.
  intros Hp. apply set_eq. intros x. rewrite !elem_of_list_to_set, Hp. reflexivity.
Qed.

Lemma tallied_parts_perm records records' package :
  records ≡ₚ records' →
  parts (tallied records package) = parts (tallied records' package).
Proof.
  intros Hp. unfold parts.
  rewrite (tallied_features_perm _ _ _ Hp).
  rewrite !tallied_thread_names, !tallied_file_paths, !tallied_ip_addresses,
    !tallied_database_files.
  assert (Hseen : ∀ field, seen field records = seen field records').
  { intros field. unfold seen. apply list_to_set_perm_strings.
    rewrite Hp. reflexivity. }
  assert (Hips : connected_ips records = connected_ips records').
  { unfold connected_ips. apply list_to_set_perm_strings.
    rewrite Hp. reflexivity. }
  assert (Hdbs : opened_databases records = opened_databases records').
  { unfold opened_databases. apply list_to_set_perm_strings.
    rewrite Hp. reflexivity. }
  rewrite !Hseen, Hips, Hdbs. reflexivity.
Qed.

(** X18: the feature vector does not depend on the order of the
    records: the counters are sums, the flags are disjunctions and the
    rest is read off sets, so a trace and any rearrangement of it give the
    same vector. *)
Theorem extraction_ignores_order iter records records' package :
  records ≡ₚ records' →
  extract_features iter records package
  = extract_features iter records' package.
Proof.
  intros Hp. pose proof (Permutation_length Hp) as Hlen.
  destruct records as [|r records], records' as [|r' records'];
    try discriminate Hlen; [reflexivity|].
  apply extract_features_parts; [exact Hlen|].
  apply tallied_parts_perm, Hp.
Qed.

Lemma extraction_ignores_order_witness :
  extract_features elements sample_trace "app"
  = extract_features elements (reverse sample_trace) "app".
Proof.
  apply (extraction_ignores_order elements sample_trace (reverse sample_trace)).
  symmetry. apply reverse_Permutation.
Defined.

(** ** Anchored patterns *)

Lemma re_match_Eol s : re_match Eol s = at_eol s.
Proof.
  destruct s as [|c s]; cbn [re_match nullable deriv]; [apply orb_false_r|].
  rewrite re_match_Fail. apply orb_false_r.
Qed.

Lemma after_eol p s :
  match after p s with
  | Some rest => at_eol rest
  | None => false
  end
  = (s =? p) || (s =? p +:+ String PyStr.newline "").
Proof.
  revert s. induction p as [|x p IH]; intros s.
  - change ("" +:+ String PyStr.newline "") with (String PyStr.newline "").
    cbn [after]. destruct s as [|c [|c' s]]; cbn [at_eol String.eqb orb];
      [reflexivity|..]; destruct (Ascii.eqb c PyStr.newline); reflexivity.
  - change (String x p +:+ String PyStr.newline "")
      with (String x (p +:+ String PyStr.newline "")).
    destruct s as [|c s]; [reflexivity|].
    cbn [after String.eqb]. destruct (Ascii.eqb c x); [apply IH|reflexivity].
Qed.

Lemma re_match_lit_Eol p s :
  re_match (Cat (lit p) Eol) s
  = (s =? p) || (s =? p +:+ String PyStr.newline "").
Proof.
  rewrite re_match_lit_Cat, <- after_eol.
  destruct (after p s); [apply re_match_Eol|reflexivity].
Qed.

(** [P$] under [re.search]: the text ends with [P], or with [P] and one
    newline. *)
Lemma suffix_pattern p s :
  re_search (Cat (lit p) Eol) s
  = PyStr.endswith s p || PyStr.endswith s (p +:+ String PyStr.newline "").
Proof.
  induction s as [|c s IH]; cbn [re_search PyStr.endswith].
  - rewrite re_match_lit_Eol. btauto.
  - rewrite IH, re_match_lit_Eol. btauto.
Qed.

(** X19: the anchored path patterns are suffix tests. A path is a
    write-ahead log, a shared-memory file or a journal of a database, or
    a native library, exactly when it ends with the pattern's text, or
    with that text followed by one newline (the anchor [$] also holds
    before a final newline). *)
Theorem anchored_patterns_are_suffixes category suffix path :
  (category, suffix) ∈ path_suffixes →
  path_is category path
  = PyStr.endswith path suffix
    || PyStr.endswith path (suffix +:+ String PyStr.newline "").
Proof.
  intros Hin. unfold path_suffixes in Hin.
  repeat (apply elem_of_cons in Hin as [[= -> ->]|Hin]);
    try (unfold path_is, PATH_PATTERNS;
         cbn [subscript String.eqb Ascii.eqb Bool.eqb];
         apply suffix_pattern).
  inversion Hin.
Qed.

Lemma anchored_patterns_are_suffixes_witness :
  path_is "native_lib" "/data/app/lib/libx.so"
  = PyStr.endswith "/data/app/lib/libx.so" ".so"
    || PyStr.endswith "/data/app/lib/libx.so" (".so" +:+ String PyStr.newline "").
Proof.
  apply (anchored_patterns_are_suffixes "native_lib").
  unfold path_suffixes. do 3 (apply elem_of_cons; right). constructor.
Defined.

(** ** The order of the trace files *)

Lemma ascii_compare_refl c : Ascii.compare c c = Eq.
Proof. apply N.compare_refl. Qed.

Lemma ascii_compare_lt_trans a b c :
  Ascii.compare a b = Lt → Ascii.compare b c = Lt → Ascii.compare a c = Lt.
Proof.
  unfold Ascii.compare. rewrite !N.compare_lt_iff. apply N.lt_trans.
Qed.

Lemma compare_lt_trans a b c :
  String.compare a b = Lt → String.compare b c = Lt → String.compare a c = Lt.
Proof.
  revert b c. induction a as [|x a IH]; intros [|y b] [|z c];
    cbn [String.compare]; try discriminate; try reflexivity.
  destruct (Ascii.compare x y) eqn:Exy, (Ascii.compare y z) eqn:Eyz;
    try discriminate.
  - apply Ascii.compare_eq_iff in Exy, Eyz. subst. rewrite ascii_compare_refl.
    apply IH.
  - apply Ascii.compare_eq_iff in Exy. subst. rewrite Eyz. reflexivity.
  - apply Ascii.compare_eq_iff in Eyz. subst. rewrite Exy. reflexivity.
  - rewrite (ascii_compare_lt_trans _ _ _ Exy Eyz). reflexivity.
Qed.

Lemma leb_trans a b c :
  String.leb a b = true → String.leb b c = true → String.leb a c = true.
Proof.
  unfold String.leb.
  destruct (String.compare a b) eqn:Eab; try discriminate;
    destruct (String.compare b c) eqn:Ebc; try discriminate; intros _ _.
  - apply String.compare_eq_iff in Eab. subst. rewrite Ebc. reflexivity.
  - apply String.compare_eq_iff in Eab. subst. rewrite Ebc. reflexivity.
  - apply String.compare_eq_iff in Ebc. subst. rewrite Eab. reflexivity.
  - rewrite (compare_lt_trans _ _ _ Eab Ebc). reflexivity.
Qed.

Lemma ltb_leb p q : String.ltb p q = true → String.leb p q = true.
Proof.
  unfold String.ltb, String.leb. destruct (String.compare p q); congruence.
Qed.

Lemma not_ltb_leb p q : String.ltb p q = false → String.leb q p = true.
Proof.
  unfold String.ltb, String.leb. rewrite (String.compare_antisym q p).
  destruct (String.compare p q); cbn [CompOpp]; congruence.
Qed.

Lemma insert_sorted_perm p l : insert_sorted p l ≡ₚ p :: l.
Proof.
  induction l as [|q l IH]; cbn [insert_sorted]; [reflexivity|].
  destruct (String.ltb p q); [reflexivity|].
  rewrite IH. apply Permutation_swap.
Qed.

Lemma sorted_perm l : sorted l ≡ₚ l.
Proof.
  unfold sorted. induction l as [|x l IH]; cbn [foldr]; [reflexivity|].
  rewrite insert_sorted_perm, IH. reflexivity.
Qed.

Lemma insert_sorted_ordered p l :
  StronglySorted (fun a b => String.leb a b = true) l →
  StronglySorted (fun a b => String.leb a b = true) (insert_sorted p l).
Proof.
  induction 1 as [|q l Hl IH Hq]; cbn [insert_sorted].
  - repeat constructor.
  - destruct (String.ltb p q) eqn:E.
    + constructor; [constructor; assumption|].
      apply ltb_leb in E. constructor; [exact E|].
      eapply Forall_impl; [exact Hq|]. intros x Hx. cbv beta in *.
      apply (leb_trans _ _ _ E Hx).
    + constructor; [exact IH|].
      apply Forall_forall. intros x Hx. apply insert_sorted_elem in Hx as [->|Hx].
      * apply not_ltb_leb, E.
      * rewrite Forall_forall in Hq. apply Hq, Hx.
Qed.

Lemma sorted_ordered l :
  StronglySorted (fun a b => String.leb a b = true) (sorted l).
Proof.
  unfold sorted. induction l as [|x l IH]; cbn [foldr]; [constructor|].
  apply insert_sorted_ordered, IH.
Qed.

(** Sorting gives one result for all the orders of its input. *)
Lemma sorted_canonical l l' : l ≡ₚ l' → sorted l = sorted l'.
Proof.
  intros Hp.
  apply (StronglySorted_unique_strong (fun a b => String.leb a b = true)).
  - intros x y _ _ Hxy Hyx. apply String.leb_antisym; assumption.
  - apply sorted_ordered.
  - apply sorted_ordered.
  - rewrite !sorted_perm. exact Hp.
Qed.

Lemma find_ext {A} (f g : A → bool) l :
  (∀ x, f x = g x) → find f l = find g l.
Proof.
  intros H. induction l as [|x l IH]; [reflexivity|].
  cbn [find]. rewrite H, IH. reflexivity.
Qed.

(** X20: the dataset depends on the set of files of the directory, not
    on the order in which the directory lists them: two directories with
    the same names in any order and the same file contents give the same
    outcome, the same rows in the same order or the same error. *)
Theorem listing_order_is_irrelevant iter fs fs' trace_dir :
  listdir fs ≡ₚ listdir fs' →
  (∀ p, open_ fs p = open_ fs' p) →
  process_all_traces iter fs trace_dir = process_all_traces iter fs' trace_dir.
Proof.
  intros Hlist Hopen.
  assert (Hglob : glob_log fs trace_dir ≡ₚ glob_log fs' trace_dir).
  { unfold glob_log. rewrite Hlist. reflexivity. }
  pose proof (sorted_canonical _ _ Hglob) as Hsorted.
  unfold process_all_traces.
  destruct (glob_log fs trace_dir) as [|p l] eqn:E,
           (glob_log fs' trace_dir) as [|p' l'] eqn:E'.
  - reflexivity.
  - apply Permutation_nil_l in Hglob. discriminate.
  - apply Permutation_nil_r in Hglob. discriminate.
  - rewrite Hsorted, !gather_cases.
    rewrite (find_ext (fun p => negb (clean fs p)) (fun p => negb (clean fs' p)))
      by (intros x; unfold clean; rewrite Hopen; reflexivity).
    destruct (find _ (sorted (p' :: l'))) as [q|].
    + unfold error_of. rewrite Hopen. reflexivity.
    + rewrite !bind_Ok. cbn [app]. rewrite !write_rows, !bind_Ok.
      do 2 f_equal. apply list_fmap_ext. intros _ q _.
      unfold row_of, records_of. rewrite Hopen. reflexivity.
Qed.

Lemma listing_order_is_irrelevant_witness :
  process_all_traces elements sample_fs "traces"
  = process_all_traces elements relisted_fs "traces".
Proof.
  apply (listing_order_is_irrelevant elements sample_fs relisted_fs).
  - apply (bool_decide_unpack
             (listdir sample_fs ≡ₚ listdir relisted_fs)).
    vm_compute. exact I.
  - intros p. reflexivity.
Defined.

(** ** The matches of the token pattern *)

Lemma span_fst p s : all_chars p (PyStr.span p s).1 = true.
Proof.
  unfold all_chars. induction s as [|c s IH]; [reflexivity|].
  cbn [PyStr.span]. destruct (p c) eqn:E; [|reflexivity].
  destruct (PyStr.span p s) as [a b]. cbn [fst list_ascii_of_string forallb] in *.
  rewrite E, IH. reflexivity.
Qed.

Lemma span_snd_no_equals p s :
  no_equals s = true → no_equals (PyStr.span p s).2 = true.
Proof.
  unfold no_equals, all_chars. induction s as [|c s IH]; [reflexivity|].
  cbn [PyStr.span list_ascii_of_string forallb].
  intros [Hc Hs]%andb_true_iff. destruct (p c).
  - destruct (PyStr.span p s) as [a b]. cbn [snd] in *. apply IH, Hs.
  - cbn [snd list_ascii_of_string forallb]. rewrite Hc, Hs. reflexivity.
Qed.

Lemma upto_quote_value s v : upto_quote s = Some v → quoted_value v = true.
Proof.
  unfold quoted_value, all_chars. revert v.
  induction s as [|c s IH]; intros v; cbn [upto_quote]; [discriminate|].
  destruct (Ascii.eqb c PyStr.quote) eqn:E.
  - intros [= <-]. reflexivity.
  - destruct (upto_quote s) as [v'|]; [|discriminate].
    intros [= <-]. cbn [list_ascii_of_string forallb]. rewrite E, (IH v' eq_refl).
    reflexivity.
Qed.

Lemma unquoted_value key rest k v n :
  unquoted key rest = Some (k, v, n) → k = key ∧ bare_value v = true.
Proof.
  unfold unquoted, bare_value.
  pose proof (span_fst (fun c => negb (PyStr.is_space c)) rest) as Hspan.
  destruct (PyStr.span _ rest) as [a b]. cbn [fst] in Hspan.
  destruct (PyStr.is_empty a) eqn:E; [discriminate|].
  intros [= <- <- _]. rewrite E, Hspan. split; reflexivity.
Qed.

Lemma match_token_shape s k v n :
  match_token s = Some (k, v, n) →
  word k = true ∧ (quoted_value v = true ∨ bare_value v = true).
Proof.
  unfold match_token, word.
  pose proof (span_fst PyStr.is_word s) as Hspan.
  destruct (PyStr.span PyStr.is_word s) as [key r1]. cbn [fst] in Hspan.
  destruct (PyStr.is_empty key) eqn:E; [discriminate|].
  destruct r1 as [|c r2]; [discriminate|].
  destruct (Ascii.eqb_spec c "="); [subst c|
    destruct c as [[] [] [] [] [] [] [] []]; try discriminate; congruence].
  destruct r2 as [|q r3]; [discriminate|].
  destruct (Ascii.eqb q PyStr.quote).
  - destruct (upto_quote r3) as [v'|] eqn:Eq.
    + intros [= <- <- _]. rewrite E, Hspan. split; [reflexivity|].
      left. apply (upto_quote_value _ _ Eq).
    + intros H. apply unquoted_value in H as [-> Hv].
      rewrite E, Hspan. split; [reflexivity|right; exact Hv].
  - intros H. apply unquoted_value in H as [-> Hv].
    rewrite E, Hspan. split; [reflexivity|right; exact Hv].
Qed.

Lemma finditer_from_shape skip s :
  Forall (fun kv : string * string =>
            word kv.1 = true
            ∧ (quoted_value kv.2 = true ∨ bare_value kv.2 = true))
    (finditer_from skip s).
Proof.
  revert skip. induction s as [|c s IH]; intros skip; [constructor|].
  cbn [finditer_from]. destruct skip as [|k]; [|apply IH].
  destruct (match_token (String c s)) as [[[key value] n]|] eqn:E; [|apply IH].
  constructor; [|apply IH]. apply (match_token_shape _ _ _ _ E).
Qed.

(** X21: the shape of the matches. In every match of a line the key is
    a non-empty run of word characters; the value holds no double quote
    (it was taken from between quotes, and may be empty) or it is not
    empty and holds no white space (it was taken bare). *)
Theorem matches_are_well_shaped line :
  Forall (fun kv : string * string =>
            word kv.1 = true
            ∧ (quoted_value kv.2 = true ∨ bare_value kv.2 = true))
    (finditer line).
Proof. apply finditer_from_shape. Qed.

Lemma match_token_no_equals s : no_equals s = true → match_token s = None.
Proof.
  intros H. unfold match_token.
  pose proof (span_snd_no_equals PyStr.is_word s H) as Hsnd.
  destruct (PyStr.span PyStr.is_word s) as [key r1]. cbn [snd] in Hsnd.
  destruct (PyStr.is_empty key); [reflexivity|].
  destruct r1 as [|c r2]; [reflexivity|].
  unfold no_equals, all_chars in Hsnd.
  cbn [list_ascii_of_string forallb] in Hsnd.
  apply andb_true_iff in Hsnd as [Hc _].
  destruct (Ascii.eqb_spec c "="); [discriminate|].
  destruct c as [[] [] [] [] [] [] [] []]; try reflexivity. congruence.
Qed.

Lemma finditer_from_no_equals skip s :
  no_equals s = true → finditer_from skip s = [].
Proof.
  revert skip. induction s as [|c s IH]; intros skip H; [reflexivity|].
  cbn [finditer_from].
  assert (Hs : no_equals s = true).
  { unfold no_equals, all_chars in *. cbn [list_ascii_of_string forallb] in H.
    apply andb_true_iff in H as [_ H]. exact H. }
  destruct skip as [|k]; [|apply IH, Hs].
  rewrite (match_token_no_equals _ H). apply IH, Hs.
Qed.

(** X22: a line without an equals sign holds no match: the parser
    returns no record for it and raises nothing, whatever else the line
    holds. *)
Theorem line_without_equals line :
  no_equals line = true →
  finditer line = [] ∧ parse_syscall_line line = Ok None.
Proof.
  intros H. pose proof (finditer_from_no_equals 0 line H) as Hnone.
  split; [exact Hnone|].
  unfold parse_syscall_line. fold (finditer_from 0 line) in Hnone.
  unfold finditer. rewrite Hnone.
  destruct (_ || _); reflexivity.
Qed.

Lemma line_without_equals_witness :
  finditer "openat /data/app/base.db" = []
  ∧ parse_syscall_line "openat /data/app/base.db" = Ok None.
Proof.
  apply (line_without_equals "openat /data/app/base.db"). reflexivity.
Defined.

(** ** The package name of a trace file *)

Lemma remove_from_skip old u b :
  PyStr.remove_from old (String.length u) (u +:+ b) = PyStr.remove_from old 0 b.
Proof.
  induction u as [|c u IH]; [destruct b; reflexivity|].
  change (String c u +:+ b) with (String c (u +:+ b)).
  cbn [String.length PyStr.remove_from]. exact IH.
Qed.

Lemma remove_all_absent old s : occurs old s = false → PyStr.remove_all old s = s.
Proof.
  unfold PyStr.remove_all. induction s as [|c s IH]; [reflexivity|].
  cbn [occurs PyStr.remove_from]. intros [Hp Hs]%orb_false_iff.
  rewrite Hp, andb_false_r, (IH Hs). reflexivity.
Qed.

Lemma prefix_refl s : String.prefix s s = true.
Proof.
  induction s as [|c s IH]; [reflexivity|].
  rewrite prefix_cons, Ascii.eqb_refl. exact IH.
Qed.

(** One occurrence, at the end, is cut off. *)
Lemma remove_all_at_end old stem :
  PyStr.is_empty old = false →
  (∀ a b, stem = a +:+ b → PyStr.is_empty b = false →
          String.prefix old (b +:+ old) = false) →
  PyStr.remove_all old (stem +:+ old) = stem.
Proof.
  intros Hold. unfold PyStr.remove_all.
  induction stem as [|c stem IH]; intros Hfree.
  - destruct old as [|c old]; [discriminate|].
    change ("" +:+ String c old) with (String c old).
    cbn [PyStr.remove_from]. rewrite prefix_refl. cbn [negb PyStr.is_empty andb].
    replace (String.length (String c old) - 1)%nat with (String.length old)
      by (cbn [String.length]; lia).
    replace (PyStr.remove_from (String c old) (String.length old) old)
      with (PyStr.remove_from (String c old) (String.length old) (old +:+ ""))
      by (rewrite append_empty; reflexivity).
    rewrite remove_from_skip. reflexivity.
  - change (String c stem +:+ old) with (String c (stem +:+ old)).
    cbn [PyStr.remove_from].
    change (String c (stem +:+ old)) with (String c stem +:+ old).
    rewrite (Hfree "" (String c stem)) by reflexivity.
    rewrite andb_false_r. f_equal. apply IH.
    intros a b -> Hb. apply (Hfree (String c a) b); [reflexivity|exact Hb].
Qed.

Lemma occurs_suffix old a b : occurs old (a +:+ b) = false → occurs old b = false.
Proof.
  induction a as [|c a IH]; [tauto|].
  change (String c a +:+ b) with (String c (a +:+ b)). cbn [occurs].
  intros [_ H]%orb_false_iff. apply IH, H.
Qed.

Lemma prefix_append p b : String.prefix p (p +:+ b) = true.
Proof.
  induction p as [|c p IH]; [destruct b; reflexivity|].
  change (String c p +:+ b) with (String c (p +:+ b)).
  rewrite prefix_cons, Ascii.eqb_refl. exact IH.
Qed.

Lemma occurs_prefix old b : occurs old (old +:+ b) = false → False.
Proof.
  destruct (old +:+ b) eqn:E; cbn [occurs]; rewrite <- E, prefix_append;
    discriminate.
Qed.

(** From a prefix test that holds to the first character and the rest. *)
Ltac peel H :=
  rewrite prefix_cons in H;
  match type of H with
  | (match ?s +:+ _ with _ => _ end) = true =>
      destruct s as [|? s];
      [ try (vm_compute in H; discriminate H)
      | change (String ?c s +:+ ?t) with (String c (s +:+ t)) in H;
        apply andb_true_iff in H as [?%Ascii.eqb_eq H]; subst ]
  end.

(** No occurrence of [.log] in front: [.log] at the end is the only
    one. *)
Lemma log_only_at_end b :
  occurs ".log" b = false → PyStr.is_empty b = false →
  String.prefix ".log" (b +:+ ".log") = false.
Proof.
  intros Hocc Hb. apply not_true_is_false. intros H.
  destruct b as [|c0 b]; [discriminate|]. clear Hb.
  change (String c0 b +:+ ".log") with (String c0 (b +:+ ".log")) in H.
  rewrite prefix_cons in H. apply andb_true_iff in H as [?%Ascii.eqb_eq H]. subst.
  do 3 (peel H; [idtac..]).
  all: try (apply (occurs_prefix ".log" b); exact Hocc).
Qed.

Lemma syscall_log_only_at_end b :
  occurs ".log" b = false → PyStr.is_empty b = false →
  String.prefix ".syscall.log" (b +:+ ".syscall.log") = false.
Proof.
  intros Hocc Hb. apply not_true_is_false. intros H.
  destruct b as [|c0 b]; [discriminate|]. clear Hb.
  change (String c0 b +:+ ".syscall.log")
    with (String c0 (b +:+ ".syscall.log")) in H.
  rewrite prefix_cons in H. apply andb_true_iff in H as [?%Ascii.eqb_eq H]. subst.
  do 11 (peel H; [idtac..]).
  apply (occurs_suffix ".log" ".syscall" (".log" +:+ b)) in Hocc.
  apply (occurs_prefix ".log" b Hocc).
Qed.

Lemma endswith_tail c s suf :
  PyStr.endswith (String c s) suf = false → PyStr.endswith s suf = false.
Proof. cbn [PyStr.endswith]. intros [_ H]%orb_false_iff. exact H. Qed.

Lemma occurs_tail old c s : occurs old (String c s) = false → occurs old s = false.
Proof. cbn [occurs]. intros [_ H]%orb_false_iff. exact H. Qed.

(** Without [.log] in the stem, and without [.syscall] at its end, the
    name [stem.log] holds no [.syscall.log]. *)
Lemma no_syscall_log stem :
  occurs ".log" stem = false → PyStr.endswith stem ".syscall" = false →
  occurs ".syscall.log" (stem +:+ ".log") = false.
Proof.
  induction stem as [|c0 b IH]; intros Hocc Hend; [reflexivity|].
  change (String c0 b +:+ ".log") with (String c0 (b +:+ ".log")).
  cbn [occurs]. rewrite (IH (occurs_tail _ _ _ Hocc) (endswith_tail _ _ _ Hend)).
  rewrite orb_false_r. apply not_true_is_false. intros H.
  rewrite prefix_cons in H. apply andb_true_iff in H as [?%Ascii.eqb_eq H]. subst.
  do 7 (peel H; [idtac..]).
  rewrite prefix_cons in H.
  destruct b as [|c b]; [vm_compute in Hend; discriminate Hend|].
  change (String c b +:+ ".log") with (String c (b +:+ ".log")) in H.
  apply andb_true_iff in H as [?%Ascii.eqb_eq H]. subst.
  do 3 (peel H; [idtac..]).
  apply (occurs_suffix ".log" ".syscall" (".log" +:+ b)) in Hocc.
  apply (occurs_prefix ".log" b Hocc).
Qed.

Lemma no_slash_chars name :
  no_slash name = true →
  existsb (Ascii.eqb "/") (list_ascii_of_string name) = false.
Proof.
  unfold no_slash, all_chars. induction name as [|c name IH]; [reflexivity|].
  cbn [list_ascii_of_string forallb existsb].
  intros [Hc Hn]%andb_true_iff. apply negb_true_iff in Hc.
  rewrite Hc, (IH Hn). reflexivity.
Qed.

Lemma slash_chars dir name :
  existsb (Ascii.eqb "/") (list_ascii_of_string (dir +:+ "/" +:+ name)) = true.
Proof.
  induction dir as [|c dir IH]; [reflexivity|].
  change (String c dir +:+ "/" +:+ name) with (String c (dir +:+ "/" +:+ name)).
  cbn [list_ascii_of_string existsb]. rewrite IH. apply orb_true_r.
Qed.

(** The base name of a file of a directory is its name. *)
Lemma basename_join dir name :
  no_slash name = true → basename (dir +:+ "/" +:+ name) = name.
Proof.
  intros Hn. induction dir as [|c dir IH].
  - change ("" +:+ "/" +:+ name) with (String "/" name).
    cbn [basename]. rewrite (no_slash_chars _ Hn). reflexivity.
  - change (String c dir +:+ "/" +:+ name) with (String c (dir +:+ "/" +:+ name)).
    cbn [basename]. rewrite slash_chars. exact IH.
Qed.

Lemma all_chars_app p a b :
  all_chars p (a +:+ b) = all_chars p a && all_chars p b.
Proof.
  unfold all_chars. induction a as [|c a IH]; [reflexivity|].
  change (String c a +:+ b) with (String c (a +:+ b)).
  cbn [list_ascii_of_string forallb]. rewrite IH. apply andb_assoc.
Qed.

(** X23: the package name of a trace file. For a file of the trace
    directory named [stem.syscall.log], where the stem holds no slash and
    no [.log], the derived package name is the stem; the same holds for a
    file named [stem.log] whose stem does not end with [.syscall]. The
    directory plays no part. *)
Theorem package_of_trace_file dir stem :
  no_slash stem = true →
  occurs ".log" stem = false →
  package_of (dir +:+ "/" +:+ stem +:+ ".syscall.log") = stem
  ∧ (PyStr.endswith stem ".syscall" = false →
     package_of (dir +:+ "/" +:+ stem +:+ ".log") = stem).
Proof.
  intros Hslash Hocc. unfold package_of. split.
  - rewrite basename_join
      by (unfold no_slash; rewrite all_chars_app; fold (no_slash stem);
          rewrite Hslash; reflexivity).
    rewrite remove_all_at_end; [apply remove_all_absent, Hocc|reflexivity|].
    intros a b -> Hb. apply syscall_log_only_at_end; [|exact Hb].
    apply (occurs_suffix _ _ _ Hocc).
  - intros Hend.
    rewrite basename_join
      by (unfold no_slash; rewrite all_chars_app; fold (no_slash stem);
          rewrite Hslash; reflexivity).
    rewrite (remove_all_absent ".syscall.log") by (apply no_syscall_log; assumption).
    apply remove_all_at_end; [reflexivity|].
    intros a b -> Hb. apply log_only_at_end; [|exact Hb].
    apply (occurs_suffix _ _ _ Hocc).
Qed.

Lemma package_of_trace_file_witness :
  package_of ("traces" +:+ "/" +:+ "com.example.app" +:+ ".syscall.log")
  = "com.example.app"
  ∧ package_of ("traces" +:+ "/" +:+ "com.example.app" +:+ ".log")
    = "com.example.app".
Proof.
  destruct (package_of_trace_file "traces" "com.example.app") as [H1 H2];
    [reflexivity..|].
  split; [exact H1|apply H2; reflexivity].
Defined.

(** ** Reading back a written line *)

Lemma span_all p a rest :
  all_chars p a = true →
  match rest with EmptyString => true | String c _ => negb (p c) end = true →
  PyStr.span p (a +:+ rest) = (a, rest).
Proof.
  unfold all_chars. intros Ha Hrest. induction a as [|c a IH].
  - change ("" +:+ rest) with rest. destruct rest as [|c rest]; [reflexivity|].
    cbn [PyStr.span]. apply negb_true_iff in Hrest. rewrite Hrest. reflexivity.
  - cbn [list_ascii_of_string forallb] in Ha. apply andb_true_iff in Ha as [Hc Ha].
    change (String c a +:+ rest) with (String c (a +:+ rest)).
    cbn [PyStr.span]. rewrite Hc, (IH Ha). reflexivity.
Qed.

Lemma finditer_from_skip u rest :
  finditer_from (String.length u) (u +:+ rest) = finditer_from 0 rest.
Proof.
  induction u as [|c u IH]; [reflexivity|].
  change (String c u +:+ rest) with (String c (u +:+ rest)).
  cbn [String.length finditer_from]. exact IH.
Qed.

Lemma length_append a b :
  String.length (a +:+ b) = (String.length a + String.length b)%nat.
Proof.
  induction a as [|c a IH]; [reflexivity|].
  change (String c a +:+ b) with (String c (a +:+ b)).
  cbn [String.length]. rewrite IH. reflexivity.
Qed.

Lemma append_assoc a b c : (a +:+ b) +:+ c = a +:+ b +:+ c.
Proof.
  induction a as [|x a IH]; [reflexivity|].
  change (String x a +:+ b) with (String x (a +:+ b)).
  change (String x (a +:+ b) +:+ c) with (String x ((a +:+ b) +:+ c)).
  rewrite IH. reflexivity.
Qed.

Lemma boundary_not_bare rest :
  boundary rest = true →
  match rest with
  | EmptyString => true
  | String c _ => negb (negb (PyStr.is_space c))
  end = true.
Proof. destruct rest; [reflexivity|]. cbn [boundary]. intros ->. reflexivity. Qed.

(** The attempt at the start of a written token finds the token. *)
Lemma match_token_render k v rest :
  word k = true → quoted_value v = true → boundary rest = true →
  ∃ n, match_token (render (k, v) +:+ rest) = Some (k, v, n)
       ∧ n = String.length (render (k, v)).
Proof.
  unfold word, render. cbn [fst snd].
  intros [Hne Hword]%andb_true_iff Hquote Hrest.
  apply negb_true_iff in Hne.
  destruct (bare_value v) eqn:Hbare.
  - unfold bare_value in Hbare. apply andb_true_iff in Hbare as [Hv Hbare].
    apply negb_true_iff in Hv.
    exists (String.length k + 1 + String.length v)%nat. split.
    + unfold match_token. rewrite append_assoc.
      rewrite (span_all PyStr.is_word k _ Hword) by reflexivity.
      rewrite Hne.
      destruct v as [|q v]; [discriminate|].
      change (("=" +:+ String q v) +:+ rest)
        with (String "=" (String q (v +:+ rest))).
      cbv iota beta.
      unfold quoted_value, all_chars in Hquote.
      cbn [list_ascii_of_string forallb] in Hquote.
      apply andb_true_iff in Hquote as [Hq _]. apply negb_true_iff in Hq.
      rewrite Hq. unfold unquoted.
      change (String q (v +:+ rest)) with (String q v +:+ rest).
      rewrite (span_all _ (String q v) rest Hbare (boundary_not_bare _ Hrest)).
      reflexivity.
    + rewrite !length_append. cbn [String.length]. lia.
  - exists (String.length k + 1 + String.length v + 2)%nat. split.
    + unfold match_token. rewrite append_assoc.
      rewrite (span_all PyStr.is_word k _ Hword) by reflexivity.
      rewrite Hne.
      change (("=" +:+ String PyStr.quote (v +:+ String PyStr.quote "")) +:+ rest)
        with (String "=" (String PyStr.quote ((v +:+ String PyStr.quote "") +:+ rest))).
      cbv iota beta. rewrite Ascii.eqb_refl.
      assert (Hup : upto_quote ((v +:+ String PyStr.quote "") +:+ rest) = Some v).
      { clear -Hquote. unfold quoted_value, all_chars in Hquote.
        induction v as [|c v IH].
        - reflexivity.
        - cbn [list_ascii_of_string forallb] in Hquote.
          apply andb_true_iff in Hquote as [Hc Hv]. apply negb_true_iff in Hc.
          change ((String c v +:+ String PyStr.quote "") +:+ rest)
            with (String c ((v +:+ String PyStr.quote "") +:+ rest)).
          cbn [upto_quote]. rewrite Hc, (IH Hv). reflexivity. }
      rewrite Hup. reflexivity.
    + rewrite !length_append. cbn [String.length]. rewrite !length_append.
      cbn [String.length]. lia.
Qed.

Lemma render_nonempty k v :
  word k = true → ∃ c s, render (k, v) = String c s.
Proof.
  unfold word, render. cbn [fst snd]. intros [Hne _]%andb_true_iff.
  destruct k as [|c k]; [discriminate|].
  destruct (bare_value v); eexists _, _; reflexivity.
Qed.

Lemma finditer_render k v rest :
  word k = true → quoted_value v = true → boundary rest = true →
  finditer_from 0 (render (k, v) +:+ rest) = (k, v) :: finditer_from 0 rest.
Proof.
  intros Hk Hv Hrest.
  destruct (match_token_render k v rest Hk Hv Hrest) as (n & Hm & Hn).
  destruct (render_nonempty k v Hk) as (c & s & Hr).
  rewrite Hr in Hm, Hn |- *.
  change (String c s +:+ rest) with (String c (s +:+ rest)) in Hm |- *.
  cbn [finditer_from]. rewrite Hm. f_equal.
  rewrite Hn.
  replace (String.length (String c s) - 1)%nat with (String.length s)
    by (cbn [String.length]; lia).
  apply finditer_from_skip.
Qed.

Lemma finditer_space rest :
  finditer_from 0 (" " +:+ rest) = finditer_from 0 rest.
Proof. reflexivity. Qed.

(** X24: a written line is read back. For keys that are non-empty runs
    of word characters and values without a double quote, the matches of
    the line made of the tokens [key=value] (the value between double
    quotes when it is empty or holds white space), one space between two
    tokens, are these keys and values, in their order. *)
Theorem written_line_is_read_back tokens :
  Forall (fun kv : string * string =>
            word kv.1 = true ∧ quoted_value kv.2 = true) tokens →
  finditer (render_line tokens) = tokens.
Proof.
  unfold finditer. induction 1 as [|[k v] tokens [Hk Hv] Hall IH]; [reflexivity|].
  cbn [render_line fst snd] in *. destruct tokens as [|kv tokens].
  - rewrite (finditer_render k v "" Hk Hv eq_refl). reflexivity.
  - rewrite (finditer_render k v (" " +:+ render_line (kv :: tokens)) Hk Hv eq_refl).
    rewrite finditer_space, IH. reflexivity.
Qed.

Lemma written_line_is_read_back_witness :
  finditer
    (render_line [("syscall", "openat"); ("comm", "OkHttp Dispatcher");
                  ("path", "/data/app/base.db")])
  = [("syscall", "openat"); ("comm", "OkHttp Dispatcher");
     ("path", "/data/app/base.db")].
Proof.
  apply (written_line_is_read_back
           [("syscall", "openat"); ("comm", "OkHttp Dispatcher");
            ("path", "/data/app/base.db")]).
  repeat constructor.
Defined.
